(** * Shop: the marketplace data model and its settlement invariants

    The backend of the marketplace is a set of Django model declarations
    (apps/shops, apps/products, apps/orders, apps/payments, apps/discounts).
    This development embeds the declarations that the order / commission /
    payout / coupon properties depend on:

    - every model class is a record with the declared fields, in the
      declared order; [choices] lists are association lists of strings;
    - a [DecimalField] with [decimal_places=2] holds an integer number of
      hundredths (10.00 is 1000), a nullable field is an [option], a
      [ForeignKey] holds the primary key of the row it points to;
    - the meaning Django gives to the declarations is written out:
      field defaults, field validation ([clean_fields]), the constraints the
      database enforces on INSERT (primary key, foreign keys, [unique],
      [unique_together], the [>= 0] check of [PositiveIntegerField]) and the
      deletion collector that interprets [on_delete].

    The order-confirmation, discount and commission operations are not part
    of the source tree; where a property speaks about them they are modelled
    from the specification and marked as such.

    The constraints are shown to hold in every state reachable by the
    modelled operations ([reachable_consistent]); the properties of stored
    rows are stated for every state that satisfies them. *)

From Stdlib Require Import ZArith List String Bool Lia.
From Stdlib Require Ascii DecimalString DecimalZ DecimalPos.
Import ListNotations.

Open Scope string_scope.
Open Scope Z_scope.
Open Scope list_scope.

Set Implicit Arguments.

(** ** Outcomes of model operations *)

Inductive error : Type :=
| ValidationError (fields : list string)   (* django.core.exceptions *)
| IntegrityError (constraint : string)     (* django.db *)
| RestrictedError                          (* django.db.models.deletion *)
| DoesNotExist
| InvalidState                             (* specification, section 7 *)
| InvalidTransition
| CurrencyMismatch.

Inductive result (A : Type) : Type :=
| Ok (a : A)
| Err (e : error).

Arguments Ok {A} a.
Arguments Err {A} e.

Definition bind {A B : Type} (r : result A) (k : A -> result B) : result B :=
  match r with
  | Ok a => k a
  | Err e => Err e
  end.

Notation "x <- r ;; k" := (bind r (fun x => k))
  (at level 61, r at next level, right associativity).

Definition is_ok {A : Type} (r : result A) : bool :=
  match r with Ok _ => true | Err _ => false end.

(** ** Field types *)

Module Fields.

(** Value of a [DecimalField(decimal_places=2)], in hundredths. *)
Definition Decimal : Type := Z.

(** [d2 w f] is the decimal literal [w.f] with two decimal places. *)
Definition d2 (whole frac : Z) : Decimal := whole * 100 + frac.

Definition choice_values (choices : list (string * string)) : list string :=
  map fst choices.

Definition in_choices (choices : list (string * string)) (v : string) : bool :=
  existsb (String.eqb v) (choice_values choices).

Definition length_le (max_length : nat) (v : string) : bool :=
  Nat.leb (String.length v) max_length.

(** [CharField(max_length=n)], [blank=False]: the empty string is refused,
    any other value runs [MaxLengthValidator]. *)
Definition CharField_ok (max_length : nat) (v : string) : bool :=
  negb (String.eqb v "") && length_le max_length v.

(** [CharField(max_length=n, choices=c)], [blank=False]. *)
Definition ChoiceField_ok (max_length : nat) (choices : list (string * string))
    (v : string) : bool :=
  negb (String.eqb v "") && in_choices choices v && length_le max_length v.

(** [CharField(max_length=n, null=True, blank=True)]: [None] and the empty
    string skip the validators. *)
Definition NullCharField_ok (max_length : nat) (v : option string) : bool :=
  match v with
  | None => true
  | Some s => length_le max_length s
  end.

(** [DecimalValidator(max_digits, 2)] on a value that has two decimal
    places: at most [max_digits] digits overall, hence at most
    [max_digits - 2] before the point. *)
Definition DecimalField_ok (max_digits : Z) (v : Decimal) : bool :=
  Z.abs v <? 10 ^ max_digits.

Definition NullDecimalField_ok (max_digits : Z) (v : option Decimal) : bool :=
  match v with
  | None => true
  | Some d => DecimalField_ok max_digits d
  end.

(** [PositiveIntegerField]: the field declares no validator of its own;
    Django derives them from the integer range of the database backend in
    use, [connection.ops.integer_field_range]: [MinValueValidator(0)], and
    [MaxValueValidator(max_value)] where the backend names an upper end
    [max_value] of the range.  The upper end differs from one backend to
    another (2147483647 on PostgreSQL, a wider range on SQLite) and is no
    part of the models, so it is an argument here: [Some max_value], or
    [None] for a range without an upper end. *)
Definition PositiveIntegerField_min : Z := 0.

Definition PositiveIntegerField_ok (max_value : option Z) (v : Z) : bool :=
  (PositiveIntegerField_min <=? v)
  && match max_value with
     | Some m => v <=? m
     | None => true
     end.

(** The column check the database carries for a [PositiveIntegerField]. *)
Definition PositiveIntegerField_db_check (v : Z) : bool := 0 <=? v.

Definition NullPositiveIntegerField_db_check (v : option Z) : bool :=
  match v with
  | None => true
  | Some n => PositiveIntegerField_db_check n
  end.

(** A keyword argument left out of a constructor call takes the declared
    default. *)
Definition or_default {A : Type} (default : A) (given : option A) : A :=
  match given with
  | Some v => v
  | None => default
  end.

(** Names of the fields whose check failed, in declaration order. *)
Definition failing (checks : list (string * bool)) : list string :=
  map fst (filter (fun c => negb (snd c)) checks).

End Fields.

Import Fields.

(** ** apps/shops/models.py *)

Module Shop.

Definition STATUS_CHOICES : list (string * string) :=
  [ ("pending", "Pending");
    ("approved", "Approved");
    ("suspended", "Suspended");
    ("rejected", "Rejected") ].

Record t : Type := mk {
  shop_id : Z;
  owner : string;                      (* UserProfile.keycloak_user_id, RESTRICT *)
  shop_name : string;
  shop_slug : string;                  (* unique *)
  city : option string;
  state : option string;
  country : option string;
  address : option string;
  zip_code : option string;
  phone : option string;
  email : option string;
  description : option string;
  logo_url : option string;
  banner_url : option string;
  status : string;
  approval_date : option Z;
  approved_by : option string;
  commission_rate : Decimal;           (* max_digits=5 *)
  minimum_payout_amount : Decimal;     (* max_digits=10 *)
  shop_type : option string;
  business_license : option string;
  tax_id : option string;
  created_at : Z;
  updated_at : Z
}.

(** The declared defaults. *)
Definition default_status : string := "pending".
Definition default_commission_rate : Decimal := d2 10 00.
Definition default_minimum_payout_amount : Decimal := d2 50 00.

(** The keyword arguments of [Shop(...)].  Every field but the owner may be
    left out: a field with [default=] takes it ([default=10.00] and
    [default=50.00] are stored as the decimals 10.00 and 50.00), a nullable
    field is None, and a character field without default is the empty
    string.  A shop without owner cannot be saved. *)
Record kwargs : Type := mk_kwargs {
  kw_owner : string;
  kw_shop_name : option string;
  kw_shop_slug : option string;
  kw_city : option string;
  kw_state : option string;
  kw_country : option string;
  kw_address : option string;
  kw_zip_code : option string;
  kw_phone : option string;
  kw_email : option string;
  kw_description : option string;
  kw_logo_url : option string;
  kw_banner_url : option string;
  kw_status : option string;
  kw_approval_date : option Z;
  kw_approved_by : option string;
  kw_commission_rate : option Decimal;
  kw_minimum_payout_amount : option Decimal;
  kw_shop_type : option string;
  kw_business_license : option string;
  kw_tax_id : option string
}.

(** Construction with keyword arguments, followed by the first [save()]: [pk] is the key the
    [BigAutoField] receives, [now] the clock read by [auto_now_add] and
    [auto_now]. *)
Definition init (pk now : Z) (a : kwargs) : t :=
  {| shop_id := pk;
     owner := kw_owner a;
     shop_name := or_default "" (kw_shop_name a);
     shop_slug := or_default "" (kw_shop_slug a);
     city := kw_city a;
     state := kw_state a;
     country := kw_country a;
     address := kw_address a;
     zip_code := kw_zip_code a;
     phone := kw_phone a;
     email := kw_email a;
     description := kw_description a;
     logo_url := kw_logo_url a;
     banner_url := kw_banner_url a;
     status := or_default default_status (kw_status a);
     approval_date := kw_approval_date a;
     approved_by := kw_approved_by a;
     commission_rate := or_default default_commission_rate (kw_commission_rate a);
     minimum_payout_amount :=
       or_default default_minimum_payout_amount (kw_minimum_payout_amount a);
     shop_type := kw_shop_type a;
     business_license := kw_business_license a;
     tax_id := kw_tax_id a;
     created_at := now;
     updated_at := now |}.

(** A call that names the owner, the name and the slug only. *)
Definition named (owner_id name slug : string) : kwargs :=
  mk_kwargs owner_id (Some name) (Some slug) None None None None None None None
    None None None None None None None None None None None.

End Shop.

(** ** apps/products/models.py *)

Module Product.

Definition STATUS_CHOICES : list (string * string) :=
  [ ("draft", "Draft");
    ("active", "Active");
    ("inactive", "Inactive");
    ("archived", "Archived") ].

Record t : Type := mk {
  product_id : Z;
  shop : Z;                            (* Shop, CASCADE *)
  category : Z;                        (* Category, RESTRICT *)
  product_name : string;
  product_slug : string;
  description : option string;
  short_description : option string;
  sku : option string;
  brand : option string;
  status : string;
  featured : bool;
  created_at : Z;
  updated_at : Z
}.

End Product.

Module ProductVariant.

Record t : Type := mk {
  variant_id : Z;
  product : Z;                         (* Product, CASCADE *)
  variant_name : option string;
  sku : option string;
  price : Decimal;
  compare_price : option Decimal;
  cost_price : option Decimal;
  weight : option Decimal;
  dimensions_json : option string;
  barcode : option string;
  is_default : bool;
  created_at : Z
}.

End ProductVariant.

(** ** apps/orders/models.py *)

Module Order.

Definition STATUS_CHOICES : list (string * string) :=
  [ ("pending", "Pending");
    ("processing", "Processing");
    ("shipped", "Shipped");
    ("delivered", "Delivered");
    ("cancelled", "Cancelled");
    ("refunded", "Refunded");
    ("failed", "Failed") ].

Record t : Type := mk {
  order_id : Z;
  customer : string;                   (* UserProfile.keycloak_user_id, DO_NOTHING *)
  order_number : string;               (* unique *)
  status : string;
  subtotal : Decimal;
  tax_amount : Decimal;
  shipping_amount : Decimal;
  discount_amount : Decimal;
  total_amount : Decimal;
  currency : string;
  order_date : Z;
  shipped_date : option Z;
  delivered_date : option Z;
  cancelled_date : option Z;
  notes : option string
}.

Definition default_status : string := "pending".
Definition default_tax_amount : Decimal := d2 0 00.
Definition default_shipping_amount : Decimal := d2 0 00.
Definition default_discount_amount : Decimal := d2 0 00.

(** Assignment to one attribute of an instance. *)
Definition set_status (v : string) (o : t) : t :=
  mk (order_id o) (customer o) (order_number o) v (subtotal o) (tax_amount o)
     (shipping_amount o) (discount_amount o) (total_amount o) (currency o)
     (order_date o) (shipped_date o) (delivered_date o) (cancelled_date o)
     (notes o).

Definition set_discount_amount (v : Decimal) (o : t) : t :=
  mk (order_id o) (customer o) (order_number o) (status o) (subtotal o)
     (tax_amount o) (shipping_amount o) v (total_amount o) (currency o)
     (order_date o) (shipped_date o) (delivered_date o) (cancelled_date o)
     (notes o).

Definition set_total_amount (v : Decimal) (o : t) : t :=
  mk (order_id o) (customer o) (order_number o) (status o) (subtotal o)
     (tax_amount o) (shipping_amount o) (discount_amount o) v (currency o)
     (order_date o) (shipped_date o) (delivered_date o) (cancelled_date o)
     (notes o).

(** The per-field checks of [Model.clean_fields]: the key, the
    [auto_now_add] date and the nullable fields have nothing to check; the
    customer lives in the identity tables, outside this development. *)
Definition field_checks (o : t) : list (string * bool) :=
  [ ("order_number", CharField_ok 50 (order_number o));
    ("status", ChoiceField_ok 10 STATUS_CHOICES (status o));
    ("subtotal", DecimalField_ok 12 (subtotal o));
    ("tax_amount", DecimalField_ok 12 (tax_amount o));
    ("shipping_amount", DecimalField_ok 12 (shipping_amount o));
    ("discount_amount", DecimalField_ok 12 (discount_amount o));
    ("total_amount", DecimalField_ok 12 (total_amount o));
    ("currency", CharField_ok 10 (currency o)) ].

Definition clean_fields (o : t) : result unit :=
  match failing (field_checks o) with
  | [] => Ok tt
  | errors => Err (ValidationError errors)
  end.

End Order.

Module OrderItem.

Definition STATUS_CHOICES : list (string * string) :=
  [ ("pending", "Pending");
    ("shipped", "Shipped");
    ("delivered", "Delivered");
    ("cancelled", "Cancelled");
    ("refunded", "Refunded") ].

Record t : Type := mk {
  item_id : Z;
  order : Z;                           (* Order, CASCADE *)
  product : Z;                         (* Product, RESTRICT *)
  variant : Z;                         (* ProductVariant, RESTRICT *)
  shop : Z;                            (* Shop, RESTRICT *)
  quantity : Z;                        (* PositiveIntegerField *)
  unit_price : Decimal;                (* max_digits=10 *)
  total_price : Decimal;               (* max_digits=12 *)
  commission_rate : Decimal;           (* max_digits=5 *)
  commission_amount : Decimal;         (* max_digits=10 *)
  status : string;
  created_at : Z
}.

Definition default_status : string := "pending".

(** [clean_fields]; a [ForeignKey] is valid when the row it names exists,
    which the caller answers through the four lookups; [max_value] is the
    upper end of the backend's range for a [PositiveIntegerField]. *)
Definition field_checks (max_value : option Z)
    (has_order has_product has_variant has_shop : Z -> bool)
    (i : t) : list (string * bool) :=
  [ ("order", has_order (order i));
    ("product", has_product (product i));
    ("variant", has_variant (variant i));
    ("shop", has_shop (shop i));
    ("quantity", PositiveIntegerField_ok max_value (quantity i));
    ("unit_price", DecimalField_ok 10 (unit_price i));
    ("total_price", DecimalField_ok 12 (total_price i));
    ("commission_rate", DecimalField_ok 5 (commission_rate i));
    ("commission_amount", DecimalField_ok 10 (commission_amount i));
    ("status", ChoiceField_ok 10 STATUS_CHOICES (status i)) ].

Definition clean_fields (max_value : option Z)
    (has_order has_product has_variant has_shop : Z -> bool)
    (i : t) : result unit :=
  match failing (field_checks max_value
                   has_order has_product has_variant has_shop i) with
  | [] => Ok tt
  | errors => Err (ValidationError errors)
  end.

End OrderItem.

Module OrderAddress.

Definition ADDRESS_TYPE_CHOICES : list (string * string) :=
  [ ("billing", "Billing");
    ("shipping", "Shipping") ].

Record t : Type := mk {
  address_id : Z;
  order : Z;                           (* Order, CASCADE *)
  address_type : string;
  first_name : option string;
  last_name : option string;
  company : option string;
  address_line1 : string;
  address_line2 : option string;
  city : string;
  state : option string;
  country : string;
  postal_code : string;
  phone : option string
}.

(** [Meta.unique_together = ('order', 'address_type')] *)
Definition unique_together (a : t) : Z * string := (order a, address_type a).

End OrderAddress.

(** ** apps/payments/models.py *)

Module Commission.

Definition STATUS_CHOICES : list (string * string) :=
  [ ("pending", "Pending");
    ("cleared", "Cleared");
    ("paid_out", "Paid Out");
    ("disputed", "Disputed") ].

Record t : Type := mk {
  commission_id : Z;
  order : Z;                           (* Order, CASCADE *)
  shop : Z;                            (* Shop, CASCADE *)
  item : Z;                            (* OrderItem, CASCADE *)
  commission_rate : Decimal;           (* max_digits=5 *)
  gross_amount : Decimal;              (* max_digits=12 *)
  commission_amount : Decimal;         (* max_digits=10 *)
  platform_fee : Decimal;              (* max_digits=10 *)
  net_amount : Decimal;                (* max_digits=12 *)
  status : string;
  calculated_at : Z
}.

Definition default_platform_fee : Decimal := d2 0 00.
Definition default_status : string := "pending".

Definition field_checks (has_order has_shop has_item : Z -> bool) (c : t)
    : list (string * bool) :=
  [ ("order", has_order (order c));
    ("shop", has_shop (shop c));
    ("item", has_item (item c));
    ("commission_rate", DecimalField_ok 5 (commission_rate c));
    ("gross_amount", DecimalField_ok 12 (gross_amount c));
    ("commission_amount", DecimalField_ok 10 (commission_amount c));
    ("platform_fee", DecimalField_ok 10 (platform_fee c));
    ("net_amount", DecimalField_ok 12 (net_amount c));
    ("status", ChoiceField_ok 10 STATUS_CHOICES (status c)) ].

Definition clean_fields (has_order has_shop has_item : Z -> bool) (c : t)
    : result unit :=
  match failing (field_checks has_order has_shop has_item c) with
  | [] => Ok tt
  | errors => Err (ValidationError errors)
  end.

End Commission.

Module Payout.

Definition STATUS_CHOICES : list (string * string) :=
  [ ("pending", "Pending");
    ("processing", "Processing");
    ("completed", "Completed");
    ("failed", "Failed") ].

Record t : Type := mk {
  payout_id : Z;
  shop : Z;                            (* Shop, RESTRICT *)
  payout_amount : Decimal;             (* max_digits=15 *)
  currency : string;
  status : string;
  payout_method : option string;
  bank_details_json : option string;
  requested_at : Z;
  processed_at : option Z;
  reference_number : option string
}.

End Payout.

Module PayoutTransaction.

Record t : Type := mk {
  payout_transaction_id : Z;
  payout : Z;                          (* Payout, CASCADE *)
  commission : Z;                      (* Commission, CASCADE *)
  amount : Decimal;                    (* max_digits=12 *)
  created_at : Z
}.

(** [Meta.unique_together = ('payout', 'commission')] *)
Definition unique_together (p : t) : Z * Z := (payout p, commission p).

End PayoutTransaction.

(** ** apps/discounts/models.py *)

Module Coupon.

Definition DISCOUNT_TYPE_CHOICES : list (string * string) :=
  [ ("percentage", "Percentage");
    ("fixed_amount", "Fixed Amount");
    ("free_shipping", "Free Shipping") ].

Record t : Type := mk {
  coupon_id : Z;
  shop : option Z;                     (* Shop, CASCADE, null=True *)
  coupon_code : string;                (* unique *)
  coupon_name : option string;
  description : option string;
  discount_type : string;
  discount_value : Decimal;            (* max_digits=10 *)
  minimum_order_amount : option Decimal;
  maximum_discount_amount : option Decimal;
  is_active : bool;
  starts_at : option Z;
  expires_at : option Z;
  usage_limit : option Z;              (* PositiveIntegerField, null=True *)
  usage_limit_per_customer : option Z; (* PositiveIntegerField, null=True *)
  created_by : option string;
  created_at : Z
}.

End Coupon.

Module CouponUsage.

Record t : Type := mk {
  usage_id : Z;
  coupon : Z;                          (* Coupon, CASCADE *)
  user : string;                       (* UserProfile.keycloak_user_id, CASCADE *)
  order : Z;                           (* Order, CASCADE *)
  discount_amount : Decimal;           (* max_digits=12 *)
  used_at : Z
}.

(** [Meta.unique_together = ('coupon', 'order')] *)
Definition unique_together (u : t) : Z * Z := (coupon u, order u).

End CouponUsage.

(** ** The database

    One table per model class; a table is the list of its rows, the most
    recently inserted row first.  The tables of the other apps (identity,
    catalogue categories, reviews, analytics, notifications, audit) are not
    represented: no row of the tables below is deleted or refused because of
    them when a shop is deleted, since the only [RESTRICT] references that
    reach a shop, its products or their variants are those of [OrderItem]
    and [Payout]. *)

Record DB : Type := mkDB {
  shops : list Shop.t;
  products : list Product.t;
  variants : list ProductVariant.t;
  orders : list Order.t;
  order_items : list OrderItem.t;
  order_addresses : list OrderAddress.t;
  commissions : list Commission.t;
  payouts : list Payout.t;
  payout_transactions : list PayoutTransaction.t;
  coupons : list Coupon.t;
  coupon_usages : list CouponUsage.t
}.

Definition empty_db : DB := mkDB [] [] [] [] [] [] [] [] [] [] [].

Definition set_shops (v : list Shop.t) (db : DB) : DB :=
  mkDB v (products db) (variants db) (orders db) (order_items db)
      (order_addresses db) (commissions db) (payouts db)
      (payout_transactions db) (coupons db) (coupon_usages db).

Definition set_products (v : list Product.t) (db : DB) : DB :=
  mkDB (shops db) v (variants db) (orders db) (order_items db)
      (order_addresses db) (commissions db) (payouts db)
      (payout_transactions db) (coupons db) (coupon_usages db).

Definition set_variants (v : list ProductVariant.t) (db : DB) : DB :=
  mkDB (shops db) (products db) v (orders db) (order_items db)
      (order_addresses db) (commissions db) (payouts db)
      (payout_transactions db) (coupons db) (coupon_usages db).

Definition set_orders (v : list Order.t) (db : DB) : DB :=
  mkDB (shops db) (products db) (variants db) v (order_items db)
      (order_addresses db) (commissions db) (payouts db)
      (payout_transactions db) (coupons db) (coupon_usages db).

Definition set_order_items (v : list OrderItem.t) (db : DB) : DB :=
  mkDB (shops db) (products db) (variants db) (orders db) v
      (order_addresses db) (commissions db) (payouts db)
      (payout_transactions db) (coupons db) (coupon_usages db).

Definition set_order_addresses (v : list OrderAddress.t) (db : DB) : DB :=
  mkDB (shops db) (products db) (variants db) (orders db) (order_items db) v
      (commissions db) (payouts db) (payout_transactions db) (coupons db)
      (coupon_usages db).

Definition set_commissions (v : list Commission.t) (db : DB) : DB :=
  mkDB (shops db) (products db) (variants db) (orders db) (order_items db)
      (order_addresses db) v (payouts db) (payout_transactions db)
      (coupons db) (coupon_usages db).

Definition set_payouts (v : list Payout.t) (db : DB) : DB :=
  mkDB (shops db) (products db) (variants db) (orders db) (order_items db)
      (order_addresses db) (commissions db) v (payout_transactions db)
      (coupons db) (coupon_usages db).

Definition set_payout_transactions (v : list PayoutTransaction.t) (db : DB) : DB :=
  mkDB (shops db) (products db) (variants db) (orders db) (order_items db)
      (order_addresses db) (commissions db) (payouts db) v (coupons db)
      (coupon_usages db).

Definition set_coupons (v : list Coupon.t) (db : DB) : DB :=
  mkDB (shops db) (products db) (variants db) (orders db) (order_items db)
      (order_addresses db) (commissions db) (payouts db)
      (payout_transactions db) v (coupon_usages db).

Definition set_coupon_usages (v : list CouponUsage.t) (db : DB) : DB :=
  mkDB (shops db) (products db) (variants db) (orders db) (order_items db)
      (order_addresses db) (commissions db) (payouts db)
      (payout_transactions db) (coupons db) v.


(** ** Keys and constraints *)

Section Table.

Variables (A K : Type) (eqb : K -> K -> bool) (key : A -> K).

(** Some row of the table carries the key [k]. *)
Definition taken (t : list A) (k : K) : bool :=
  existsb (fun r => eqb (key r) k) t.

(** UNIQUE: no row repeats the key of a row inserted before it. *)
Fixpoint unique (t : list A) : bool :=
  match t with
  | [] => true
  | r :: older => negb (taken older (key r)) && unique older
  end.

Definition lookup (t : list A) (k : K) : option A :=
  find (fun r => eqb (key r) k) t.

(** UPDATE ... WHERE key = k *)
Definition update (f : A -> A) (t : list A) (k : K) : list A :=
  map (fun r => if eqb (key r) k then f r else r) t.

End Table.

Definition pair_eqb {A B : Type} (eqa : A -> A -> bool) (eqb : B -> B -> bool)
    (x y : A * B) : bool :=
  eqa (fst x) (fst y) && eqb (snd x) (snd y).

(** Comparison inside a UNIQUE index: NULL never equals anything. *)
Definition null_eqb {A : Type} (eqa : A -> A -> bool) (x y : option A) : bool :=
  match x, y with
  | Some a, Some b => eqa a b
  | _, _ => false
  end.

(** FOREIGN KEY: every child row names an existing parent row. *)
Definition references {A B : Type} (fk : A -> Z) (pk : B -> Z)
    (parent : list B) (child : list A) : bool :=
  forallb (fun r => taken Z.eqb pk parent (fk r)) child.

Definition null_references {A B : Type} (fk : A -> option Z) (pk : B -> Z)
    (parent : list B) (child : list A) : bool :=
  forallb (fun r => match fk r with
                    | None => true
                    | Some k => taken Z.eqb pk parent k
                    end) child.

Definition Product_shop_slug (p : Product.t) : Z * string :=
  (Product.shop p, Product.product_slug p).
Definition Product_shop_sku (p : Product.t) : Z * option string :=
  (Product.shop p, Product.sku p).
Definition ProductVariant_product_sku (v : ProductVariant.t) : Z * option string :=
  (ProductVariant.product v, ProductVariant.sku v).

(** What the database guarantees of every committed state. *)
Record db_consistent (db : DB) : Prop := {
  (* primary keys *)
  pk_shops : unique Z.eqb Shop.shop_id (shops db) = true;
  pk_products : unique Z.eqb Product.product_id (products db) = true;
  pk_variants : unique Z.eqb ProductVariant.variant_id (variants db) = true;
  pk_orders : unique Z.eqb Order.order_id (orders db) = true;
  pk_order_items : unique Z.eqb OrderItem.item_id (order_items db) = true;
  pk_order_addresses :
    unique Z.eqb OrderAddress.address_id (order_addresses db) = true;
  pk_commissions : unique Z.eqb Commission.commission_id (commissions db) = true;
  pk_payouts : unique Z.eqb Payout.payout_id (payouts db) = true;
  pk_payout_transactions :
    unique Z.eqb PayoutTransaction.payout_transaction_id
      (payout_transactions db) = true;
  pk_coupons : unique Z.eqb Coupon.coupon_id (coupons db) = true;
  pk_coupon_usages : unique Z.eqb CouponUsage.usage_id (coupon_usages db) = true;
  (* unique=True *)
  uq_shop_slug : unique String.eqb Shop.shop_slug (shops db) = true;
  uq_order_number : unique String.eqb Order.order_number (orders db) = true;
  uq_coupon_code : unique String.eqb Coupon.coupon_code (coupons db) = true;
  (* unique_together *)
  uq_product_slug :
    unique (pair_eqb Z.eqb String.eqb) Product_shop_slug (products db) = true;
  uq_product_sku :
    unique (pair_eqb Z.eqb (null_eqb String.eqb)) Product_shop_sku
      (products db) = true;
  uq_variant_sku :
    unique (pair_eqb Z.eqb (null_eqb String.eqb)) ProductVariant_product_sku
      (variants db) = true;
  uq_order_address :
    unique (pair_eqb Z.eqb String.eqb) OrderAddress.unique_together
      (order_addresses db) = true;
  uq_payout_transaction :
    unique (pair_eqb Z.eqb Z.eqb) PayoutTransaction.unique_together
      (payout_transactions db) = true;
  uq_coupon_usage :
    unique (pair_eqb Z.eqb Z.eqb) CouponUsage.unique_together
      (coupon_usages db) = true;
  (* foreign keys *)
  fk_product_shop :
    references Product.shop Shop.shop_id (shops db) (products db) = true;
  fk_variant_product :
    references ProductVariant.product Product.product_id (products db)
      (variants db) = true;
  fk_item_order :
    references OrderItem.order Order.order_id (orders db) (order_items db) = true;
  fk_item_product :
    references OrderItem.product Product.product_id (products db)
      (order_items db) = true;
  fk_item_variant :
    references OrderItem.variant ProductVariant.variant_id (variants db)
      (order_items db) = true;
  fk_item_shop :
    references OrderItem.shop Shop.shop_id (shops db) (order_items db) = true;
  fk_address_order :
    references OrderAddress.order Order.order_id (orders db)
      (order_addresses db) = true;
  fk_commission_order :
    references Commission.order Order.order_id (orders db) (commissions db) = true;
  fk_commission_shop :
    references Commission.shop Shop.shop_id (shops db) (commissions db) = true;
  fk_commission_item :
    references Commission.item OrderItem.item_id (order_items db)
      (commissions db) = true;
  fk_payout_shop :
    references Payout.shop Shop.shop_id (shops db) (payouts db) = true;
  fk_ptx_payout :
    references PayoutTransaction.payout Payout.payout_id (payouts db)
      (payout_transactions db) = true;
  fk_ptx_commission :
    references PayoutTransaction.commission Commission.commission_id
      (commissions db) (payout_transactions db) = true;
  fk_coupon_shop :
    null_references Coupon.shop Shop.shop_id (shops db) (coupons db) = true;
  fk_usage_coupon :
    references CouponUsage.coupon Coupon.coupon_id (coupons db)
      (coupon_usages db) = true;
  fk_usage_order :
    references CouponUsage.order Order.order_id (orders db)
      (coupon_usages db) = true;
  (* column checks *)
  ck_item_quantity :
    forallb (fun i => PositiveIntegerField_db_check (OrderItem.quantity i))
      (order_items db) = true;
  ck_coupon_usage_limit :
    forallb (fun c => NullPositiveIntegerField_db_check (Coupon.usage_limit c))
      (coupons db) = true;
  ck_coupon_usage_limit_per_customer :
    forallb (fun c =>
               NullPositiveIntegerField_db_check (Coupon.usage_limit_per_customer c))
      (coupons db) = true
}.


(** ** INSERT

    [X_create r db] is [X.objects.create(...)]: the row is written when
    every constraint of the table accepts it, and the statement fails with
    [IntegrityError] otherwise, leaving the database as it was.  [save()]
    does not run the field validators. *)

Definition require (ok : bool) (constraint : string) : result unit :=
  if ok then Ok tt else Err (IntegrityError constraint).

Definition fresh {A : Type} (pk : A -> Z) (t : list A) (k : Z) : bool :=
  negb (taken Z.eqb pk t k).

Definition Shop_create (r : Shop.t) (db : DB) : result DB :=
  _ <- require (fresh Shop.shop_id (shops db) (Shop.shop_id r)) "shop.pk" ;;
  _ <- require (negb (taken String.eqb Shop.shop_slug (shops db) (Shop.shop_slug r)))
         "shop.shop_slug" ;;
  Ok (set_shops (r :: shops db) db).

Definition Product_create (r : Product.t) (db : DB) : result DB :=
  _ <- require (fresh Product.product_id (products db) (Product.product_id r))
         "product.pk" ;;
  _ <- require (taken Z.eqb Shop.shop_id (shops db) (Product.shop r))
         "product.shop" ;;
  _ <- require (negb (taken (pair_eqb Z.eqb String.eqb) Product_shop_slug
                        (products db) (Product_shop_slug r)))
         "product.unique_together(shop, product_slug)" ;;
  _ <- require (negb (taken (pair_eqb Z.eqb (null_eqb String.eqb)) Product_shop_sku
                        (products db) (Product_shop_sku r)))
         "product.unique_together(shop, sku)" ;;
  Ok (set_products (r :: products db) db).

Definition ProductVariant_create (r : ProductVariant.t) (db : DB) : result DB :=
  _ <- require (fresh ProductVariant.variant_id (variants db)
                  (ProductVariant.variant_id r)) "variant.pk" ;;
  _ <- require (taken Z.eqb Product.product_id (products db)
                  (ProductVariant.product r)) "variant.product" ;;
  _ <- require (negb (taken (pair_eqb Z.eqb (null_eqb String.eqb))
                        ProductVariant_product_sku (variants db)
                        (ProductVariant_product_sku r)))
         "variant.unique_together(product, sku)" ;;
  Ok (set_variants (r :: variants db) db).

Definition Order_create (r : Order.t) (db : DB) : result DB :=
  _ <- require (fresh Order.order_id (orders db) (Order.order_id r)) "order.pk" ;;
  _ <- require (negb (taken String.eqb Order.order_number (orders db)
                        (Order.order_number r))) "order.order_number" ;;
  Ok (set_orders (r :: orders db) db).

Definition OrderItem_create (r : OrderItem.t) (db : DB) : result DB :=
  _ <- require (fresh OrderItem.item_id (order_items db) (OrderItem.item_id r))
         "order_item.pk" ;;
  _ <- require (taken Z.eqb Order.order_id (orders db) (OrderItem.order r))
         "order_item.order" ;;
  _ <- require (taken Z.eqb Product.product_id (products db) (OrderItem.product r))
         "order_item.product" ;;
  _ <- require (taken Z.eqb ProductVariant.variant_id (variants db)
                  (OrderItem.variant r)) "order_item.variant" ;;
  _ <- require (taken Z.eqb Shop.shop_id (shops db) (OrderItem.shop r))
         "order_item.shop" ;;
  _ <- require (PositiveIntegerField_db_check (OrderItem.quantity r))
         "order_item.quantity_check" ;;
  Ok (set_order_items (r :: order_items db) db).

Definition OrderAddress_create (r : OrderAddress.t) (db : DB) : result DB :=
  _ <- require (fresh OrderAddress.address_id (order_addresses db)
                  (OrderAddress.address_id r)) "order_address.pk" ;;
  _ <- require (taken Z.eqb Order.order_id (orders db) (OrderAddress.order r))
         "order_address.order" ;;
  _ <- require (negb (taken (pair_eqb Z.eqb String.eqb) OrderAddress.unique_together
                        (order_addresses db) (OrderAddress.unique_together r)))
         "order_address.unique_together(order, address_type)" ;;
  Ok (set_order_addresses (r :: order_addresses db) db).

Definition Commission_create (r : Commission.t) (db : DB) : result DB :=
  _ <- require (fresh Commission.commission_id (commissions db)
                  (Commission.commission_id r)) "commission.pk" ;;
  _ <- require (taken Z.eqb Order.order_id (orders db) (Commission.order r))
         "commission.order" ;;
  _ <- require (taken Z.eqb Shop.shop_id (shops db) (Commission.shop r))
         "commission.shop" ;;
  _ <- require (taken Z.eqb OrderItem.item_id (order_items db) (Commission.item r))
         "commission.item" ;;
  Ok (set_commissions (r :: commissions db) db).

Definition Payout_create (r : Payout.t) (db : DB) : result DB :=
  _ <- require (fresh Payout.payout_id (payouts db) (Payout.payout_id r))
         "payout.pk" ;;
  _ <- require (taken Z.eqb Shop.shop_id (shops db) (Payout.shop r))
         "payout.shop" ;;
  Ok (set_payouts (r :: payouts db) db).

Definition PayoutTransaction_create (r : PayoutTransaction.t) (db : DB)
    : result DB :=
  _ <- require (fresh PayoutTransaction.payout_transaction_id
                  (payout_transactions db)
                  (PayoutTransaction.payout_transaction_id r))
         "payout_transaction.pk" ;;
  _ <- require (taken Z.eqb Payout.payout_id (payouts db)
                  (PayoutTransaction.payout r)) "payout_transaction.payout" ;;
  _ <- require (taken Z.eqb Commission.commission_id (commissions db)
                  (PayoutTransaction.commission r))
         "payout_transaction.commission" ;;
  _ <- require (negb (taken (pair_eqb Z.eqb Z.eqb) PayoutTransaction.unique_together
                        (payout_transactions db)
                        (PayoutTransaction.unique_together r)))
         "payout_transaction.unique_together(payout, commission)" ;;
  Ok (set_payout_transactions (r :: payout_transactions db) db).

Definition Coupon_create (r : Coupon.t) (db : DB) : result DB :=
  _ <- require (fresh Coupon.coupon_id (coupons db) (Coupon.coupon_id r))
         "coupon.pk" ;;
  _ <- require (match Coupon.shop r with
                | None => true
                | Some s => taken Z.eqb Shop.shop_id (shops db) s
                end) "coupon.shop" ;;
  _ <- require (negb (taken String.eqb Coupon.coupon_code (coupons db)
                        (Coupon.coupon_code r))) "coupon.coupon_code" ;;
  _ <- require (NullPositiveIntegerField_db_check (Coupon.usage_limit r))
         "coupon.usage_limit_check" ;;
  _ <- require (NullPositiveIntegerField_db_check (Coupon.usage_limit_per_customer r))
         "coupon.usage_limit_per_customer_check" ;;
  Ok (set_coupons (r :: coupons db) db).

Definition CouponUsage_create (r : CouponUsage.t) (db : DB) : result DB :=
  _ <- require (fresh CouponUsage.usage_id (coupon_usages db) (CouponUsage.usage_id r))
         "coupon_usage.pk" ;;
  _ <- require (taken Z.eqb Coupon.coupon_id (coupons db) (CouponUsage.coupon r))
         "coupon_usage.coupon" ;;
  _ <- require (taken Z.eqb Order.order_id (orders db) (CouponUsage.order r))
         "coupon_usage.order" ;;
  _ <- require (negb (taken (pair_eqb Z.eqb Z.eqb) CouponUsage.unique_together
                        (coupon_usages db) (CouponUsage.unique_together r)))
         "coupon_usage.unique_together(coupon, order)" ;;
  Ok (set_coupon_usages (r :: coupon_usages db) db).

(** ** Model validation against the stored rows

    [full_clean()] of an instance that has not been saved yet: the field
    checks, then [validate_unique()] for the unique fields that passed. *)

Definition Order_full_clean (db : DB) (o : Order.t) : result unit :=
  let errors := failing (Order.field_checks o) in
  let duplicate :=
    if existsb (String.eqb "order_number") errors then []
    else failing [ ("order_number",
                    negb (taken String.eqb Order.order_number (orders db)
                            (Order.order_number o))) ] in
  match errors ++ duplicate with
  | [] => Ok tt
  | names => Err (ValidationError names)
  end.

Definition OrderItem_full_clean (max_value : option Z) (db : DB)
    (i : OrderItem.t) : result unit :=
  OrderItem.clean_fields max_value
    (taken Z.eqb Order.order_id (orders db))
    (taken Z.eqb Product.product_id (products db))
    (taken Z.eqb ProductVariant.variant_id (variants db))
    (taken Z.eqb Shop.shop_id (shops db)) i.

Definition Commission_full_clean (db : DB) (c : Commission.t) : result unit :=
  Commission.clean_fields
    (taken Z.eqb Order.order_id (orders db))
    (taken Z.eqb Shop.shop_id (shops db))
    (taken Z.eqb OrderItem.item_id (order_items db)) c.

(** ** DELETE of a shop

    [shop.delete()] runs Django's deletion collector over the declared
    [on_delete] rules:
    - [CASCADE] from [Shop]: [Product.shop], [Commission.shop],
      [Coupon.shop]; from [Product]: [ProductVariant.product]; from
      [Commission]: [PayoutTransaction.commission]; from [Coupon]:
      [CouponUsage.coupon];
    - [RESTRICT]: [OrderItem.shop], [OrderItem.product], [OrderItem.variant]
      and [Payout.shop].  A restricted row lets the deletion through only
      when it is itself collected by a cascade; order items are collected
      only from their [Order] and payouts from nothing, and no order is
      collected here, so any restricted row raises [RestrictedError];
    - nothing is written unless the whole collection succeeds. *)

Definition shop_products (sid : Z) (db : DB) : list Product.t :=
  filter (fun p => Product.shop p =? sid) (products db).

Definition shop_variants (sid : Z) (db : DB) : list ProductVariant.t :=
  filter (fun v => taken Z.eqb Product.product_id (shop_products sid db)
                     (ProductVariant.product v)) (variants db).

Definition shop_commissions (sid : Z) (db : DB) : list Commission.t :=
  filter (fun c => Commission.shop c =? sid) (commissions db).

Definition shop_payout_transactions (sid : Z) (db : DB) : list PayoutTransaction.t :=
  filter (fun x => taken Z.eqb Commission.commission_id (shop_commissions sid db)
                     (PayoutTransaction.commission x)) (payout_transactions db).

Definition coupon_of_shop (sid : Z) (c : Coupon.t) : bool :=
  match Coupon.shop c with
  | Some s => s =? sid
  | None => false
  end.

Definition shop_coupons (sid : Z) (db : DB) : list Coupon.t :=
  filter (coupon_of_shop sid) (coupons db).

Definition shop_coupon_usages (sid : Z) (db : DB) : list CouponUsage.t :=
  filter (fun u => taken Z.eqb Coupon.coupon_id (shop_coupons sid db)
                     (CouponUsage.coupon u)) (coupon_usages db).

Definition restricted_order_items (sid : Z) (db : DB) : list OrderItem.t :=
  filter (fun i =>
            (OrderItem.shop i =? sid)
            || taken Z.eqb Product.product_id (shop_products sid db)
                 (OrderItem.product i)
            || taken Z.eqb ProductVariant.variant_id (shop_variants sid db)
                 (OrderItem.variant i)) (order_items db).

Definition restricted_payouts (sid : Z) (db : DB) : list Payout.t :=
  filter (fun p => Payout.shop p =? sid) (payouts db).

(** The rows of [t] that are not among the collected rows [gone]. *)
Definition without {A : Type} (pk : A -> Z) (gone t : list A) : list A :=
  filter (fun r => negb (taken Z.eqb pk gone (pk r))) t.

Definition Shop_delete (sid : Z) (db : DB) : result DB :=
  if negb (taken Z.eqb Shop.shop_id (shops db) sid) then Err DoesNotExist
  else
    match restricted_order_items sid db, restricted_payouts sid db with
    | [], [] =>
        Ok (mkDB
              (filter (fun s => negb (Shop.shop_id s =? sid)) (shops db))
              (without Product.product_id (shop_products sid db) (products db))
              (without ProductVariant.variant_id (shop_variants sid db) (variants db))
              (orders db)
              (order_items db)
              (order_addresses db)
              (without Commission.commission_id (shop_commissions sid db)
                 (commissions db))
              (payouts db)
              (without PayoutTransaction.payout_transaction_id
                 (shop_payout_transactions sid db) (payout_transactions db))
              (without Coupon.coupon_id (shop_coupons sid db) (coupons db))
              (without CouponUsage.usage_id (shop_coupon_usages sid db)
                 (coupon_usages db)))
    | _, _ => Err RestrictedError
    end.

(** ** The settlement operations of the specification

    None of the following is in the source tree, which declares the tables
    only.  Each definition follows the specification's wording and works on
    the records and tables declared above. *)

(** Modelled from the spec: the Money type's rounding (section 4.4,
    round-half-to-even to the minor unit), which the source does not
    contain.  [round_half_even n d] is [n / d] rounded to the nearest
    integer, ties to the even one, for [d > 0]. *)
Definition round_half_even (n d : Z) : Z :=
  let q := n / d in
  let r := n mod d in
  if 2 * r <? d then q
  else if d <? 2 * r then q + 1
  else if Z.even q then q else q + 1.

(** Modelled from the spec: the Commission Calculator's amount (section
    4.4), absent from the source: [gross_amount * rate / 100], rounded
    half-to-even to the minor unit.  With the amount in hundredths and the
    rate in hundredths of a percent the quotient is by [100 * 100]. *)
Definition commission_amount_of (gross rate : Decimal) : Decimal :=
  round_half_even (gross * rate) 10000.

(** Modelled from the spec: the platform fee (section 4.4), absent from the
    source: "a separate, independently configured flat or percentage fee".
    The specification does not say how a percentage fee is rounded; it is
    rounded here as the commission is. *)
Inductive PlatformFee : Type :=
| Flat (amount : Decimal)
| Percentage (rate : Decimal).

Definition platform_fee_of (fee : PlatformFee) (gross : Decimal) : Decimal :=
  match fee with
  | Flat amount => amount
  | Percentage rate => round_half_even (gross * rate) 10000
  end.

(** Modelled from the spec: the Commission Calculator (section 4.4), absent
    from the source: one [Commission] per order item, with the rate
    snapshot of the item, [net_amount = gross_amount - commission_amount -
    platform_fee], status pending. *)
Definition calculate_commission (fee : PlatformFee) (now pk : Z) (i : OrderItem.t)
    : Commission.t :=
  let gross := OrderItem.total_price i in
  let rate := OrderItem.commission_rate i in
  let amount := commission_amount_of gross rate in
  let pfee := platform_fee_of fee gross in
  Commission.mk pk (OrderItem.order i) (OrderItem.shop i) (OrderItem.item_id i)
    rate gross amount pfee (gross - amount - pfee)
    Commission.default_status now.

(** Modelled from the spec: the total of an order (section 3),
    [total = subtotal + tax + shipping - discount]; the source stores
    [total_amount] and never computes it. *)
Definition order_total (o : Order.t) : Decimal :=
  Order.subtotal o + Order.tax_amount o + Order.shipping_amount o
  - Order.discount_amount o.

(** Modelled from the spec: "recomputes total" (section 4.2), absent from the
    source. *)
Definition recompute_total (o : Order.t) : Order.t :=
  Order.set_total_amount (order_total o) o.

(** Modelled from the spec: the decision of the Discount Engine (section
    4.3): amount, currency, consumed coupon or policy ids. *)
Record DiscountDecision : Type := mkDecision {
  decision_amount : Decimal;
  decision_currency : string;
  decision_consumed : list Z
}.

(** Modelled from the spec: [applyDiscount] of the Order Aggregate (section
    4.2), absent from the source: "sets discount_amount and recomputes
    total; must be called before confirm(); fails with InvalidState if
    already confirmed"; amounts of different currencies do not mix (section
    4.1). *)
Definition applyDiscount (d : DiscountDecision) (o : Order.t) : result Order.t :=
  if negb (String.eqb (Order.status o) "pending") then Err InvalidState
  else if negb (String.eqb (decision_currency d) (Order.currency o))
  then Err CurrencyMismatch
  else Ok (recompute_total (Order.set_discount_amount (decision_amount d) o)).

(** The key a [BigAutoField] hands out next. *)
Definition next_pk {A : Type} (pk : A -> Z) (t : list A) : Z :=
  1 + fold_right Z.max 0 (map pk t).

(** Modelled from the spec: the run of the Commission Calculator over the
    items of a confirmed order (section 4.4, "exactly once per item at
    confirmation time"); the first refused INSERT aborts the run. *)
Fixpoint generate_commissions (fee : PlatformFee) (now : Z)
    (items : list OrderItem.t) (db : DB) : result DB :=
  match items with
  | [] => Ok db
  | i :: rest =>
      db1 <- Commission_create
               (calculate_commission fee now
                  (next_pk Commission.commission_id (commissions db)) i) db ;;
      generate_commissions fee now rest db1
  end.

(** Modelled from the spec: the statuses an order reaches only through
    confirmation (section 4.2, pending->processing->shipped->delivered). *)
Definition already_confirmed (status : string) : bool :=
  existsb (String.eqb status) ["processing"; "shipped"; "delivered"].

(** Modelled from the spec: [confirm] of the Order Aggregate (section 4.2),
    absent from the source: "transitions status pending->processing, freezes
    item commission-rate snapshots, emits a ConfirmedOrder event consumed by
    the Commission Calculator.  Idempotent: confirming an already-confirmed
    order is a no-op returning the same result, not an error"; any other
    status is an illegal transition. *)
Definition confirm (fee : PlatformFee) (now oid : Z) (db : DB)
    : result (DB * Order.t) :=
  match lookup Z.eqb Order.order_id (orders db) oid with
  | None => Err DoesNotExist
  | Some o =>
      if String.eqb (Order.status o) "pending" then
        let confirmed := Order.set_status "processing" in
        let db1 :=
          set_orders (update Z.eqb Order.order_id confirmed (orders db) oid) db in
        db2 <- generate_commissions fee now
                 (filter (fun i => OrderItem.order i =? oid) (order_items db)) db1 ;;
        Ok (db2, confirmed o)
      else if already_confirmed (Order.status o) then Ok (db, o)
      else Err InvalidTransition
  end.

(** ** Reachable states

    One step is one successful operation: an INSERT into one of the tables,
    the deletion of a shop, or the confirmation of an order. *)

Inductive step : DB -> DB -> Prop :=
| step_Shop_create r db db' :
    Shop_create r db = Ok db' -> step db db'
| step_Product_create r db db' :
    Product_create r db = Ok db' -> step db db'
| step_ProductVariant_create r db db' :
    ProductVariant_create r db = Ok db' -> step db db'
| step_Order_create r db db' :
    Order_create r db = Ok db' -> step db db'
| step_OrderItem_create r db db' :
    OrderItem_create r db = Ok db' -> step db db'
| step_OrderAddress_create r db db' :
    OrderAddress_create r db = Ok db' -> step db db'
| step_Commission_create r db db' :
    Commission_create r db = Ok db' -> step db db'
| step_Payout_create r db db' :
    Payout_create r db = Ok db' -> step db db'
| step_PayoutTransaction_create r db db' :
    PayoutTransaction_create r db = Ok db' -> step db db'
| step_Coupon_create r db db' :
    Coupon_create r db = Ok db' -> step db db'
| step_CouponUsage_create r db db' :
    CouponUsage_create r db = Ok db' -> step db db'
| step_Shop_delete sid db db' :
    Shop_delete sid db = Ok db' -> step db db'
| step_confirm fee now oid db db' o :
    confirm fee now oid db = Ok (db', o) -> step db db'.

Inductive reachable : DB -> Prop :=
| reachable_empty : reachable empty_db
| reachable_step db db' : reachable db -> step db db' -> reachable db'.

(** ** Queries *)

(** [order.addresses.filter(address_type=ty)] *)
Definition addresses_of (oid : Z) (ty : string) (db : DB) : list OrderAddress.t :=
  filter (fun a => pair_eqb Z.eqb String.eqb (OrderAddress.unique_together a) (oid, ty))
    (order_addresses db).

(** [PayoutTransaction.objects.filter(payout=pid, commission=cid)] *)
Definition payout_transactions_of (pid cid : Z) (db : DB)
    : list PayoutTransaction.t :=
  filter (fun x => pair_eqb Z.eqb Z.eqb (PayoutTransaction.unique_together x) (pid, cid))
    (payout_transactions db).

(** [coupon.usages.filter(order=oid)] *)
Definition usages_of (cid oid : Z) (db : DB) : list CouponUsage.t :=
  filter (fun u => pair_eqb Z.eqb Z.eqb (CouponUsage.unique_together u) (cid, oid))
    (coupon_usages db).

(** [Commission.objects.values_list('commission_id')] *)
Definition commission_ids (db : DB) : list Z :=
  map Commission.commission_id (commissions db).

(** ** Sample rows

    A small marketplace used to exercise the operations: two shops, one
    product with one variant sold by the second shop, one pending order of
    50.00 with one item. *)

Definition shop_alpha : Shop.t :=
  Shop.init 1 1000 (Shop.named "kc-owner-1" "Alpha" "alpha").

Definition shop_beta : Shop.t :=
  Shop.init 2 1000 (Shop.named "kc-owner-2" "Beta" "beta").

Definition product_1 : Product.t :=
  Product.mk 1 2 7 "Teapot" "teapot" None None (Some "TP-1") None "active" false
    1001 1001.

Definition variant_1 : ProductVariant.t :=
  ProductVariant.mk 1 1 (Some "Blue") (Some "TP-1-B") (d2 50 00) None None None
    None None true 1001.

Definition order_1 : Order.t :=
  Order.mk 1 "kc-customer-1" "ORD-0001" Order.default_status (d2 50 00)
    Order.default_tax_amount Order.default_shipping_amount
    Order.default_discount_amount (d2 50 00) "USD" 1002 None None None None.

Definition item_1 : OrderItem.t :=
  OrderItem.mk 1 1 1 1 2 1 (d2 50 00) (d2 50 00) (d2 10 00) (d2 5 00)
    OrderItem.default_status 1002.

Definition base_db : DB :=
  mkDB [shop_beta; shop_alpha] [product_1] [variant_1] [order_1] [item_1]
    [] [] [] [] [] [].

(** An order item like [item_1] with quantity zero. *)
Definition item_zero : OrderItem.t :=
  OrderItem.mk 2 1 1 1 2 0 (d2 50 00) (d2 0 00) (d2 10 00) (d2 0 00)
    OrderItem.default_status 1003.

Definition item_negative : OrderItem.t :=
  OrderItem.mk 2 1 1 1 2 (-1) (d2 50 00) (d2 0 00) (d2 10 00) (d2 0 00)
    OrderItem.default_status 1003.

(** An order whose stored total is unrelated to its other amounts:
    subtotal 100.00, tax 8.00, shipping 5.00, discount 10.00, total -1.00. *)
Definition order_off : Order.t :=
  Order.mk 2 "kc-customer-1" "ORD-0002" Order.default_status (d2 100 00)
    (d2 8 00) (d2 5 00) (d2 10 00) (- d2 1 00) "USD" 1004 None None None None.

(** The commission of [item_1] as the calculator writes it with a flat
    platform fee of 1.00, and one with arbitrary amounts. *)
Definition commission_1 : Commission.t :=
  calculate_commission (Flat (d2 1 00)) 1005 1 item_1.

Definition commission_off : Commission.t :=
  Commission.mk 1 1 2 1 (d2 10 00) (d2 50 00) (d2 7 00) (d2 1 00) (d2 50 00)
    Commission.default_status 1005.

(** A commission credited to the first shop for the item sold by the
    second one. *)
Definition commission_alpha : Commission.t :=
  Commission.mk 1 1 1 1 (d2 10 00) (d2 50 00) (d2 5 00) (d2 1 00) (d2 44 00)
    Commission.default_status 1005.

Definition alpha_db : DB := set_commissions [commission_alpha] base_db.

(** [alpha_db] once the first shop is deleted. *)
Definition beta_only_db : DB :=
  mkDB [shop_beta] [product_1] [variant_1] [order_1] [item_1] [] [] [] [] [] [].

Definition payout_1 : Payout.t :=
  Payout.mk 1 2 (d2 44 00) "USD" "pending" None None 1006 None None.

Definition payout_2 : Payout.t :=
  Payout.mk 2 2 (d2 44 00) "USD" "pending" None None 1007 None None.

Definition payout_transaction_1 : PayoutTransaction.t :=
  PayoutTransaction.mk 1 1 1 (d2 44 00) 1006.

Definition payout_transaction_2 : PayoutTransaction.t :=
  PayoutTransaction.mk 2 2 1 (d2 44 00) 1007.

Definition settled_db : DB :=
  set_payout_transactions [payout_transaction_1]
    (set_payouts [payout_2; payout_1] (set_commissions [commission_1] base_db)).

(** The same commission entered in a second payout. *)
Definition two_payouts_db : DB :=
  set_payout_transactions [payout_transaction_2; payout_transaction_1] settled_db.

Definition coupon_1 : Coupon.t :=
  Coupon.mk 1 None "WELCOME10" None None "percentage" (d2 10 00) None
    (Some (d2 15 00)) true None None None None None 1000.

Definition coupon_usage_1 : CouponUsage.t :=
  CouponUsage.mk 1 1 "kc-customer-1" 1 (d2 5 00) 1008.

Definition coupon_usage_again : CouponUsage.t :=
  CouponUsage.mk 2 1 "kc-customer-1" 1 (d2 5 00) 1009.

Definition coupon_db : DB :=
  set_coupon_usages [coupon_usage_1] (set_coupons [coupon_1] base_db).

Definition shipping_address_1 : OrderAddress.t :=
  OrderAddress.mk 1 1 "shipping" None None None "1 Main Street" None "Springfield"
    None "US" "12345" None.

Definition shipping_address_again : OrderAddress.t :=
  OrderAddress.mk 2 1 "shipping" None None None "2 Side Street" None "Springfield"
    None "US" "12345" None.

Definition billing_address_1 : OrderAddress.t :=
  OrderAddress.mk 2 1 "billing" None None None "1 Main Street" None "Springfield"
    None "US" "12345" None.

Definition address_db : DB := set_order_addresses [shipping_address_1] base_db.

Definition discount_5 : DiscountDecision := mkDecision (d2 5 00) "USD" [1].

(** ** DELETE of an order, a product, a commission, a payout, a coupon

    The deletion collector over the other [on_delete] declarations of the
    modelled tables.  As for a shop, the rows collected by a cascade are
    deleted by key, a [RESTRICT] reference from a row that is not collected
    refuses the deletion, and nothing is written unless the collection
    succeeds. *)

(** [order.delete()]: [OrderItem.order], [OrderAddress.order],
    [Commission.order] and [CouponUsage.order] are [CASCADE]; from the
    collected items, [Commission.item] is [CASCADE]; from the collected
    commissions, [PayoutTransaction.commission] is [CASCADE].  No
    [RESTRICT] or [PROTECT] reference points at any of these models.  The
    other tables that refer to an order (status history, tracking,
    payments, refunds, shop reviews) are [CASCADE] or [SET_NULL] as well
    and are not represented. *)
Definition order_items_of (oid : Z) (db : DB) : list OrderItem.t :=
  filter (fun i => OrderItem.order i =? oid) (order_items db).

Definition order_address_rows (oid : Z) (db : DB) : list OrderAddress.t :=
  filter (fun a => OrderAddress.order a =? oid) (order_addresses db).

Definition order_commissions (oid : Z) (db : DB) : list Commission.t :=
  filter (fun c =>
            (Commission.order c =? oid)
            || taken Z.eqb OrderItem.item_id (order_items_of oid db)
                 (Commission.item c)) (commissions db).

Definition order_payout_transactions (oid : Z) (db : DB)
    : list PayoutTransaction.t :=
  filter (fun x => taken Z.eqb Commission.commission_id (order_commissions oid db)
                     (PayoutTransaction.commission x)) (payout_transactions db).

Definition order_coupon_usages (oid : Z) (db : DB) : list CouponUsage.t :=
  filter (fun u => CouponUsage.order u =? oid) (coupon_usages db).

Definition Order_delete (oid : Z) (db : DB) : result DB :=
  if negb (taken Z.eqb Order.order_id (orders db) oid) then Err DoesNotExist
  else
    Ok (mkDB
          (shops db)
          (products db)
          (variants db)
          (filter (fun o => negb (Order.order_id o =? oid)) (orders db))
          (without OrderItem.item_id (order_items_of oid db) (order_items db))
          (without OrderAddress.address_id (order_address_rows oid db)
             (order_addresses db))
          (without Commission.commission_id (order_commissions oid db)
             (commissions db))
          (payouts db)
          (without PayoutTransaction.payout_transaction_id
             (order_payout_transactions oid db) (payout_transactions db))
          (coupons db)
          (without CouponUsage.usage_id (order_coupon_usages oid db)
             (coupon_usages db))).




(** [commission.delete()]: [PayoutTransaction.commission] is [CASCADE];
    nothing restricts. *)
Definition commission_payout_transactions (cid : Z) (db : DB)
    : list PayoutTransaction.t :=
  filter (fun x => PayoutTransaction.commission x =? cid) (payout_transactions db).

Definition Commission_delete (cid : Z) (db : DB) : result DB :=
  if negb (taken Z.eqb Commission.commission_id (commissions db) cid)
  then Err DoesNotExist
  else
    Ok (set_payout_transactions
          (without PayoutTransaction.payout_transaction_id
             (commission_payout_transactions cid db) (payout_transactions db))
          (set_commissions
             (filter (fun c => negb (Commission.commission_id c =? cid))
                (commissions db))
             db)).

(** [payout.delete()]: [PayoutTransaction.payout] is [CASCADE]; nothing
    restricts. *)
Definition payout_payout_transactions (pid : Z) (db : DB)
    : list PayoutTransaction.t :=
  filter (fun x => PayoutTransaction.payout x =? pid) (payout_transactions db).

Definition Payout_delete (pid : Z) (db : DB) : result DB :=
  if negb (taken Z.eqb Payout.payout_id (payouts db) pid) then Err DoesNotExist
  else
    Ok (set_payout_transactions
          (without PayoutTransaction.payout_transaction_id
             (payout_payout_transactions pid db) (payout_transactions db))
          (set_payouts
             (filter (fun p => negb (Payout.payout_id p =? pid)) (payouts db))
             db)).

(** [coupon.delete()]: [CouponUsage.coupon] is [CASCADE]; nothing
    restricts. *)
Definition coupon_coupon_usages (cid : Z) (db : DB) : list CouponUsage.t :=
  filter (fun u => CouponUsage.coupon u =? cid) (coupon_usages db).

Definition Coupon_delete (cid : Z) (db : DB) : result DB :=
  if negb (taken Z.eqb Coupon.coupon_id (coupons db) cid) then Err DoesNotExist
  else
    Ok (set_coupon_usages
          (without CouponUsage.usage_id (coupon_coupon_usages cid db)
             (coupon_usages db))
          (set_coupons
             (filter (fun c => negb (Coupon.coupon_id c =? cid)) (coupons db))
             db)).

(** ** The [__str__] methods *)

(** [str(n)] of an integer: decimal digits, a leading minus sign for a
    negative number. *)
Definition py_str_int (n : Z) : string :=
  DecimalString.NilZero.string_of_int (Z.to_int n).

(** [a or b] on two optional strings: [a] unless it is None or empty. *)
Definition py_or (a b : option string) : option string :=
  match a with
  | Some s => if String.eqb s "" then b else Some s
  | None => b
  end.

(** An optional string inside an f-string. *)
Definition py_format (v : option string) : string :=
  match v with
  | Some s => s
  | None => "None"
  end.

(** [Order.__str__]: [return self.order_number] *)
Definition Order_str (o : Order.t) : string := Order.order_number o.

(** [OrderItem.__str__]:
    [return f"Item {self.item_id} for order {self.order.order_number}"];
    [self.order] fetches the order row and raises DoesNotExist without it. *)
Definition OrderItem_str (db : DB) (i : OrderItem.t) : result string :=
  match lookup Z.eqb Order.order_id (orders db) (OrderItem.order i) with
  | None => Err DoesNotExist
  | Some o =>
      Ok (String.append "Item "
            (String.append (py_str_int (OrderItem.item_id i))
               (String.append " for order " (Order_str o))))
  end.

(** [ProductVariant.__str__]:
    [return f"{self.product.product_name} - {self.variant_name or self.sku}"] *)
Definition ProductVariant_str (db : DB) (v : ProductVariant.t) : result string :=
  match lookup Z.eqb Product.product_id (products db) (ProductVariant.product v) with
  | None => Err DoesNotExist
  | Some p =>
      Ok (String.append (Product.product_name p)
            (String.append " - "
               (py_format (py_or (ProductVariant.variant_name v)
                             (ProductVariant.sku v)))))
  end.

(** No character of the string is a space. *)
Fixpoint no_space (s : string) : bool :=
  match s with
  | EmptyString => true
  | String c rest => negb (Ascii.eqb c Ascii.Space) && no_space rest
  end.

(** ** Every field declared with [choices]

    One entry per [CharField(max_length=n, choices=c)] of the ten model
    files: the model, the field, [max_length], the choices and the declared
    default, if any. *)

Record ChoiceFieldDecl : Type := mkChoiceField {
  cf_model : string;
  cf_field : string;
  cf_max_length : nat;
  cf_choices : list (string * string);
  cf_default : option string
}.

Definition declared_choice_fields : list ChoiceFieldDecl :=
  [
    (* users *)
    mkChoiceField "UserProfile" "gender" 20
      [ ("male", "Male");
        ("female", "Female");
        ("other", "Other");
        ("prefer_not_to_say", "Prefer not to say") ]
      None;
    (* users *)
    mkChoiceField "UserProfile" "status" 10
      [ ("active", "Active");
        ("inactive", "Inactive");
        ("suspended", "Suspended") ]
      (Some "active");
    (* users *)
    mkChoiceField "UserAddress" "address_type" 10
      [ ("home", "Home");
        ("work", "Work");
        ("billing", "Billing");
        ("shipping", "Shipping") ]
      None;
    (* users *)
    mkChoiceField "UserBusinessData" "kyc_status" 20
      [ ("pending", "Pending");
        ("approved", "Approved");
        ("rejected", "Rejected");
        ("resubmit_required", "Resubmit Required") ]
      (Some "pending");
    (* users *)
    mkChoiceField "KeycloakUserSync" "sync_status" 10
      [ ("success", "Success");
        ("failed", "Failed") ]
      None;
    (* users *)
    mkChoiceField "UserPreference" "theme" 10
      [ ("light", "Light");
        ("dark", "Dark") ]
      (Some "light");
    (* shops *)
    mkChoiceField "Shop" "status" 10
      Shop.STATUS_CHOICES
      (Some "pending");
    (* shops *)
    mkChoiceField "ShopStaff" "role" 10
      [ ("manager", "Manager");
        ("staff", "Staff");
        ("viewer", "Viewer") ]
      None;
    (* shops *)
    mkChoiceField "ShopStaff" "status" 10
      [ ("active", "Active");
        ("inactive", "Inactive") ]
      (Some "active");
    (* products *)
    mkChoiceField "Product" "status" 10
      Product.STATUS_CHOICES
      (Some "draft");
    (* products *)
    mkChoiceField "ProductAttribute" "attribute_type" 10
      [ ("text", "Text");
        ("number", "Number");
        ("boolean", "Boolean");
        ("select", "Select") ]
      (Some "text");
    (* orders *)
    mkChoiceField "Order" "status" 10
      Order.STATUS_CHOICES
      (Some "pending");
    (* orders *)
    mkChoiceField "OrderItem" "status" 10
      OrderItem.STATUS_CHOICES
      (Some "pending");
    (* orders *)
    mkChoiceField "OrderAddress" "address_type" 10
      OrderAddress.ADDRESS_TYPE_CHOICES
      None;
    (* orders *)
    mkChoiceField "OrderPayment" "status" 10
      [ ("pending", "Pending");
        ("completed", "Completed");
        ("failed", "Failed");
        ("refunded", "Refunded") ]
      None;
    (* orders *)
    mkChoiceField "OrderRefund" "status" 10
      [ ("pending", "Pending");
        ("approved", "Approved");
        ("processed", "Processed");
        ("rejected", "Rejected") ]
      None;
    (* payments *)
    mkChoiceField "PaymentMethod" "method_type" 10
      [ ("card", "Card");
        ("wallet", "Wallet");
        ("bank", "Bank");
        ("cod", "Cash on Delivery") ]
      None;
    (* payments *)
    mkChoiceField "Transaction" "transaction_type" 20
      [ ("payment", "Payment");
        ("refund", "Refund");
        ("commission", "Commission");
        ("payout", "Payout");
        ("wallet_deposit", "Wallet Deposit");
        ("wallet_withdrawal", "Wallet Withdrawal") ]
      None;
    (* payments *)
    mkChoiceField "Transaction" "status" 10
      [ ("pending", "Pending");
        ("completed", "Completed");
        ("failed", "Failed");
        ("cancelled", "Cancelled") ]
      None;
    (* payments *)
    mkChoiceField "Commission" "status" 10
      Commission.STATUS_CHOICES
      (Some "pending");
    (* payments *)
    mkChoiceField "Payout" "status" 10
      Payout.STATUS_CHOICES
      None;
    (* payments *)
    mkChoiceField "Invoice" "status" 10
      [ ("draft", "Draft");
        ("sent", "Sent");
        ("paid", "Paid");
        ("overdue", "Overdue");
        ("void", "Void") ]
      None;
    (* payments *)
    mkChoiceField "WalletTransaction" "transaction_type" 20
      [ ("deposit", "Deposit");
        ("withdrawal", "Withdrawal");
        ("payment", "Payment");
        ("refund_credit", "Refund Credit") ]
      None;
    (* discounts *)
    mkChoiceField "Coupon" "discount_type" 15
      Coupon.DISCOUNT_TYPE_CHOICES
      None;
    (* discounts *)
    mkChoiceField "DiscountPolicy" "policy_type" 20
      [ ("bulk_purchase", "Bulk Purchase");
        ("category_wide", "Category Wide");
        ("customer_group", "Customer Group") ]
      None;
    (* reviews *)
    mkChoiceField "Review" "status" 10
      [ ("pending", "Pending");
        ("approved", "Approved");
        ("rejected", "Rejected") ]
      (Some "pending");
    (* reviews *)
    mkChoiceField "ReviewVote" "vote_type" 11
      [ ("helpful", "Helpful");
        ("not_helpful", "Not Helpful") ]
      None;
    (* reviews *)
    mkChoiceField "ShopReview" "status" 10
      [ ("pending", "Pending");
        ("approved", "Approved");
        ("rejected", "Rejected") ]
      (Some "pending");
    (* reviews *)
    mkChoiceField "ReviewModeration" "action" 10
      [ ("approve", "Approve");
        ("reject", "Reject");
        ("flag", "Flag");
        ("edit", "Edit") ]
      None;
    (* notifications *)
    mkChoiceField "NotificationTemplate" "template_type" 10
      [ ("email", "Email");
        ("sms", "SMS");
        ("push", "Push");
        ("in_app", "In-App") ]
      None;
    (* notifications *)
    mkChoiceField "Notification" "priority" 10
      [ ("low", "Low");
        ("medium", "Medium");
        ("high", "High") ]
      (Some "medium");
    (* notifications *)
    mkChoiceField "Notification" "status" 10
      [ ("pending", "Pending");
        ("sent", "Sent");
        ("delivered", "Delivered");
        ("failed", "Failed");
        ("read", "Read") ]
      (Some "pending");
    (* notifications *)
    mkChoiceField "NotificationLog" "channel" 10
      [ ("email", "Email");
        ("sms", "SMS");
        ("push", "Push");
        ("in_app", "In-App") ]
      None;
    (* notifications *)
    mkChoiceField "NotificationLog" "status" 10
      [ ("success", "Success");
        ("failed", "Failed");
        ("deferred", "Deferred") ]
      None;
    (* notifications *)
    mkChoiceField "EmailCampaign" "status" 10
      [ ("draft", "Draft");
        ("scheduled", "Scheduled");
        ("sending", "Sending");
        ("sent", "Sent");
        ("cancelled", "Cancelled") ]
      (Some "draft");
    (* notifications *)
    mkChoiceField "NotificationQueue" "channel" 10
      [ ("email", "Email");
        ("sms", "SMS");
        ("push", "Push");
        ("in_app", "In-App") ]
      None;
    (* analytics *)
    mkChoiceField "ReportSchedule" "frequency" 10
      [ ("daily", "Daily");
        ("weekly", "Weekly");
        ("monthly", "Monthly") ]
      None;
    (* security *)
    mkChoiceField "SecurityLog" "event_type" 20
      [ ("login", "Login");
        ("logout", "Logout");
        ("failed_login", "Failed Login");
        ("password_change", "Password Change");
        ("suspicious_activity", "Suspicious Activity");
        ("permission_change", "Permission Change") ]
      None;
    (* security *)
    mkChoiceField "DataChangeLog" "operation" 10
      [ ("INSERT", "Insert");
        ("UPDATE", "Update");
        ("DELETE", "Delete") ]
      None;
    (* security *)
    mkChoiceField "SecurityIncident" "severity" 10
      [ ("low", "Low");
        ("medium", "Medium");
        ("high", "High");
        ("critical", "Critical") ]
      None;
    (* security *)
    mkChoiceField "SystemBackup" "backup_type" 20
      [ ("full", "Full");
        ("incremental", "Incremental");
        ("database", "Database");
        ("filesystem", "Filesystem") ]
      None;
    (* security *)
    mkChoiceField "SystemBackup" "status" 20
      [ ("in_progress", "In Progress");
        ("completed", "Completed");
        ("failed", "Failed") ]
      None
  ].

(** ** apps/reviews/models.py: RatingSummary *)

Module RatingSummary.

Record t : Type := mk {
  summary_id : Z;
  product : option Z;                  (* Product, OneToOne, CASCADE, null=True *)
  shop : option Z;                     (* Shop, OneToOne, CASCADE, null=True *)
  average_rating : Decimal;            (* max_digits=3 *)
  total_reviews : Z;                   (* PositiveIntegerField *)
  rating_1_count : Z;
  rating_2_count : Z;
  rating_3_count : Z;
  rating_4_count : Z;
  rating_5_count : Z;
  last_updated_at : Z
}.

Definition isnull (v : option Z) : bool :=
  match v with
  | None => true
  | Some _ => false
  end.

(** [CheckConstraint(name='chk_summary_target')]:
    [(Q(product__isnull=False) & Q(shop__isnull=True))
     | (Q(product__isnull=True) & Q(shop__isnull=False))] *)
Definition chk_summary_target (r : t) : bool :=
  (negb (isnull (product r)) && isnull (shop r))
  || (isnull (product r) && negb (isnull (shop r))).

(** The six [PositiveIntegerField] columns. *)
Definition counts (r : t) : list Z :=
  [ total_reviews r; rating_1_count r; rating_2_count r; rating_3_count r;
    rating_4_count r; rating_5_count r ].

End RatingSummary.

(** The rating summaries beside a database: what the table guarantees of
    every committed state, and its INSERT.  A [OneToOneField] is a foreign
    key with a UNIQUE index, in which NULL never conflicts. *)
Record summaries_consistent (db : DB) (t : list RatingSummary.t) : Prop := {
  pk_summaries : unique Z.eqb RatingSummary.summary_id t = true;
  uq_summary_product : unique (null_eqb Z.eqb) RatingSummary.product t = true;
  uq_summary_shop : unique (null_eqb Z.eqb) RatingSummary.shop t = true;
  fk_summary_product :
    null_references RatingSummary.product Product.product_id (products db) t = true;
  fk_summary_shop :
    null_references RatingSummary.shop Shop.shop_id (shops db) t = true;
  ck_summary_target : forallb RatingSummary.chk_summary_target t = true;
  ck_summary_counts :
    forallb (fun r => forallb PositiveIntegerField_db_check (RatingSummary.counts r))
      t = true
}.

Definition RatingSummary_create (r : RatingSummary.t) (db : DB)
    (t : list RatingSummary.t) : result (list RatingSummary.t) :=
  _ <- require (fresh RatingSummary.summary_id t (RatingSummary.summary_id r))
         "rating_summary.pk" ;;
  _ <- require (match RatingSummary.product r with
                | None => true
                | Some p => taken Z.eqb Product.product_id (products db) p
                end) "rating_summary.product" ;;
  _ <- require (match RatingSummary.shop r with
                | None => true
                | Some s => taken Z.eqb Shop.shop_id (shops db) s
                end) "rating_summary.shop" ;;
  _ <- require (negb (taken (null_eqb Z.eqb) RatingSummary.product t
                        (RatingSummary.product r))) "rating_summary.product_id" ;;
  _ <- require (negb (taken (null_eqb Z.eqb) RatingSummary.shop t
                        (RatingSummary.shop r))) "rating_summary.shop_id" ;;
  _ <- require (RatingSummary.chk_summary_target r) "chk_summary_target" ;;
  _ <- require (forallb PositiveIntegerField_db_check (RatingSummary.counts r))
         "rating_summary.count_check" ;;
  Ok (r :: t).

(** ** apps/discounts/models.py: DiscountUsageAnalytics *)

Module DiscountUsageAnalytics.

Record t : Type := mk {
  analytics_id : Z;
  coupon : option Z;                   (* Coupon, SET_NULL, null=True *)
  date : Z;
  usage_count : Z;                     (* PositiveIntegerField *)
  total_discount_amount : Decimal;     (* max_digits=15 *)
  revenue_impact : Decimal;            (* max_digits=15 *)
  created_at : Z
}.

(** [Meta.unique_together = ('coupon', 'date')] *)
Definition unique_together (r : t) : option Z * Z := (coupon r, date r).

Definition set_coupon (v : option Z) (r : t) : t :=
  mk (analytics_id r) v (date r) (usage_count r) (total_discount_amount r)
     (revenue_impact r) (created_at r).

End DiscountUsageAnalytics.

(** What [on_delete=SET_NULL] does to the analytics rows when the coupon
    [cid] is deleted: the rows that name it stay, with [coupon] set to
    NULL. *)
Definition coupon_SET_NULL (cid : Z) (t : list DiscountUsageAnalytics.t)
    : list DiscountUsageAnalytics.t :=
  map (fun r =>
         match DiscountUsageAnalytics.coupon r with
         | Some c =>
             if c =? cid then DiscountUsageAnalytics.set_coupon None r else r
         | None => r
         end) t.

(** ** What stands in the way of deleting a shop

    The [RESTRICT] rules of [OrderItem.shop], [OrderItem.product],
    [OrderItem.variant] and [Payout.shop], read on the tables: an order
    item protects the shop it names, the shop of the product it names and
    the shop of the product of the variant it names; a payout protects the
    shop it names. *)
Definition item_protects_shop (sid : Z) (db : DB) (i : OrderItem.t) : Prop :=
  OrderItem.shop i = sid
  \/ (exists p, In p (products db)
                /\ Product.product_id p = OrderItem.product i
                /\ Product.shop p = sid)
  \/ (exists v p, In v (variants db) /\ In p (products db)
                  /\ ProductVariant.variant_id v = OrderItem.variant i
                  /\ Product.product_id p = ProductVariant.product v
                  /\ Product.shop p = sid).

Definition shop_protected (sid : Z) (db : DB) : Prop :=
  (exists i, In i (order_items db) /\ item_protects_shop sid db i)
  \/ (exists y, In y (payouts db) /\ Payout.shop y = sid).

(** A second product, of the first shop, with one variant; and an order item
    of the second shop's product that names this variant. *)
Definition product_2 : Product.t :=
  Product.mk 2 1 7 "Kettle" "kettle" None None (Some "KT-1") None "active" false
    1001 1001.

Definition variant_2 : ProductVariant.t :=
  ProductVariant.mk 2 2 (Some "Red") (Some "KT-1-R") (d2 30 00) None None None
    None None true 1001.

Definition item_other_variant : OrderItem.t :=
  OrderItem.mk 1 1 1 2 2 1 (d2 50 00) (d2 50 00) (d2 10 00) (d2 5 00)
    OrderItem.default_status 1002.

Definition other_variant_db : DB :=
  mkDB [shop_beta; shop_alpha] [product_2; product_1] [variant_2; variant_1]
    [order_1] [item_other_variant] [] [] [] [] [] [].

(** * Properties *)

(** ** Tables and keys *)

Lemma taken_iff (A K : Type) (eqb : K -> K -> bool) (key : A -> K)
    (t : list A) (k : K) :
  taken eqb key t k = true <-> exists r, In r t /\ eqb (key r) k = true.
Proof. unfold taken. apply existsb_exists. Qed.

Lemma taken_false_iff (A K : Type) (eqb : K -> K -> bool) (key : A -> K)
    (t : list A) (k : K) :
  taken eqb key t k = false <-> forall r, In r t -> eqb (key r) k = false.
Proof.
  unfold taken. induction t as [|x t IH]; simpl.
  - split; [intros _ r []|reflexivity].
  - rewrite orb_false_iff, IH. split.
    + intros [Hx Ht] r [<-|Hr]; auto.
    + intros H. split; [apply H; now left|intros r Hr; apply H; now right].
Qed.

Section UniqueKeys.

Variables (A K : Type) (eqb : K -> K -> bool) (key : A -> K).
Hypothesis eqb_eq : forall x y, eqb x y = true <-> x = y.

Lemma unique_cons (r : A) (t : list A) :
  unique eqb key (r :: t) = true <->
  taken eqb key t (key r) = false /\ unique eqb key t = true.
Proof.
  simpl. rewrite andb_true_iff, negb_true_iff. tauto.
Qed.

Lemma filter_key_nil (t : list A) (k : K) :
  taken eqb key t k = false -> filter (fun r => eqb (key r) k) t = [].
Proof.
  intros H. induction t as [|x t IH]; simpl; [reflexivity|].
  unfold taken in H. simpl in H. apply orb_false_iff in H as [Hx Ht].
  rewrite Hx. now apply IH.
Qed.

(** Two rows of a table with a UNIQUE key that agree on the key are one
    row. *)
Lemma unique_same_key (t : list A) :
  unique eqb key t = true ->
  forall a b, In a t -> In b t -> key a = key b -> a = b.
Proof.
  induction t as [|r t IH]; intros Hu a b Ha Hb Hk; [destruct Ha|].
  apply unique_cons in Hu as [Hfree Hu].
  rewrite taken_false_iff in Hfree.
  destruct Ha as [Ea|Ha], Hb as [Eb|Hb].
  - congruence.
  - subst a. specialize (Hfree b Hb).
    assert (eqb (key b) (key r) = true) by now apply eqb_eq.
    congruence.
  - subst b. specialize (Hfree a Ha).
    assert (eqb (key a) (key r) = true) by now apply eqb_eq.
    congruence.
  - now apply IH.
Qed.

(** At most one row per key. *)
Lemma unique_count (t : list A) (k : K) :
  unique eqb key t = true ->
  (List.length (filter (fun r => eqb (key r) k) t) <= 1)%nat.
Proof.
  induction t as [|r t IH]; intros Hu; simpl; [lia|].
  apply unique_cons in Hu as [Hfree Hu].
  destruct (eqb (key r) k) eqn:E.
  - apply eqb_eq in E. subst k.
    rewrite (filter_key_nil _ _ Hfree). simpl. lia.
  - now apply IH.
Qed.

Lemma taken_of_member (t : list A) (r : A) :
  In r t -> taken eqb key t (key r) = true.
Proof.
  intros H. apply taken_iff. exists r. split; [assumption|now apply eqb_eq].
Qed.

End UniqueKeys.

Lemma pair_eqb_eq (A B : Type) (eqa : A -> A -> bool) (eqb : B -> B -> bool) :
  (forall x y, eqa x y = true <-> x = y) ->
  (forall x y, eqb x y = true <-> x = y) ->
  forall p q, pair_eqb eqa eqb p q = true <-> p = q.
Proof.
  intros Ha Hb [a b] [c d]. unfold pair_eqb. simpl.
  rewrite andb_true_iff, Ha, Hb. split.
  - now intros [-> ->].
  - intros E. injection E as -> ->. tauto.
Qed.

Lemma ZZ_eqb_eq (p q : Z * Z) : pair_eqb Z.eqb Z.eqb p q = true <-> p = q.
Proof. apply pair_eqb_eq; [apply Z.eqb_eq|apply Z.eqb_eq]. Qed.

Lemma Zstring_eqb_eq (p q : Z * string) :
  pair_eqb Z.eqb String.eqb p q = true <-> p = q.
Proof. apply pair_eqb_eq; [apply Z.eqb_eq|apply String.eqb_eq]. Qed.

Lemma require_false (s : string) : require false s = Err (IntegrityError s).
Proof. reflexivity. Qed.

Lemma require_true (s : string) : require true s = Ok tt.
Proof. reflexivity. Qed.

(** ** The sample database satisfies every constraint *)

Lemma base_db_consistent : db_consistent base_db.
Proof. constructor; reflexivity. Qed.

Lemma base_db_built :
  (db1 <- Shop_create shop_alpha empty_db ;;
   db2 <- Shop_create shop_beta db1 ;;
   db3 <- Product_create product_1 db2 ;;
   db4 <- ProductVariant_create variant_1 db3 ;;
   db5 <- Order_create order_1 db4 ;;
   OrderItem_create item_1 db5) = Ok base_db.
Proof. reflexivity. Qed.

(** ** Status choices *)

(** C8: every status an order item can take is a status an order can
    take: the values of [OrderItem.STATUS_CHOICES] are pending, shipped,
    delivered, cancelled and refunded, and each of them is a value of
    [Order.STATUS_CHOICES]; a status accepted by the item's field check is
    accepted by the order's. *)
Theorem item_statuses_are_order_statuses :
  choice_values OrderItem.STATUS_CHOICES
    = ["pending"; "shipped"; "delivered"; "cancelled"; "refunded"]
  /\ incl (choice_values OrderItem.STATUS_CHOICES)
          (choice_values Order.STATUS_CHOICES)
  /\ forall s : string,
       ChoiceField_ok 10 OrderItem.STATUS_CHOICES s = true ->
       ChoiceField_ok 10 Order.STATUS_CHOICES s = true.
Proof.
  split; [reflexivity|]. split.
  - intros s Hs. simpl in Hs.
    repeat (destruct Hs as [<-|Hs]; [simpl; tauto|]). destruct Hs.
  - intros s. unfold ChoiceField_ok, in_choices.
    rewrite !andb_true_iff. intros [[Hne Hin] Hlen].
    repeat split; try assumption.
    apply existsb_exists in Hin as [v [Hv E]].
    apply String.eqb_eq in E. subst v.
    apply existsb_exists. exists s. split; [|apply String.eqb_refl].
    simpl in Hv.
    repeat (destruct Hv as [<-|Hv]; [simpl; tauto|]). destruct Hv.
Qed.

Lemma item_statuses_are_order_statuses_witness :
  ChoiceField_ok 10 OrderItem.STATUS_CHOICES "shipped" = true
  /\ ChoiceField_ok 10 Order.STATUS_CHOICES "shipped" = true.
Proof.
  split; [reflexivity|].
  apply (proj2 (proj2 item_statuses_are_order_statuses) "shipped").
  reflexivity.
Defined.

(** ** Shop defaults *)

(** C10: a shop constructed without a value for [status],
    [commission_rate] or [minimum_payout_amount] gets the declared default
    of that field: 'pending', 10.00 (the 10 percent base rate) and 50.00;
    the defaults pass the field checks of their declarations. *)
Theorem shop_defaults (pk now : Z) (a : Shop.kwargs) :
  (Shop.kw_status a = None -> Shop.status (Shop.init pk now a) = "pending")
  /\ (Shop.kw_commission_rate a = None ->
      Shop.commission_rate (Shop.init pk now a) = d2 10 00)
  /\ (Shop.kw_minimum_payout_amount a = None ->
      Shop.minimum_payout_amount (Shop.init pk now a) = d2 50 00)
  /\ ChoiceField_ok 10 Shop.STATUS_CHOICES Shop.default_status = true
  /\ DecimalField_ok 5 Shop.default_commission_rate = true
  /\ DecimalField_ok 10 Shop.default_minimum_payout_amount = true.
Proof.
  repeat split; try reflexivity; intros E; simpl; rewrite E; reflexivity.
Qed.

Lemma shop_defaults_witness :
  Shop.status shop_alpha = "pending"
  /\ Shop.commission_rate shop_alpha = 1000
  /\ Shop.minimum_payout_amount shop_alpha = 5000.
Proof.
  pose proof (shop_defaults 1 1000
                (Shop.named "kc-owner-1" "Alpha" "alpha"))
    as (Hs & Hr & Hm & _).
  split; [exact (Hs eq_refl)|]. split; [exact (Hr eq_refl)|exact (Hm eq_refl)].
Defined.

(** ** INSERT keeps the constraints *)

Lemma references_parent_cons (A B : Type) (fk : A -> Z) (pk : B -> Z)
    (p : B) (parent : list B) (child : list A) :
  references fk pk parent child = true ->
  references fk pk (p :: parent) child = true.
Proof.
  unfold references. rewrite !forallb_forall. intros H r Hr.
  simpl. rewrite (H r Hr). apply orb_true_r.
Qed.

Lemma null_references_parent_cons (A B : Type) (fk : A -> option Z) (pk : B -> Z)
    (p : B) (parent : list B) (child : list A) :
  null_references fk pk parent child = true ->
  null_references fk pk (p :: parent) child = true.
Proof.
  unfold null_references. rewrite !forallb_forall. intros H r Hr.
  specialize (H r Hr). destruct (fk r); [|reflexivity].
  simpl. rewrite H. apply orb_true_r.
Qed.

(** Splits a successful INSERT into the checks it passed. *)
Ltac passed H :=
  unfold bind in H;
  repeat match type of H with
         | context [require ?b ?s] =>
             let E := fresh "Hpass" in
             destruct b eqn:E;
             [ rewrite require_true in H
             | rewrite require_false in H; discriminate H ]
         end;
  injection H as <-.

Ltac kept Hc :=
  destruct Hc; constructor; simpl;
  unfold fresh in *;
  repeat match goal with
         | E : negb _ = true |- _ => apply negb_true_iff in E
         end;
  repeat match goal with
         | E : ?x = _ |- context [?x] => rewrite E
         end;
  simpl;
  try reflexivity;
  try assumption;
  try (apply references_parent_cons; assumption);
  try (apply null_references_parent_cons; assumption).

Lemma Shop_create_consistent (r : Shop.t) (db db' : DB) :
  db_consistent db -> Shop_create r db = Ok db' -> db_consistent db'.
Proof. intros Hc H. unfold Shop_create in H. passed H. kept Hc. Qed.

Lemma Product_create_consistent (r : Product.t) (db db' : DB) :
  db_consistent db -> Product_create r db = Ok db' -> db_consistent db'.
Proof. intros Hc H. unfold Product_create in H. passed H. kept Hc. Qed.

Lemma ProductVariant_create_consistent (r : ProductVariant.t) (db db' : DB) :
  db_consistent db -> ProductVariant_create r db = Ok db' -> db_consistent db'.
Proof. intros Hc H. unfold ProductVariant_create in H. passed H. kept Hc. Qed.

Lemma Order_create_consistent (r : Order.t) (db db' : DB) :
  db_consistent db -> Order_create r db = Ok db' -> db_consistent db'.
Proof. intros Hc H. unfold Order_create in H. passed H. kept Hc. Qed.

Lemma OrderItem_create_consistent (r : OrderItem.t) (db db' : DB) :
  db_consistent db -> OrderItem_create r db = Ok db' -> db_consistent db'.
Proof. intros Hc H. unfold OrderItem_create in H. passed H. kept Hc. Qed.

Lemma OrderAddress_create_consistent (r : OrderAddress.t) (db db' : DB) :
  db_consistent db -> OrderAddress_create r db = Ok db' -> db_consistent db'.
Proof. intros Hc H. unfold OrderAddress_create in H. passed H. kept Hc. Qed.

Lemma Commission_create_consistent (r : Commission.t) (db db' : DB) :
  db_consistent db -> Commission_create r db = Ok db' -> db_consistent db'.
Proof. intros Hc H. unfold Commission_create in H. passed H. kept Hc. Qed.

Lemma Payout_create_consistent (r : Payout.t) (db db' : DB) :
  db_consistent db -> Payout_create r db = Ok db' -> db_consistent db'.
Proof. intros Hc H. unfold Payout_create in H. passed H. kept Hc. Qed.

Lemma PayoutTransaction_create_consistent (r : PayoutTransaction.t) (db db' : DB) :
  db_consistent db -> PayoutTransaction_create r db = Ok db' -> db_consistent db'.
Proof. intros Hc H. unfold PayoutTransaction_create in H. passed H. kept Hc. Qed.

Lemma Coupon_create_consistent (r : Coupon.t) (db db' : DB) :
  db_consistent db -> Coupon_create r db = Ok db' -> db_consistent db'.
Proof. intros Hc H. unfold Coupon_create in H. passed H. kept Hc. Qed.

Lemma CouponUsage_create_consistent (r : CouponUsage.t) (db db' : DB) :
  db_consistent db -> CouponUsage_create r db = Ok db' -> db_consistent db'.
Proof. intros Hc H. unfold CouponUsage_create in H. passed H. kept Hc. Qed.

(** ** unique_together *)

(** Decides an INSERT that must be refused: every check either fails or is
    the unique check, which the hypothesis [Ht] settles. *)
Ltac refused Ht :=
  unfold bind;
  repeat match goal with
         | |- context [require ?b ?s] =>
             first
               [ rewrite Ht; simpl negb; rewrite require_false;
                 eexists; reflexivity
               | destruct b;
                 [ rewrite require_true
                 | rewrite require_false; eexists; reflexivity ] ]
         end.

(** C9: an order has at most one address per address type, so at most one
    shipping and at most one billing address: in every database state the
    rows of an order with one address type are at most one row, two address
    rows of the same order and type are the same row, an INSERT of a second
    address of a type the order already has fails with IntegrityError, and
    a successful INSERT keeps the constraints. *)
Theorem one_address_per_type (db : DB) (Hc : db_consistent db) :
  (forall (oid : Z) (ty : string),
      (List.length (addresses_of oid ty db) <= 1)%nat)
  /\ (forall a b : OrderAddress.t,
        In a (order_addresses db) -> In b (order_addresses db) ->
        OrderAddress.order a = OrderAddress.order b ->
        OrderAddress.address_type a = OrderAddress.address_type b ->
        a = b)
  /\ (forall a r : OrderAddress.t,
        In a (order_addresses db) ->
        OrderAddress.order r = OrderAddress.order a ->
        OrderAddress.address_type r = OrderAddress.address_type a ->
        exists c, OrderAddress_create r db = Err (IntegrityError c))
  /\ (forall (r : OrderAddress.t) (db' : DB),
        OrderAddress_create r db = Ok db' -> db_consistent db').
Proof.
  pose proof (uq_order_address Hc) as Hu.
  split; [|split; [|split]].
  - intros oid ty. unfold addresses_of.
    apply unique_count; [apply Zstring_eqb_eq|exact Hu].
  - intros a b Ha Hb Ho Ht.
    apply (@unique_same_key _ _ _ _ Zstring_eqb_eq _ Hu a b Ha Hb).
    unfold OrderAddress.unique_together. congruence.
  - intros a r Ha Ho Ht.
    assert (Hk : taken (pair_eqb Z.eqb String.eqb) OrderAddress.unique_together
                   (order_addresses db) (OrderAddress.unique_together r) = true).
    { replace (OrderAddress.unique_together r)
        with (OrderAddress.unique_together a)
        by (unfold OrderAddress.unique_together; congruence).
      apply taken_of_member; [apply Zstring_eqb_eq|exact Ha]. }
    unfold OrderAddress_create. refused Hk.
  - intros r db'. now apply OrderAddress_create_consistent.
Qed.

Lemma one_address_per_type_witness :
  (List.length (addresses_of 1 "shipping" address_db) <= 1)%nat
  /\ (exists c, OrderAddress_create shipping_address_again address_db
                = Err (IntegrityError c))
  /\ is_ok (OrderAddress_create billing_address_1 address_db) = true.
Proof.
  assert (Hc : db_consistent address_db) by (constructor; reflexivity).
  pose proof (one_address_per_type Hc) as (Hn & _ & Hr & _).
  split; [apply Hn|]. split; [|reflexivity].
  apply (Hr shipping_address_1 shipping_address_again);
    [left; reflexivity|reflexivity|reflexivity].
Defined.

(** C4, as stated, fails: [unique_together = ('payout', 'commission')]
    accepts a second payout transaction for a commission that another
    payout already holds.  Commission 1 is in payout 1; the INSERT that
    enters it in payout 2 succeeds and the result satisfies every
    constraint, with two distinct transactions of one commission in two
    payouts. *)
Lemma commission_in_two_payouts :
  db_consistent settled_db
  /\ PayoutTransaction_create payout_transaction_2 settled_db = Ok two_payouts_db
  /\ db_consistent two_payouts_db
  /\ In payout_transaction_1 (payout_transactions two_payouts_db)
  /\ In payout_transaction_2 (payout_transactions two_payouts_db)
  /\ payout_transaction_1 <> payout_transaction_2
  /\ PayoutTransaction.commission payout_transaction_1
     = PayoutTransaction.commission payout_transaction_2
  /\ PayoutTransaction.payout payout_transaction_1
     <> PayoutTransaction.payout payout_transaction_2.
Proof.
  split; [constructor; reflexivity|].
  split; [reflexivity|].
  split; [constructor; reflexivity|].
  split; [right; left; reflexivity|].
  split; [left; reflexivity|].
  split; [discriminate|].
  split; [reflexivity|discriminate].
Qed.

(** C4, amended: the (payout, commission) uniqueness keeps a commission
    from appearing twice within one payout, not from appearing in two
    payouts: there is at most one transaction per pair, two distinct
    transactions of the same commission belong to different payouts, an
    INSERT repeating a stored pair fails with IntegrityError, and an INSERT
    with a new key, an existing payout and commission and a pair not yet
    stored is accepted whatever other payouts hold the commission. *)
Theorem one_transaction_per_payout_and_commission (db : DB)
    (Hc : db_consistent db) :
  (forall pid cid : Z,
      (List.length (payout_transactions_of pid cid db) <= 1)%nat)
  /\ (forall x y : PayoutTransaction.t,
        In x (payout_transactions db) -> In y (payout_transactions db) ->
        x <> y ->
        PayoutTransaction.commission x = PayoutTransaction.commission y ->
        PayoutTransaction.payout x <> PayoutTransaction.payout y)
  /\ (forall x r : PayoutTransaction.t,
        In x (payout_transactions db) ->
        PayoutTransaction.payout r = PayoutTransaction.payout x ->
        PayoutTransaction.commission r = PayoutTransaction.commission x ->
        exists c, PayoutTransaction_create r db = Err (IntegrityError c))
  /\ (forall r : PayoutTransaction.t,
        fresh PayoutTransaction.payout_transaction_id (payout_transactions db)
          (PayoutTransaction.payout_transaction_id r) = true ->
        taken Z.eqb Payout.payout_id (payouts db) (PayoutTransaction.payout r)
          = true ->
        taken Z.eqb Commission.commission_id (commissions db)
          (PayoutTransaction.commission r) = true ->
        (forall x, In x (payout_transactions db) ->
                   PayoutTransaction.commission x = PayoutTransaction.commission r ->
                   PayoutTransaction.payout x <> PayoutTransaction.payout r) ->
        PayoutTransaction_create r db
          = Ok (set_payout_transactions (r :: payout_transactions db) db)
        /\ db_consistent (set_payout_transactions (r :: payout_transactions db) db)).
Proof.
  pose proof (uq_payout_transaction Hc) as Hu.
  split; [|split; [|split]].
  - intros pid cid. unfold payout_transactions_of.
    apply unique_count; [apply ZZ_eqb_eq|exact Hu].
  - intros x y Hx Hy Hne Hcm Hp. apply Hne.
    apply (@unique_same_key _ _ _ _ ZZ_eqb_eq _ Hu x y Hx Hy).
    unfold PayoutTransaction.unique_together. congruence.
  - intros x r Hx Hp Hcm.
    assert (Hk : taken (pair_eqb Z.eqb Z.eqb) PayoutTransaction.unique_together
                   (payout_transactions db)
                   (PayoutTransaction.unique_together r) = true).
    { replace (PayoutTransaction.unique_together r)
        with (PayoutTransaction.unique_together x)
        by (unfold PayoutTransaction.unique_together; congruence).
      apply taken_of_member; [apply ZZ_eqb_eq|exact Hx]. }
    unfold PayoutTransaction_create. refused Hk.
  - intros r Hpk Hpay Hcom Hnew.
    assert (Hk : taken (pair_eqb Z.eqb Z.eqb) PayoutTransaction.unique_together
                   (payout_transactions db)
                   (PayoutTransaction.unique_together r) = false).
    { apply taken_false_iff. intros x Hx.
      destruct (pair_eqb Z.eqb Z.eqb (PayoutTransaction.unique_together x)
                  (PayoutTransaction.unique_together r)) eqn:E; [|reflexivity].
      apply ZZ_eqb_eq in E. unfold PayoutTransaction.unique_together in E.
      injection E as Ep Ec. now destruct (Hnew x Hx Ec). }
    assert (Hok : PayoutTransaction_create r db
                  = Ok (set_payout_transactions (r :: payout_transactions db) db)).
    { unfold PayoutTransaction_create, bind.
      rewrite Hpk, Hpay, Hcom, Hk. reflexivity. }
    split; [exact Hok|].
    exact (@PayoutTransaction_create_consistent _ _ _ Hc Hok).
Qed.

Lemma one_transaction_per_payout_and_commission_witness :
  (List.length (payout_transactions_of 1 1 two_payouts_db) <= 1)%nat
  /\ PayoutTransaction.payout payout_transaction_1
     <> PayoutTransaction.payout payout_transaction_2
  /\ (exists c, PayoutTransaction_create
                  (PayoutTransaction.mk 3 2 1 (d2 44 00) 1010) two_payouts_db
                = Err (IntegrityError c)).
Proof.
  assert (Hc : db_consistent two_payouts_db) by (constructor; reflexivity).
  pose proof (one_transaction_per_payout_and_commission Hc) as (Hn & Hd & Hr & _).
  split; [apply Hn|]. split.
  - apply Hd; [right; left; reflexivity|left; reflexivity|discriminate|reflexivity].
  - apply (Hr payout_transaction_2); [left; reflexivity|reflexivity|reflexivity].
Defined.

(** ** Coupons and discounts *)

Lemma applyDiscount_ok (d : DiscountDecision) (o o1 : Order.t) :
  applyDiscount d o = Ok o1 ->
  Order.status o = "pending"
  /\ decision_currency d = Order.currency o
  /\ o1 = recompute_total (Order.set_discount_amount (decision_amount d) o).
Proof.
  unfold applyDiscount. intros H.
  destruct (String.eqb (Order.status o) "pending") eqn:Es; [|discriminate H].
  destruct (String.eqb (decision_currency d) (Order.currency o)) eqn:Ec;
    [|discriminate H].
  simpl in H. injection H as <-.
  apply String.eqb_eq in Es. apply String.eqb_eq in Ec. auto.
Qed.

(** [applyDiscount] sets the discount: a second application of the same
    decision changes nothing. *)
Lemma applyDiscount_twice (d : DiscountDecision) (o o1 : Order.t) :
  applyDiscount d o = Ok o1 -> applyDiscount d o1 = Ok o1.
Proof.
  intros H. apply applyDiscount_ok in H as (Es & Ec & ->).
  unfold applyDiscount. destruct o; simpl in *. subst.
  rewrite !String.eqb_refl. reflexivity.
Qed.

(** C5: a coupon is recorded at most once per order: there is at most one
    [CouponUsage] row per (coupon, order); recording the same coupon for the
    same order again fails with IntegrityError, so no second row is written
    and no table changes; a recorded usage leaves the orders as they are;
    and applying the same discount decision to an order twice gives the
    order that one application gives, whose total is the undiscounted
    amounts minus the discount once. *)
Theorem coupon_applied_once (db : DB) (Hc : db_consistent db) :
  (forall cid oid : Z, (List.length (usages_of cid oid db) <= 1)%nat)
  /\ (forall u r : CouponUsage.t,
        In u (coupon_usages db) ->
        CouponUsage.coupon r = CouponUsage.coupon u ->
        CouponUsage.order r = CouponUsage.order u ->
        exists c, CouponUsage_create r db = Err (IntegrityError c))
  /\ (forall (r : CouponUsage.t) (db' : DB),
        CouponUsage_create r db = Ok db' ->
        db_consistent db' /\ orders db' = orders db)
  /\ (forall (d : DiscountDecision) (o o1 : Order.t),
        applyDiscount d o = Ok o1 ->
        applyDiscount d o1 = Ok o1
        /\ Order.discount_amount o1 = decision_amount d
        /\ Order.total_amount o1
           = Order.subtotal o + Order.tax_amount o + Order.shipping_amount o
             - decision_amount d).
Proof.
  pose proof (uq_coupon_usage Hc) as Hu.
  split; [|split; [|split]].
  - intros cid oid. unfold usages_of.
    apply unique_count; [apply ZZ_eqb_eq|exact Hu].
  - intros u r Hin Hcp Ho.
    assert (Hk : taken (pair_eqb Z.eqb Z.eqb) CouponUsage.unique_together
                   (coupon_usages db) (CouponUsage.unique_together r) = true).
    { replace (CouponUsage.unique_together r)
        with (CouponUsage.unique_together u)
        by (unfold CouponUsage.unique_together; congruence).
      apply taken_of_member; [apply ZZ_eqb_eq|exact Hin]. }
    unfold CouponUsage_create. refused Hk.
  - intros r db' H. split.
    + exact (@CouponUsage_create_consistent _ _ _ Hc H).
    + unfold CouponUsage_create in H. passed H. reflexivity.
  - intros d o o1 H. split; [now apply applyDiscount_twice with (o := o)|].
    apply applyDiscount_ok in H as (_ & _ & ->).
    destruct o; simpl. split; reflexivity.
Qed.

Lemma coupon_applied_once_witness :
  (List.length (usages_of 1 1 coupon_db) <= 1)%nat
  /\ (exists c, CouponUsage_create coupon_usage_again coupon_db
                = Err (IntegrityError c))
  /\ (exists o1, applyDiscount discount_5 order_1 = Ok o1
                 /\ applyDiscount discount_5 o1 = Ok o1
                 /\ Order.total_amount o1 = d2 45 00).
Proof.
  assert (Hc : db_consistent coupon_db) by (constructor; reflexivity).
  pose proof (coupon_applied_once Hc) as (Hn & Hr & _ & Hd).
  split; [apply Hn|]. split.
  - apply (Hr coupon_usage_1); [left; reflexivity|reflexivity|reflexivity].
  - eexists. split; [reflexivity|]. split; [|reflexivity].
    apply (Hd discount_5 order_1). reflexivity.
Defined.

(** ** Field validation *)

Lemma failing_nil_iff (checks : list (string * bool)) :
  failing checks = [] <-> forallb snd checks = true.
Proof.
  unfold failing. induction checks as [|[n b] cs IH]; simpl; [tauto|].
  destruct b; simpl; [exact IH|]. split; discriminate.
Qed.

Lemma failing_member (checks : list (string * bool)) (n : string) :
  In (n, false) checks -> In n (failing checks).
Proof.
  intros H. unfold failing. apply in_map_iff. exists (n, false).
  split; [reflexivity|]. apply filter_In. split; [exact H|reflexivity].
Qed.

Lemma Order_clean_fields_ok (o : Order.t) :
  Order.clean_fields o = Ok tt <-> forallb snd (Order.field_checks o) = true.
Proof.
  unfold Order.clean_fields. rewrite <- failing_nil_iff.
  destruct (failing (Order.field_checks o)); split; congruence.
Qed.

Lemma OrderItem_full_clean_ok (max_value : option Z) (db : DB)
    (i : OrderItem.t) :
  OrderItem_full_clean max_value db i = Ok tt <->
  forallb snd
    (OrderItem.field_checks max_value
       (taken Z.eqb Order.order_id (orders db))
       (taken Z.eqb Product.product_id (products db))
       (taken Z.eqb ProductVariant.variant_id (variants db))
       (taken Z.eqb Shop.shop_id (shops db)) i) = true.
Proof.
  unfold OrderItem_full_clean, OrderItem.clean_fields.
  rewrite <- failing_nil_iff.
  destruct (failing _); split; congruence.
Qed.

Lemma DecimalField_ok_bound (max_digits : Z) (v : Decimal) :
  DecimalField_ok max_digits v = true <-> Z.abs v < 10 ^ max_digits.
Proof. unfold DecimalField_ok. apply Z.ltb_lt. Qed.

Lemma PositiveIntegerField_ok_range (max_value : option Z) (v : Z) :
  PositiveIntegerField_ok max_value v = true <->
  0 <= v /\ (forall m, max_value = Some m -> v <= m).
Proof.
  unfold PositiveIntegerField_ok, PositiveIntegerField_min.
  rewrite andb_true_iff, Z.leb_le.
  destruct max_value as [m|].
  - rewrite Z.leb_le. split.
    + intros [H0 Hm]. split; [exact H0|]. intros m' E.
      injection E as <-. exact Hm.
    + intros [H0 Hm]. split; [exact H0|]. now apply Hm.
  - split.
    + intros [H0 _]. split; [exact H0|]. intros m E. discriminate E.
    + intros [H0 _]. split; [exact H0|reflexivity].
Qed.

(** ** Order item quantity *)

(** C7, as stated, fails: [PositiveIntegerField] admits zero.  The item
    [item_zero] has quantity 0, passes model validation against the sample
    database, whether the backend's range ends at 2147483647 or has no
    upper end, is accepted by the INSERT, and the resulting state satisfies
    every constraint. *)
Lemma order_item_with_quantity_zero :
  OrderItem.quantity item_zero = 0
  /\ OrderItem_full_clean (Some 2147483647) base_db item_zero = Ok tt
  /\ OrderItem_full_clean None base_db item_zero = Ok tt
  /\ OrderItem_create item_zero base_db
     = Ok (set_order_items [item_zero; item_1] base_db)
  /\ db_consistent (set_order_items [item_zero; item_1] base_db)
  /\ In item_zero (order_items (set_order_items [item_zero; item_1] base_db)).
Proof.
  split; [reflexivity|]. split; [reflexivity|]. split; [reflexivity|].
  split; [reflexivity|].
  split; [constructor; reflexivity|left; reflexivity].
Qed.

(** C7, amended: the quantity of an order item is a non-negative integer.
    Whatever range the database backend gives the field above zero, model
    validation of an item with a negative quantity fails with a
    ValidationError that names [quantity], and the INSERT of such an item
    fails with IntegrityError; an item that passes validation has a
    quantity of at least 0; every stored item has quantity at least 0.
    Quantity 0 is admitted. *)
Theorem order_item_quantity_non_negative :
  (forall (max_value : option Z) (db : DB) (i : OrderItem.t),
      OrderItem.quantity i < 0 ->
      exists fields,
        OrderItem_full_clean max_value db i = Err (ValidationError fields)
        /\ In "quantity" fields)
  /\ (forall (db : DB) (i : OrderItem.t),
        OrderItem.quantity i < 0 ->
        exists c, OrderItem_create i db = Err (IntegrityError c))
  /\ (forall (max_value : option Z) (db : DB) (i : OrderItem.t),
        OrderItem_full_clean max_value db i = Ok tt ->
        0 <= OrderItem.quantity i)
  /\ (forall db : DB,
        db_consistent db ->
        forall i, In i (order_items db) -> 0 <= OrderItem.quantity i).
Proof.
  split; [|split; [|split]].
  - intros max_value db i Hq.
    assert (Hin : In "quantity"
                    (failing
                       (OrderItem.field_checks max_value
                          (taken Z.eqb Order.order_id (orders db))
                          (taken Z.eqb Product.product_id (products db))
                          (taken Z.eqb ProductVariant.variant_id (variants db))
                          (taken Z.eqb Shop.shop_id (shops db)) i))).
    { apply failing_member. unfold OrderItem.field_checks.
      replace (PositiveIntegerField_ok max_value (OrderItem.quantity i))
        with false.
      - simpl. tauto.
      - symmetry. apply not_true_is_false. intros E.
        apply PositiveIntegerField_ok_range in E. lia. }
    unfold OrderItem_full_clean, OrderItem.clean_fields.
    destruct (failing _) as [|f fs]; [destruct Hin|].
    exists (f :: fs). split; [reflexivity|exact Hin].
  - intros db i Hq.
    assert (Hk : PositiveIntegerField_db_check (OrderItem.quantity i) = false).
    { unfold PositiveIntegerField_db_check. apply Z.leb_gt. exact Hq. }
    unfold OrderItem_create, bind.
    repeat match goal with
           | |- context [require ?b ?s] =>
               first
                 [ rewrite Hk; rewrite require_false; eexists; reflexivity
                 | destruct b;
                   [ rewrite require_true
                   | rewrite require_false; eexists; reflexivity ] ]
           end.
  - intros max_value db i H. apply OrderItem_full_clean_ok in H.
    unfold OrderItem.field_checks in H.
    cbn [forallb snd] in H.
    rewrite !andb_true_iff in H.
    destruct H as (_ & _ & _ & _ & Hq & _).
    now apply PositiveIntegerField_ok_range in Hq.
  - intros db Hc i Hi.
    pose proof (ck_item_quantity Hc) as H.
    rewrite forallb_forall in H. specialize (H i Hi).
    unfold PositiveIntegerField_db_check in H. now apply Z.leb_le.
Qed.

Lemma order_item_quantity_non_negative_witness :
  OrderItem.quantity item_negative < 0
  /\ (exists fields,
         OrderItem_full_clean (Some 2147483647) base_db item_negative
         = Err (ValidationError fields)
         /\ In "quantity" fields)
  /\ (exists fields,
         OrderItem_full_clean None base_db item_negative
         = Err (ValidationError fields)
         /\ In "quantity" fields)
  /\ (exists c, OrderItem_create item_negative base_db = Err (IntegrityError c))
  /\ 0 <= OrderItem.quantity item_1.
Proof.
  pose proof order_item_quantity_non_negative as (Hv & Hi & _ & Hs).
  assert (Hneg : OrderItem.quantity item_negative < 0) by reflexivity.
  split; [exact Hneg|].
  split; [exact (Hv (Some 2147483647) base_db item_negative Hneg)|].
  split; [exact (Hv None base_db item_negative Hneg)|].
  split; [exact (Hi base_db item_negative Hneg)|].
  apply (Hs base_db); [constructor; reflexivity|left; reflexivity].
Defined.

(** ** Order amounts *)

(** C1, as stated, fails: [total_amount] is a stored field of its own and
    the model relates it to nothing.  The order [order_off] (subtotal
    100.00, tax 8.00, shipping 5.00, discount 10.00, total -1.00) passes
    model validation, is accepted by the INSERT into a state that satisfies
    every constraint, and its total is neither the sum of its parts nor
    non-negative. *)
Lemma order_total_unconstrained :
  Order.clean_fields order_off = Ok tt
  /\ Order_full_clean base_db order_off = Ok tt
  /\ Order_create order_off base_db = Ok (set_orders [order_off; order_1] base_db)
  /\ db_consistent (set_orders [order_off; order_1] base_db)
  /\ Order.total_amount order_off
     <> Order.subtotal order_off + Order.tax_amount order_off
        + Order.shipping_amount order_off - Order.discount_amount order_off
  /\ Order.total_amount order_off < 0.
Proof.
  split; [reflexivity|]. split; [reflexivity|]. split; [reflexivity|].
  split; [constructor; reflexivity|]. split; [discriminate|reflexivity].
Qed.

(** C1, amended: the model checks each amount of an order on its own (at
    most 12 digits, two of them decimals) and leaves [total_amount] free of
    the other four: an order stays valid whatever total of that size is
    assigned to it.  The equation total = subtotal + tax + shipping -
    discount holds for an order once that sum has been assigned to its
    [total_amount], and such a total is non-negative exactly when the
    discount does not exceed subtotal + tax + shipping. *)
Theorem order_amounts :
  (forall o : Order.t,
      Order.clean_fields o = Ok tt ->
      Z.abs (Order.subtotal o) <= 999999999999
      /\ Z.abs (Order.tax_amount o) <= 999999999999
      /\ Z.abs (Order.shipping_amount o) <= 999999999999
      /\ Z.abs (Order.discount_amount o) <= 999999999999
      /\ Z.abs (Order.total_amount o) <= 999999999999)
  /\ (forall (o : Order.t) (v : Decimal),
        Order.clean_fields o = Ok tt ->
        Z.abs v <= 999999999999 ->
        Order.clean_fields (Order.set_total_amount v o) = Ok tt)
  /\ (forall o : Order.t,
        let o' :=
          Order.set_total_amount
            (Order.subtotal o + Order.tax_amount o + Order.shipping_amount o
             - Order.discount_amount o) o in
        Order.total_amount o'
        = Order.subtotal o' + Order.tax_amount o' + Order.shipping_amount o'
          - Order.discount_amount o'
        /\ (0 <= Order.total_amount o' <->
            Order.discount_amount o
            <= Order.subtotal o + Order.tax_amount o + Order.shipping_amount o)).
Proof.
  assert (Hpow : 10 ^ 12 = 1000000000000) by reflexivity.
  split; [|split].
  - intros o H. apply Order_clean_fields_ok in H.
    unfold Order.field_checks in H. simpl in H.
    rewrite !andb_true_iff, !DecimalField_ok_bound, Hpow in H.
    destruct H as (_ & _ & H1 & H2 & H3 & H4 & H5 & _). lia.
  - intros o v H Hv. apply Order_clean_fields_ok in H.
    apply Order_clean_fields_ok.
    destruct o. unfold Order.field_checks in *. simpl in *.
    rewrite !andb_true_iff in *.
    destruct H as (H0 & H1 & H2 & H3 & H4 & H5 & _ & H7 & _).
    repeat split; try assumption.
    apply DecimalField_ok_bound. change (Z.abs v < 1000000000000). lia.
  - intros o. destruct o. simpl. split; [reflexivity|lia].
Qed.

Lemma order_amounts_witness :
  Z.abs (Order.total_amount order_1) <= 999999999999
  /\ Order.clean_fields (Order.set_total_amount (d2 45 00) order_1) = Ok tt.
Proof.
  pose proof order_amounts as (Hb & Hs & _).
  assert (Hok : Order.clean_fields order_1 = Ok tt) by reflexivity.
  split; [apply (Hb order_1 Hok)|].
  apply (Hs order_1 (d2 45 00) Hok). vm_compute. discriminate.
Defined.

(** ** Commission arithmetic *)

Lemma round_half_even_exact (n d : Z) :
  0 < d -> n mod d = 0 -> round_half_even n d * d = n.
Proof.
  intros Hd Hr. unfold round_half_even. rewrite Hr.
  replace (2 * 0 <? d) with true by (symmetry; apply Z.ltb_lt; lia).
  pose proof (Z.div_mod n d). nia.
Qed.

Lemma round_half_even_near (n d : Z) :
  0 < d -> 2 * Z.abs (round_half_even n d * d - n) <= d.
Proof.
  intros Hd. unfold round_half_even.
  pose proof (Z.div_mod n d) as Hn.
  pose proof (Z.mod_pos_bound n d Hd) as Hb.
  destruct (2 * (n mod d) <? d) eqn:E1.
  - apply Z.ltb_lt in E1. nia.
  - apply Z.ltb_ge in E1. destruct (d <? 2 * (n mod d)) eqn:E2.
    + apply Z.ltb_lt in E2. nia.
    + apply Z.ltb_ge in E2. destruct (Z.even (n / d)); nia.
Qed.

(** C2, as stated, fails twice over.  The Commission model relates its
    amounts to nothing: [commission_off] (rate 10.00, gross 50.00,
    commission 7.00, fee 1.00, net 50.00) passes model validation and is
    accepted by the INSERT, yet its net amount is not gross - commission -
    fee and its commission is not gross * rate / 100.  And a commission
    amount has two decimal places: for gross 0.05 at rate 10.00 the
    calculator gives 0.00, not 0.005. *)
Lemma commission_amounts_unconstrained :
  Commission_full_clean base_db commission_off = Ok tt
  /\ Commission_create commission_off base_db
     = Ok (set_commissions [commission_off] base_db)
  /\ db_consistent (set_commissions [commission_off] base_db)
  /\ Commission.net_amount commission_off
     <> Commission.gross_amount commission_off
        - Commission.commission_amount commission_off
        - Commission.platform_fee commission_off
  /\ Commission.commission_amount commission_off * 10000
     <> Commission.gross_amount commission_off
        * Commission.commission_rate commission_off
  /\ commission_amount_of (d2 0 05) (d2 10 00) = 0
  /\ commission_amount_of (d2 0 05) (d2 10 00) * 10000 <> d2 0 05 * d2 10 00.
Proof.
  split; [reflexivity|]. split; [reflexivity|].
  split; [constructor; reflexivity|].
  repeat split; try reflexivity; discriminate.
Qed.

(** C2, amended: the Commission model stores its five amounts
    independently; the relations hold for a commission the calculator
    writes.  For such a commission, net_amount = gross_amount -
    commission_amount - platform_fee; commission_amount is gross_amount *
    commission_rate / 100 rounded half-to-even to two decimals, hence within
    half a hundredth of it and equal to it whenever that product has at most
    two decimals; and for rate 10.00, gross 50.00 and a flat fee of 1.00 the
    commission is 5.00 and the net amount 44.00.  (With amounts in hundredths
    and the rate in hundredths of a percent, [a = g * r / 100] reads
    [a * 10000 = g * r].) *)
Theorem commission_arithmetic (fee : PlatformFee) (now pk : Z) (i : OrderItem.t) :
  let c := calculate_commission fee now pk i in
  Commission.net_amount c
  = Commission.gross_amount c - Commission.commission_amount c
    - Commission.platform_fee c
  /\ Commission.gross_amount c = OrderItem.total_price i
  /\ Commission.commission_rate c = OrderItem.commission_rate i
  /\ Commission.commission_amount c
     = round_half_even (Commission.gross_amount c * Commission.commission_rate c)
         10000
  /\ 2 * Z.abs (Commission.commission_amount c * 10000
                - Commission.gross_amount c * Commission.commission_rate c)
     <= 10000
  /\ ((Commission.gross_amount c * Commission.commission_rate c) mod 10000 = 0 ->
      Commission.commission_amount c * 10000
      = Commission.gross_amount c * Commission.commission_rate c)
  /\ (OrderItem.commission_rate i = d2 10 00 ->
      OrderItem.total_price i = d2 50 00 ->
      fee = Flat (d2 1 00) ->
      Commission.commission_amount c = d2 5 00
      /\ Commission.platform_fee c = d2 1 00
      /\ Commission.net_amount c = d2 44 00).
Proof.
  simpl. unfold commission_amount_of.
  repeat split; try reflexivity.
  - apply round_half_even_near. lia.
  - intros H. apply round_half_even_exact; [lia|exact H].
  - rewrite H, H0. reflexivity.
  - subst fee. reflexivity.
  - subst fee. rewrite H, H0. reflexivity.
Qed.

Lemma commission_arithmetic_witness :
  Commission.commission_amount commission_1 = 500
  /\ Commission.platform_fee commission_1 = 100
  /\ Commission.net_amount commission_1 = 4400
  /\ Commission.commission_amount commission_1 * 10000
     = Commission.gross_amount commission_1 * Commission.commission_rate commission_1.
Proof.
  pose proof (commission_arithmetic (Flat (d2 1 00)) 1005 1 item_1)
    as (_ & _ & _ & _ & _ & Hx & He).
  destruct (He eq_refl eq_refl eq_refl) as (Ha & Hf & Hn).
  split; [exact Ha|]. split; [exact Hf|]. split; [exact Hn|].
  apply Hx. reflexivity.
Defined.

(** ** Confirmation *)

Section Update.

Variables (A : Type) (pk : A -> Z) (f : A -> A).
Hypothesis pk_kept : forall r, pk (f r) = pk r.

Lemma lookup_update (t : list A) (k : Z) (r : A) :
  lookup Z.eqb pk t k = Some r ->
  lookup Z.eqb pk (update Z.eqb pk f t k) k = Some (f r).
Proof.
  unfold lookup, update. induction t as [|x t IH]; simpl; [discriminate|].
  destruct (pk x =? k) eqn:E.
  - intros H. injection H as ->. simpl. rewrite pk_kept, E. reflexivity.
  - intros H. simpl. rewrite E. now apply IH.
Qed.

Lemma taken_update (t : list A) (k j : Z) :
  taken Z.eqb pk (update Z.eqb pk f t k) j = taken Z.eqb pk t j.
Proof.
  unfold taken, update. induction t as [|x t IH]; simpl; [reflexivity|].
  rewrite IH. destruct (pk x =? k); [rewrite pk_kept|]; reflexivity.
Qed.

End Update.

Lemma next_pk_bound (A : Type) (pk : A -> Z) (t : list A) (r : A) :
  In r t -> pk r < next_pk pk t.
Proof.
  unfold next_pk. induction t as [|x t IH]; cbn [fold_right map In]; [tauto|].
  intros [->|H]; [lia|]. specialize (IH H). lia.
Qed.

Lemma next_pk_fresh (A : Type) (pk : A -> Z) (t : list A) :
  fresh pk t (next_pk pk t) = true.
Proof.
  unfold fresh. apply negb_true_iff. apply taken_false_iff.
  intros r Hr. apply Z.eqb_neq.
  pose proof (next_pk_bound pk t r Hr). lia.
Qed.

Lemma Commission_create_ok (r : Commission.t) (db db' : DB) :
  Commission_create r db = Ok db' ->
  db' = set_commissions (r :: commissions db) db.
Proof. intros H. unfold Commission_create in H. passed H. reflexivity. Qed.

(** The calculator writes commissions and nothing else: one row per item,
    every other table untouched. *)
Lemma generate_commissions_frame (fee : PlatformFee) (now : Z)
    (items : list OrderItem.t) :
  forall db db' : DB,
    generate_commissions fee now items db = Ok db' ->
    exists added : list Commission.t,
      db' = set_commissions (added ++ commissions db) db
      /\ List.length added = List.length items.
Proof.
  induction items as [|i rest IH]; simpl; intros db db' H.
  - injection H as <-. exists []. split; [now destruct db|reflexivity].
  - unfold bind in H.
    destruct (Commission_create _ db) as [db1|e] eqn:E; [|discriminate H].
    apply Commission_create_ok in E. subst db1.
    apply IH in H as (added & -> & Hlen).
    eexists (added ++ [_]). split.
    + simpl. rewrite <- app_assoc. reflexivity.
    + rewrite length_app. simpl. lia.
Qed.

Lemma generate_commissions_total (fee : PlatformFee) (now : Z)
    (items : list OrderItem.t) :
  forall db : DB,
    (forall i, In i items ->
       taken Z.eqb Order.order_id (orders db) (OrderItem.order i) = true
       /\ taken Z.eqb Shop.shop_id (shops db) (OrderItem.shop i) = true
       /\ taken Z.eqb OrderItem.item_id (order_items db) (OrderItem.item_id i)
          = true) ->
    exists db', generate_commissions fee now items db = Ok db'.
Proof.
  induction items as [|i rest IH]; simpl; intros db Hfk.
  - now exists db.
  - destruct (Hfk i (or_introl eq_refl)) as (Ho & Hs & Hi).
    unfold Commission_create at 1, bind at 1. simpl.
    rewrite next_pk_fresh, Ho, Hs, Hi. simpl.
    apply IH. intros j Hj. simpl. apply Hfk. now right.
Qed.

Lemma Order_set_status_id (v : string) (o : Order.t) :
  Order.order_id (Order.set_status v o) = Order.order_id o.
Proof. reflexivity. Qed.

(** Confirming a pending order succeeds: the order becomes processing and
    the calculator adds one commission per item of the order. *)
Lemma confirm_pending (fee : PlatformFee) (now oid : Z) (db : DB) (o : Order.t) :
  db_consistent db ->
  lookup Z.eqb Order.order_id (orders db) oid = Some o ->
  Order.status o = "pending" ->
  exists (db1 : DB) (added : list Commission.t),
    confirm fee now oid db = Ok (db1, Order.set_status "processing" o)
    /\ commissions db1 = added ++ commissions db
    /\ List.length added
       = List.length (filter (fun i => OrderItem.order i =? oid) (order_items db)).
Proof.
  intros Hc Hl Hs. unfold confirm. rewrite Hl, Hs. simpl.
  set (db0 := set_orders _ db).
  destruct (@generate_commissions_total fee now
              (filter (fun i => OrderItem.order i =? oid) (order_items db)) db0)
    as [db1 Hg].
  { intros i Hi. apply filter_In in Hi as [Hi _]. unfold db0. simpl.
    rewrite (@taken_update _ Order.order_id (Order.set_status "processing")
               (Order_set_status_id "processing")).
    pose proof (fk_item_order Hc) as Ho. pose proof (fk_item_shop Hc) as Hsh.
    unfold references in Ho, Hsh. rewrite forallb_forall in Ho, Hsh.
    split; [now apply Ho|]. split; [now apply Hsh|].
    apply taken_of_member; [apply Z.eqb_eq|exact Hi]. }
  unfold bind. rewrite Hg.
  apply generate_commissions_frame in Hg as (added & -> & Hlen).
  exists (set_commissions (added ++ commissions db0) db0), added.
  split; [reflexivity|]. split; [reflexivity|exact Hlen].
Qed.

(** C3: confirming is idempotent.  When [confirm] has returned a state and
    an order, confirming the same order again in that state returns the
    same state and the same order: no commission is added, so the
    commission ids and their number after two confirmations are those after
    one. *)
Theorem confirm_idempotent (fee : PlatformFee) (now later oid : Z)
    (db db1 : DB) (r : Order.t) :
  confirm fee now oid db = Ok (db1, r) ->
  confirm fee later oid db1 = Ok (db1, r)
  /\ forall (db2 : DB) (r2 : Order.t),
       confirm fee later oid db1 = Ok (db2, r2) ->
       r2 = r
       /\ commission_ids db2 = commission_ids db1
       /\ List.length (commissions db2) = List.length (commissions db1).
Proof.
  intros H.
  assert (Hsame : confirm fee later oid db1 = Ok (db1, r)).
  { unfold confirm in H.
    destruct (lookup Z.eqb Order.order_id (orders db) oid) as [o|] eqn:El;
      [|discriminate H].
    destruct (String.eqb (Order.status o) "pending") eqn:Es.
    - unfold bind in H.
      destruct (generate_commissions _ _ _ _) as [db2|e] eqn:Eg; [|discriminate H].
      injection H as <- <-.
      apply generate_commissions_frame in Eg as (added & -> & _).
      unfold confirm. simpl orders.
      rewrite (@lookup_update _ Order.order_id (Order.set_status "processing")
                 (Order_set_status_id "processing") _ _ _ El).
      reflexivity.
    - destruct (already_confirmed (Order.status o)) eqn:Ea; [|discriminate H].
      injection H as <- <-.
      unfold confirm. rewrite El, Es, Ea. reflexivity. }
  split; [exact Hsame|].
  intros db2 r2 H2. rewrite Hsame in H2. injection H2 as <- <-.
  repeat split; reflexivity.
Qed.

Lemma confirm_idempotent_witness :
  exists (db1 : DB) (r : Order.t),
    confirm (Flat (d2 1 00)) 1005 1 base_db = Ok (db1, r)
    /\ commissions db1 = [commission_1]
    /\ Order.status r = "processing"
    /\ confirm (Flat (d2 1 00)) 1020 1 db1 = Ok (db1, r).
Proof.
  eexists. eexists.
  split; [reflexivity|]. split; [reflexivity|]. split; [reflexivity|].
  apply (proj1 (@confirm_idempotent (Flat (d2 1 00)) 1005 1020 1 base_db _ _
                  eq_refl)).
Defined.

(** ** Deleting a shop *)

Lemma filter_all (A : Type) (p : A -> bool) (l : list A) :
  (forall x, In x l -> p x = true) -> filter p l = l.
Proof.
  induction l as [|x l IH]; simpl; intros H; [reflexivity|].
  rewrite (H x (or_introl eq_refl)). f_equal. apply IH. intros y Hy.
  apply H. now right.
Qed.

(** Deleting the collected rows by key removes exactly the rows that were
    collected. *)
Lemma without_filter (A : Type) (pk : A -> Z) (p : A -> bool) (t : list A) :
  unique Z.eqb pk t = true ->
  without pk (filter p t) t = filter (fun r => negb (p r)) t.
Proof.
  intros Hu. unfold without. apply filter_ext_in. intros r Hr. f_equal.
  destruct (p r) eqn:Ep.
  - apply taken_of_member; [apply Z.eqb_eq|]. apply filter_In. now split.
  - apply taken_false_iff. intros x Hx. apply filter_In in Hx as [Hx Hpx].
    apply Z.eqb_neq. intros E.
    assert (x = r) by (apply (@unique_same_key _ _ _ _ Z.eqb_eq _ Hu); assumption).
    congruence.
Qed.

Lemma Shop_delete_ok (sid : Z) (db db' : DB) :
  Shop_delete sid db = Ok db' ->
  taken Z.eqb Shop.shop_id (shops db) sid = true
  /\ restricted_order_items sid db = []
  /\ restricted_payouts sid db = []
  /\ commissions db'
     = without Commission.commission_id (shop_commissions sid db) (commissions db)
  /\ orders db' = orders db
  /\ order_items db' = order_items db
  /\ payouts db' = payouts db.
Proof.
  unfold Shop_delete. intros H.
  destruct (taken Z.eqb Shop.shop_id (shops db) sid); [|discriminate H].
  simpl in H.
  destruct (restricted_order_items sid db); [|discriminate H].
  destruct (restricted_payouts sid db); [|discriminate H].
  injection H as <-. simpl. repeat split; reflexivity.
Qed.

Lemma Shop_delete_restricted_by_item (sid : Z) (db : DB) (i : OrderItem.t) :
  db_consistent db ->
  In i (order_items db) -> OrderItem.shop i = sid ->
  Shop_delete sid db = Err RestrictedError.
Proof.
  intros Hc Hi Hs. unfold Shop_delete.
  pose proof (fk_item_shop Hc) as Hfk. unfold references in Hfk.
  rewrite forallb_forall in Hfk. specialize (Hfk i Hi). rewrite Hs in Hfk.
  rewrite Hfk. simpl.
  assert (Hr : In i (restricted_order_items sid db)).
  { apply filter_In. split; [exact Hi|].
    rewrite Hs, Z.eqb_refl. reflexivity. }
  destruct (restricted_order_items sid db); [destruct Hr|reflexivity].
Qed.

Lemma Shop_delete_restricted_by_payout (sid : Z) (db : DB) (p : Payout.t) :
  db_consistent db ->
  In p (payouts db) -> Payout.shop p = sid ->
  Shop_delete sid db = Err RestrictedError.
Proof.
  intros Hc Hp Hs. unfold Shop_delete.
  pose proof (fk_payout_shop Hc) as Hfk. unfold references in Hfk.
  rewrite forallb_forall in Hfk. specialize (Hfk p Hp). rewrite Hs in Hfk.
  rewrite Hfk. simpl.
  assert (Hr : In p (restricted_payouts sid db)).
  { apply filter_In. split; [exact Hp|]. rewrite Hs. apply Z.eqb_refl. }
  destruct (restricted_payouts sid db); [destruct Hr|].
  destruct (restricted_order_items sid db); reflexivity.
Qed.

(** C6, as stated, fails: [Commission.shop] is declared
    [on_delete=CASCADE].  In [alpha_db] the first shop has a commission and
    no order item or payout refers to it; deleting the shop succeeds and
    the commission is gone. *)
Lemma shop_delete_cascades_to_commissions :
  db_consistent alpha_db
  /\ In commission_alpha (commissions alpha_db)
  /\ Shop_delete 1 alpha_db = Ok beta_only_db
  /\ commissions beta_only_db = []
  /\ ~ In commission_alpha (commissions beta_only_db).
Proof.
  split; [constructor; reflexivity|]. split; [left; reflexivity|].
  split; [reflexivity|]. split; [reflexivity|]. intros [].
Qed.

(** C6, amended: deleting a shop cascades into its commissions.  When the
    deletion succeeds, the commissions left are exactly those of the other
    shops, unchanged and in their order, and the orders, order items and
    payouts are untouched; the deletion is refused with RestrictedError, and
    nothing is deleted, when an order item or a payout refers to the shop;
    hence, in a database where every commission is credited to the shop of
    its order item, a successful shop deletion removes no commission. *)
Theorem shop_delete_commissions (db : DB) (sid : Z) (Hc : db_consistent db) :
  (forall db' : DB,
      Shop_delete sid db = Ok db' ->
      commissions db'
      = filter (fun c => negb (Commission.shop c =? sid)) (commissions db)
      /\ orders db' = orders db
      /\ order_items db' = order_items db
      /\ payouts db' = payouts db)
  /\ ((exists i, In i (order_items db) /\ OrderItem.shop i = sid)
      \/ (exists p, In p (payouts db) /\ Payout.shop p = sid) ->
      Shop_delete sid db = Err RestrictedError)
  /\ ((forall c, In c (commissions db) ->
         exists i, In i (order_items db)
                   /\ OrderItem.item_id i = Commission.item c
                   /\ OrderItem.shop i = Commission.shop c) ->
      forall db' : DB,
        Shop_delete sid db = Ok db' -> commissions db' = commissions db).
Proof.
  assert (Hleft : forall db', Shop_delete sid db = Ok db' ->
            commissions db'
            = filter (fun c => negb (Commission.shop c =? sid)) (commissions db)).
  { intros db' H. apply Shop_delete_ok in H as (_ & _ & _ & -> & _).
    unfold shop_commissions. apply without_filter. exact (pk_commissions Hc). }
  split; [|split].
  - intros db' H. split; [now apply Hleft|].
    apply Shop_delete_ok in H as (_ & _ & _ & _ & Ho & Hi & Hp). auto.
  - intros [[i [Hi Hs]]|[p [Hp Hs]]].
    + now apply Shop_delete_restricted_by_item with (i := i).
    + now apply Shop_delete_restricted_by_payout with (p := p).
  - intros Hitem db' H. rewrite (Hleft db' H). apply filter_all.
    intros c Hin. apply negb_true_iff. apply Z.eqb_neq. intros E.
    destruct (Hitem c Hin) as (i & Hi & _ & Hs).
    assert (Hr : Shop_delete sid db = Err RestrictedError)
      by (apply Shop_delete_restricted_by_item with (i := i); congruence).
    congruence.
Qed.

Lemma shop_delete_commissions_witness :
  commissions beta_only_db
  = filter (fun c => negb (Commission.shop c =? 1)) (commissions alpha_db)
  /\ Shop_delete 2 alpha_db = Err RestrictedError.
Proof.
  assert (Hc : db_consistent alpha_db) by (constructor; reflexivity).
  split.
  - apply (proj1 (shop_delete_commissions 1 Hc) beta_only_db). reflexivity.
  - apply (proj1 (proj2 (shop_delete_commissions 2 Hc))).
    left. exists item_1. split; [left; reflexivity|reflexivity].
Defined.

(** ** DELETE keeps the constraints *)

Lemma unique_filter (A K : Type) (eqb : K -> K -> bool) (key : A -> K)
    (p : A -> bool) (t : list A) :
  unique eqb key t = true -> unique eqb key (filter p t) = true.
Proof.
  induction t as [|r t IH]; simpl; [reflexivity|].
  rewrite andb_true_iff, negb_true_iff. intros [Hfree Hu].
  destruct (p r); [|now apply IH].
  simpl. rewrite (IH Hu), andb_true_r. apply negb_true_iff.
  apply taken_false_iff. intros x Hx. apply filter_In in Hx as [Hx _].
  rewrite taken_false_iff in Hfree. now apply Hfree.
Qed.

Lemma forallb_filter (A : Type) (q p : A -> bool) (t : list A) :
  forallb q t = true -> forallb q (filter p t) = true.
Proof.
  rewrite !forallb_forall. intros H x Hx. apply filter_In in Hx as [Hx _].
  now apply H.
Qed.

Lemma filter_nil_none (A : Type) (p : A -> bool) (t : list A) :
  filter p t = [] -> forall x, In x t -> p x = false.
Proof.
  intros H x Hx. destruct (p x) eqn:E; [|reflexivity].
  assert (Hin : In x (filter p t)) by (apply filter_In; now split).
  rewrite H in Hin. destruct Hin.
Qed.

(** A foreign key survives when every child row that is left finds its
    parent row among the parent rows that are left. *)
Lemma references_restrict (A B : Type) (fk : A -> Z) (pk : B -> Z)
    (parent parent' : list B) (child child' : list A) :
  references fk pk parent child = true ->
  (forall r, In r child' -> In r child) ->
  (forall r p, In r child' -> In p parent -> pk p = fk r -> In p parent') ->
  references fk pk parent' child' = true.
Proof.
  unfold references. rewrite !forallb_forall. intros H Hsub Hpar r Hr.
  specialize (H r (Hsub r Hr)). apply taken_iff in H as (p & Hp & E).
  apply Z.eqb_eq in E. apply taken_iff. exists p.
  split; [now apply (Hpar r p)|now apply Z.eqb_eq].
Qed.

Lemma null_references_restrict (A B : Type) (fk : A -> option Z) (pk : B -> Z)
    (parent parent' : list B) (child child' : list A) :
  null_references fk pk parent child = true ->
  (forall r, In r child' -> In r child) ->
  (forall r p k, In r child' -> fk r = Some k -> In p parent -> pk p = k ->
                 In p parent') ->
  null_references fk pk parent' child' = true.
Proof.
  unfold null_references. rewrite !forallb_forall. intros H Hsub Hpar r Hr.
  specialize (H r (Hsub r Hr)). destruct (fk r) as [k|] eqn:Ek; [|reflexivity].
  apply taken_iff in H as (p & Hp & E). apply Z.eqb_eq in E.
  apply taken_iff. exists p.
  split; [now apply (Hpar r p k)|now apply Z.eqb_eq].
Qed.

Lemma In_without (A : Type) (pk : A -> Z) (gone t : list A) (r : A) :
  In r (without pk gone t) <-> In r t /\ taken Z.eqb pk gone (pk r) = false.
Proof.
  unfold without. rewrite filter_In, negb_true_iff. tauto.
Qed.

(** A row that is left was not collected. *)
Lemma kept_not_collected (A : Type) (pk : A -> Z) (p : A -> bool)
    (t : list A) (r : A) :
  In r (without pk (filter p t) t) -> In r t /\ p r = false.
Proof.
  intros H. apply In_without in H as [Hin Hk]. split; [exact Hin|].
  destruct (p r) eqn:E; [|reflexivity].
  rewrite taken_false_iff in Hk.
  assert (Hf : In r (filter p t)) by (apply filter_In; now split).
  specialize (Hk r Hf). rewrite Z.eqb_refl in Hk. discriminate Hk.
Qed.

Lemma In_other_shops (sid : Z) (shops : list Shop.t) (s : Shop.t) :
  In s shops -> Shop.shop_id s <> sid ->
  In s (filter (fun x => negb (Shop.shop_id x =? sid)) shops).
Proof.
  intros Hin Hne. apply filter_In. split; [exact Hin|].
  apply negb_true_iff. now apply Z.eqb_neq.
Qed.

(** A successful shop deletion leaves a state that satisfies every
    constraint: no row is left pointing at a deleted row. *)
Lemma Shop_delete_consistent (sid : Z) (db db' : DB) :
  db_consistent db -> Shop_delete sid db = Ok db' -> db_consistent db'.
Proof.
  intros Hc H. unfold Shop_delete in H.
  destruct (taken Z.eqb Shop.shop_id (shops db) sid); [|discriminate H].
  simpl in H.
  destruct (restricted_order_items sid db) eqn:Ei; [|discriminate H].
  destruct (restricted_payouts sid db) eqn:Ep; [|discriminate H].
  injection H as <-.
  pose proof (filter_nil_none _ _ Ei) as Hitems.
  pose proof (filter_nil_none _ _ Ep) as Hpayouts.
  clear Ei Ep.
  assert (Hitem : forall i, In i (order_items db) ->
            OrderItem.shop i <> sid
            /\ taken Z.eqb Product.product_id (shop_products sid db)
                 (OrderItem.product i) = false
            /\ taken Z.eqb ProductVariant.variant_id (shop_variants sid db)
                 (OrderItem.variant i) = false).
  { intros i Hi. specialize (Hitems i Hi). simpl in Hitems.
    rewrite !orb_false_iff in Hitems. destruct Hitems as [[H1 H2] H3].
    split; [now apply Z.eqb_neq|]. split; assumption. }
  destruct Hc. constructor; simpl;
    try assumption;
    try (apply unique_filter; assumption);
    try (apply forallb_filter; assumption).
  - (* Product.shop *)
    eapply references_restrict; [eassumption| |].
    + intros r Hr. now apply In_without in Hr.
    + intros r p Hr Hp E. apply kept_not_collected in Hr as [_ Hr].
      apply In_other_shops; [exact Hp|].
      apply Z.eqb_neq in Hr. congruence.
  - (* ProductVariant.product *)
    eapply references_restrict; [eassumption| |].
    + intros r Hr. now apply In_without in Hr.
    + intros r p Hr Hp E. apply kept_not_collected in Hr as [_ Hr].
      apply In_without. split; [exact Hp|]. now rewrite E.
  - (* OrderItem.product *)
    eapply references_restrict; [eassumption|auto|].
    intros r p Hr Hp E. apply In_without. split; [exact Hp|].
    rewrite E. apply (Hitem r Hr).
  - (* OrderItem.variant *)
    eapply references_restrict; [eassumption|auto|].
    intros r p Hr Hp E. apply In_without. split; [exact Hp|].
    rewrite E. apply (Hitem r Hr).
  - (* OrderItem.shop *)
    eapply references_restrict; [eassumption|auto|].
    intros r p Hr Hp E. apply In_other_shops; [exact Hp|].
    rewrite E. apply (Hitem r Hr).
  - (* Commission.shop *)
    eapply references_restrict; [eassumption| |].
    + intros r Hr. now apply In_without in Hr.
    + intros r p Hr Hp E. apply kept_not_collected in Hr as [_ Hr].
      apply In_other_shops; [exact Hp|].
      apply Z.eqb_neq in Hr. congruence.
  - (* Payout.shop *)
    eapply references_restrict; [eassumption|auto|].
    intros r p Hr Hp E. apply In_other_shops; [exact Hp|].
    rewrite E. apply Z.eqb_neq. now apply Hpayouts.
  - (* PayoutTransaction.commission *)
    eapply references_restrict; [eassumption| |].
    + intros r Hr. now apply In_without in Hr.
    + intros r p Hr Hp E. apply kept_not_collected in Hr as [_ Hr].
      apply In_without. split; [exact Hp|]. now rewrite E.
  - (* Coupon.shop *)
    eapply null_references_restrict; [eassumption| |].
    + intros r Hr. now apply In_without in Hr.
    + intros r p k Hr Ek Hp E. apply kept_not_collected in Hr as [_ Hr].
      apply In_other_shops; [exact Hp|].
      unfold coupon_of_shop in Hr. rewrite Ek in Hr.
      apply Z.eqb_neq in Hr. congruence.
  - (* CouponUsage.coupon *)
    eapply references_restrict; [eassumption| |].
    + intros r Hr. now apply In_without in Hr.
    + intros r p Hr Hp E. apply kept_not_collected in Hr as [_ Hr].
      apply In_without. split; [exact Hp|]. now rewrite E.
Qed.

(** ** Every reachable state satisfies the constraints *)

Section UpdateKey.

Variables (A K : Type) (eqb : K -> K -> bool) (key : A -> K).
Variables (pk : A -> Z) (f : A -> A).
Hypothesis key_kept : forall r, key (f r) = key r.

Lemma taken_update_key (t : list A) (k : Z) (j : K) :
  taken eqb key (update Z.eqb pk f t k) j = taken eqb key t j.
Proof.
  unfold taken, update. induction t as [|x t IH]; simpl; [reflexivity|].
  rewrite IH. destruct (pk x =? k); [rewrite key_kept|]; reflexivity.
Qed.

Lemma unique_update_key (t : list A) (k : Z) :
  unique eqb key (update Z.eqb pk f t k) = unique eqb key t.
Proof.
  induction t as [|x t IH]; simpl; [reflexivity|].
  fold (update Z.eqb pk f t k). rewrite taken_update_key, IH.
  destruct (pk x =? k); [rewrite key_kept|]; reflexivity.
Qed.

End UpdateKey.

Lemma references_update_parent (A B : Type) (fk : A -> Z) (pk : B -> Z)
    (f : B -> B) (parent : list B) (child : list A) (k : Z) :
  (forall r, pk (f r) = pk r) ->
  references fk pk (update Z.eqb pk f parent k) child
  = references fk pk parent child.
Proof.
  intros Hk. unfold references. induction child as [|r child IH]; simpl.
  - reflexivity.
  - rewrite IH. f_equal. now apply taken_update_key.
Qed.

Lemma Order_set_status_number (v : string) (o : Order.t) :
  Order.order_number (Order.set_status v o) = Order.order_number o.
Proof. reflexivity. Qed.

Lemma set_status_consistent (v : string) (oid : Z) (db : DB) :
  db_consistent db ->
  db_consistent
    (set_orders (update Z.eqb Order.order_id (Order.set_status v) (orders db) oid)
       db).
Proof.
  intros Hc. destruct Hc. constructor; simpl; try assumption.
  - rewrite unique_update_key by apply Order_set_status_id. assumption.
  - rewrite unique_update_key by apply Order_set_status_number. assumption.
  - rewrite references_update_parent by apply Order_set_status_id. assumption.
  - rewrite references_update_parent by apply Order_set_status_id. assumption.
  - rewrite references_update_parent by apply Order_set_status_id. assumption.
  - rewrite references_update_parent by apply Order_set_status_id. assumption.
Qed.

Lemma generate_commissions_consistent (fee : PlatformFee) (now : Z)
    (items : list OrderItem.t) :
  forall db db' : DB,
    db_consistent db ->
    generate_commissions fee now items db = Ok db' -> db_consistent db'.
Proof.
  induction items as [|i rest IH]; simpl; intros db db' Hc H.
  - now injection H as <-.
  - unfold bind in H.
    destruct (Commission_create _ db) as [db1|e] eqn:E; [|discriminate H].
    apply (IH db1 db'); [|exact H].
    exact (@Commission_create_consistent _ _ _ Hc E).
Qed.

Lemma confirm_consistent (fee : PlatformFee) (now oid : Z) (db db' : DB)
    (o : Order.t) :
  db_consistent db -> confirm fee now oid db = Ok (db', o) -> db_consistent db'.
Proof.
  intros Hc H. unfold confirm in H.
  destruct (lookup Z.eqb Order.order_id (orders db) oid) as [o0|]; [|discriminate H].
  destruct (String.eqb (Order.status o0) "pending").
  - unfold bind in H.
    destruct (generate_commissions _ _ _ _) as [db2|e] eqn:Eg; [|discriminate H].
    injection H as <- _.
    eapply generate_commissions_consistent; [|exact Eg].
    now apply set_status_consistent.
  - destruct (already_confirmed (Order.status o0)); [|discriminate H].
    now injection H as <- _.
Qed.

Lemma step_consistent (db db' : DB) :
  db_consistent db -> step db db' -> db_consistent db'.
Proof.
  intros Hc Hs. destruct Hs.
  - exact (@Shop_create_consistent _ _ _ Hc H).
  - exact (@Product_create_consistent _ _ _ Hc H).
  - exact (@ProductVariant_create_consistent _ _ _ Hc H).
  - exact (@Order_create_consistent _ _ _ Hc H).
  - exact (@OrderItem_create_consistent _ _ _ Hc H).
  - exact (@OrderAddress_create_consistent _ _ _ Hc H).
  - exact (@Commission_create_consistent _ _ _ Hc H).
  - exact (@Payout_create_consistent _ _ _ Hc H).
  - exact (@PayoutTransaction_create_consistent _ _ _ Hc H).
  - exact (@Coupon_create_consistent _ _ _ Hc H).
  - exact (@CouponUsage_create_consistent _ _ _ Hc H).
  - exact (@Shop_delete_consistent _ _ _ Hc H).
  - exact (@confirm_consistent _ _ _ _ _ _ Hc H).
Qed.

Lemma reachable_consistent (db : DB) : reachable db -> db_consistent db.
Proof.
  induction 1 as [|db db' _ IH Hs].
  - constructor; reflexivity.
  - exact (step_consistent IH Hs).
Qed.

(** The sample database is a reachable state. *)
Lemma base_db_reachable : reachable base_db.
Proof.
  apply reachable_step
    with (db := mkDB [shop_beta; shop_alpha] [product_1] [variant_1] [order_1]
                  [] [] [] [] [] [] []);
    [|apply (step_OrderItem_create item_1); reflexivity].
  apply reachable_step
    with (db := mkDB [shop_beta; shop_alpha] [product_1] [variant_1] []
                  [] [] [] [] [] [] []);
    [|apply (step_Order_create order_1); reflexivity].
  apply reachable_step
    with (db := mkDB [shop_beta; shop_alpha] [product_1] [] [] [] [] [] [] [] [] []);
    [|apply (step_ProductVariant_create variant_1); reflexivity].
  apply reachable_step
    with (db := mkDB [shop_beta; shop_alpha] [] [] [] [] [] [] [] [] [] []);
    [|apply (step_Product_create product_1); reflexivity].
  apply reachable_step with (db := mkDB [shop_alpha] [] [] [] [] [] [] [] [] [] []);
    [|apply (step_Shop_create shop_beta); reflexivity].
  apply reachable_step with (db := empty_db);
    [|apply (step_Shop_create shop_alpha); reflexivity].
  apply reachable_empty.
Qed.

(** So are the states the examples start from. *)
Lemma sample_states_reachable :
  reachable alpha_db /\ reachable settled_db /\ reachable two_payouts_db
  /\ reachable coupon_db /\ reachable address_db.
Proof.
  pose proof base_db_reachable as Hb.
  assert (Hs : reachable settled_db).
  { apply reachable_step
      with (db := set_payouts [payout_2; payout_1]
                    (set_commissions [commission_1] base_db));
      [|apply (step_PayoutTransaction_create payout_transaction_1); reflexivity].
    apply reachable_step
      with (db := set_payouts [payout_1] (set_commissions [commission_1] base_db));
      [|apply (step_Payout_create payout_2); reflexivity].
    apply reachable_step with (db := set_commissions [commission_1] base_db);
      [|apply (step_Payout_create payout_1); reflexivity].
    apply reachable_step with (db := base_db); [exact Hb|].
    apply (step_Commission_create commission_1). reflexivity. }
  repeat split.
  - apply reachable_step with (db := base_db); [exact Hb|].
    apply (step_Commission_create commission_alpha). reflexivity.
  - exact Hs.
  - apply reachable_step with (db := settled_db); [exact Hs|].
    apply (step_PayoutTransaction_create payout_transaction_2). reflexivity.
  - apply reachable_step with (db := set_coupons [coupon_1] base_db);
      [|apply (step_CouponUsage_create coupon_usage_1); reflexivity].
    apply reachable_step with (db := base_db); [exact Hb|].
    apply (step_Coupon_create coupon_1). reflexivity.
  - apply reachable_step with (db := base_db); [exact Hb|].
    apply (step_OrderAddress_create shipping_address_1). reflexivity.
Qed.

(** * Further properties of the declarations *)

(** ** Deleting an order *)

Lemma In_filter_other (A : Type) (pk : A -> Z) (k : Z) (t : list A) (r : A) :
  In r t -> pk r <> k -> In r (filter (fun x => negb (pk x =? k)) t).
Proof.
  intros Hin Hne. apply filter_In. split; [exact Hin|].
  apply negb_true_iff. now apply Z.eqb_neq.
Qed.

Lemma Order_delete_consistent (oid : Z) (db db' : DB) :
  db_consistent db -> Order_delete oid db = Ok db' -> db_consistent db'.
Proof.
  intros Hc H. unfold Order_delete in H.
  destruct (taken Z.eqb Order.order_id (orders db) oid); [|discriminate H].
  simpl in H. injection H as <-.
  destruct Hc. constructor; simpl;
    try assumption;
    try (apply unique_filter; assumption);
    try (apply forallb_filter; assumption).
  - (* OrderItem.order *)
    eapply references_restrict; [eassumption| |].
    + intros r Hr. now apply In_without in Hr.
    + intros r p Hr Hp E. apply kept_not_collected in Hr as [_ Hr].
      apply In_filter_other; [exact Hp|]. apply Z.eqb_neq in Hr. congruence.
  - (* OrderAddress.order *)
    eapply references_restrict; [eassumption| |].
    + intros r Hr. now apply In_without in Hr.
    + intros r p Hr Hp E. apply kept_not_collected in Hr as [_ Hr].
      apply In_filter_other; [exact Hp|]. apply Z.eqb_neq in Hr. congruence.
  - (* Commission.order *)
    eapply references_restrict; [eassumption| |].
    + intros r Hr. now apply In_without in Hr.
    + intros r p Hr Hp E. apply kept_not_collected in Hr as [_ Hr].
      apply orb_false_iff in Hr as [Hr _].
      apply In_filter_other; [exact Hp|]. apply Z.eqb_neq in Hr. congruence.
  - (* Commission.item *)
    eapply references_restrict; [eassumption| |].
    + intros r Hr. now apply In_without in Hr.
    + intros r p Hr Hp E. apply kept_not_collected in Hr as [_ Hr].
      apply orb_false_iff in Hr as [_ Hr].
      apply In_without. split; [exact Hp|]. now rewrite E.
  - (* PayoutTransaction.commission *)
    eapply references_restrict; [eassumption| |].
    + intros r Hr. now apply In_without in Hr.
    + intros r p Hr Hp E. apply kept_not_collected in Hr as [_ Hr].
      apply In_without. split; [exact Hp|]. now rewrite E.
  - (* CouponUsage.order *)
    eapply references_restrict; [eassumption| |].
    + intros r Hr. now apply In_without in Hr.
    + intros r p Hr Hp E. apply kept_not_collected in Hr as [_ Hr].
      apply In_filter_other; [exact Hp|]. apply Z.eqb_neq in Hr. congruence.
Qed.

(** Deleting a stored order is never refused.  It removes the order, its
    items, its addresses, its coupon usages, the commissions of the order or
    of one of its items and the payout transactions of those commissions;
    it leaves shops, products, variants, payouts and coupons as they are;
    and the state it leaves satisfies every constraint. *)
Theorem order_delete_cascades (oid : Z) (db : DB) :
  db_consistent db ->
  taken Z.eqb Order.order_id (orders db) oid = true ->
  exists db' : DB,
    Order_delete oid db = Ok db'
    /\ db_consistent db'
    /\ orders db' = filter (fun o => negb (Order.order_id o =? oid)) (orders db)
    /\ order_items db'
       = filter (fun i => negb (OrderItem.order i =? oid)) (order_items db)
    /\ order_addresses db'
       = filter (fun a => negb (OrderAddress.order a =? oid)) (order_addresses db)
    /\ coupon_usages db'
       = filter (fun u => negb (CouponUsage.order u =? oid)) (coupon_usages db)
    /\ (forall c, In c (commissions db') <->
                  In c (commissions db)
                  /\ Commission.order c <> oid
                  /\ forall i, In i (order_items db) ->
                               OrderItem.item_id i = Commission.item c ->
                               OrderItem.order i <> oid)
    /\ (forall x, In x (payout_transactions db') <->
                  In x (payout_transactions db)
                  /\ exists c, In c (commissions db')
                               /\ Commission.commission_id c
                                  = PayoutTransaction.commission x)
    /\ shops db' = shops db /\ products db' = products db
    /\ variants db' = variants db /\ payouts db' = payouts db
    /\ coupons db' = coupons db.
Proof.
  intros Hc Hex.
  assert (Hok : Order_delete oid db
                = Ok (mkDB (shops db) (products db) (variants db)
                        (filter (fun o => negb (Order.order_id o =? oid)) (orders db))
                        (without OrderItem.item_id (order_items_of oid db)
                           (order_items db))
                        (without OrderAddress.address_id (order_address_rows oid db)
                           (order_addresses db))
                        (without Commission.commission_id (order_commissions oid db)
                           (commissions db))
                        (payouts db)
                        (without PayoutTransaction.payout_transaction_id
                           (order_payout_transactions oid db)
                           (payout_transactions db))
                        (coupons db)
                        (without CouponUsage.usage_id (order_coupon_usages oid db)
                           (coupon_usages db)))).
  { unfold Order_delete. rewrite Hex. reflexivity. }
  eexists. split; [exact Hok|].
  split; [exact (@Order_delete_consistent _ _ _ Hc Hok)|].
  simpl. split; [reflexivity|].
  split; [apply without_filter; exact (pk_order_items Hc)|].
  split; [apply without_filter; exact (pk_order_addresses Hc)|].
  split; [apply without_filter; exact (pk_coupon_usages Hc)|].
  assert (Hcom : forall c,
            In c (without Commission.commission_id (order_commissions oid db)
                    (commissions db)) <->
            In c (commissions db)
            /\ Commission.order c <> oid
            /\ forall i, In i (order_items db) ->
                         OrderItem.item_id i = Commission.item c ->
                         OrderItem.order i <> oid).
  { intros c. unfold order_commissions.
    rewrite (@without_filter _ _ _ _ (pk_commissions Hc)), filter_In,
      negb_true_iff, orb_false_iff, Z.eqb_neq, taken_false_iff.
    split.
    - intros (Hin & Ho & Hi). repeat split; try assumption.
      intros i Hi' E Hoi.
      assert (Hf : In i (order_items_of oid db))
        by (apply filter_In; split; [exact Hi'|now apply Z.eqb_eq]).
      specialize (Hi i Hf). apply Z.eqb_neq in Hi. congruence.
    - intros (Hin & Ho & Hi). repeat split; try assumption.
      intros i Hf. apply filter_In in Hf as [Hi' Hoi].
      apply Z.eqb_neq. intros E. apply Z.eqb_eq in Hoi.
      exact (Hi i Hi' E Hoi). }
  split; [exact Hcom|].
  split; [|repeat split; reflexivity].
  intros x. unfold order_payout_transactions.
  rewrite (@without_filter _ _ _ _ (pk_payout_transactions Hc)), filter_In,
    negb_true_iff.
  pose proof (fk_ptx_commission Hc) as Hfk. unfold references in Hfk.
  rewrite forallb_forall in Hfk.
  split.
  - intros [Hin Hk]. split; [exact Hin|].
    specialize (Hfk x Hin). apply taken_iff in Hfk as (c & Hcin & E).
    apply Z.eqb_eq in E. exists c. split; [|exact E].
    apply In_without. split; [exact Hcin|]. now rewrite E.
  - intros [Hin (c & Hcin & E)]. split; [exact Hin|].
    apply In_without in Hcin as [_ Hk]. now rewrite <- E.
Qed.

Lemma order_delete_cascades_witness :
  exists db' : DB,
    Order_delete 1 coupon_db = Ok db'
    /\ db_consistent db'
    /\ orders db' = [] /\ order_items db' = [] /\ coupon_usages db' = []
    /\ coupons db' = [coupon_1].
Proof.
  assert (Hc : db_consistent coupon_db) by (constructor; reflexivity).
  destruct (@order_delete_cascades 1 coupon_db Hc eq_refl)
    as (db' & Hd & Hcons & Ho & Hi & _ & Hu & _ & _ & _ & _ & _ & _ & Hcp).
  exists db'. split; [exact Hd|]. split; [exact Hcons|].
  split; [rewrite Ho; reflexivity|].
  split; [rewrite Hi; reflexivity|].
  split; [rewrite Hu; reflexivity|rewrite Hcp; reflexivity].
Defined.

(** ** Deleting a product *)




(** ** Deleting a commission, a payout, a coupon *)

Lemma Commission_delete_consistent (cid : Z) (db db' : DB) :
  db_consistent db -> Commission_delete cid db = Ok db' -> db_consistent db'.
Proof.
  intros Hc H. unfold Commission_delete in H.
  destruct (taken Z.eqb Commission.commission_id (commissions db) cid);
    [|discriminate H].
  simpl in H. injection H as <-.
  destruct Hc. constructor; simpl;
    try assumption;
    try (apply unique_filter; assumption);
    try (apply forallb_filter; assumption).
  eapply references_restrict; [eassumption| |].
  - intros r Hr. now apply In_without in Hr.
  - intros r p Hr Hp E. apply kept_not_collected in Hr as [_ Hr].
    apply In_filter_other; [exact Hp|]. apply Z.eqb_neq in Hr. congruence.
Qed.

Lemma Payout_delete_consistent (pid : Z) (db db' : DB) :
  db_consistent db -> Payout_delete pid db = Ok db' -> db_consistent db'.
Proof.
  intros Hc H. unfold Payout_delete in H.
  destruct (taken Z.eqb Payout.payout_id (payouts db) pid); [|discriminate H].
  simpl in H. injection H as <-.
  destruct Hc. constructor; simpl;
    try assumption;
    try (apply unique_filter; assumption);
    try (apply forallb_filter; assumption).
  eapply references_restrict; [eassumption| |].
  - intros r Hr. now apply In_without in Hr.
  - intros r p Hr Hp E. apply kept_not_collected in Hr as [_ Hr].
    apply In_filter_other; [exact Hp|]. apply Z.eqb_neq in Hr. congruence.
Qed.

Lemma Coupon_delete_consistent (cid : Z) (db db' : DB) :
  db_consistent db -> Coupon_delete cid db = Ok db' -> db_consistent db'.
Proof.
  intros Hc H. unfold Coupon_delete in H.
  destruct (taken Z.eqb Coupon.coupon_id (coupons db) cid); [|discriminate H].
  simpl in H. injection H as <-.
  destruct Hc. constructor; simpl;
    try assumption;
    try (apply unique_filter; assumption);
    try (apply forallb_filter; assumption).
  eapply references_restrict; [eassumption| |].
  - intros r Hr. now apply In_without in Hr.
  - intros r p Hr Hp E. apply kept_not_collected in Hr as [_ Hr].
    apply In_filter_other; [exact Hp|]. apply Z.eqb_neq in Hr. congruence.
Qed.

(** Deleting a stored payout is never refused and removes its payout
    transactions but no commission; deleting a stored commission is never
    refused and removes its payout transactions but no payout, so every
    payout keeps its row, and its [payout_amount], while losing the
    transactions of the deleted commission.  Both leave a state that
    satisfies every constraint. *)
Theorem payout_and_commission_delete (db : DB) (Hc : db_consistent db) :
  (forall pid : Z,
      taken Z.eqb Payout.payout_id (payouts db) pid = true ->
      exists db' : DB,
        Payout_delete pid db = Ok db'
        /\ db_consistent db'
        /\ commissions db' = commissions db
        /\ payouts db'
           = filter (fun p => negb (Payout.payout_id p =? pid)) (payouts db)
        /\ payout_transactions db'
           = filter (fun x => negb (PayoutTransaction.payout x =? pid))
               (payout_transactions db))
  /\ (forall cid : Z,
        taken Z.eqb Commission.commission_id (commissions db) cid = true ->
        exists db' : DB,
          Commission_delete cid db = Ok db'
          /\ db_consistent db'
          /\ payouts db' = payouts db
          /\ commissions db'
             = filter (fun c => negb (Commission.commission_id c =? cid))
                 (commissions db)
          /\ payout_transactions db'
             = filter (fun x => negb (PayoutTransaction.commission x =? cid))
                 (payout_transactions db)).
Proof.
  split.
  - intros pid Hex.
    assert (Hok : Payout_delete pid db
                  = Ok (set_payout_transactions
                          (without PayoutTransaction.payout_transaction_id
                             (payout_payout_transactions pid db)
                             (payout_transactions db))
                          (set_payouts
                             (filter (fun p => negb (Payout.payout_id p =? pid))
                                (payouts db)) db))).
    { unfold Payout_delete. rewrite Hex. reflexivity. }
    eexists. split; [exact Hok|].
    split; [exact (@Payout_delete_consistent _ _ _ Hc Hok)|].
    simpl. split; [reflexivity|]. split; [reflexivity|].
    apply without_filter. exact (pk_payout_transactions Hc).
  - intros cid Hex.
    assert (Hok : Commission_delete cid db
                  = Ok (set_payout_transactions
                          (without PayoutTransaction.payout_transaction_id
                             (commission_payout_transactions cid db)
                             (payout_transactions db))
                          (set_commissions
                             (filter
                                (fun c => negb (Commission.commission_id c =? cid))
                                (commissions db)) db))).
    { unfold Commission_delete. rewrite Hex. reflexivity. }
    eexists. split; [exact Hok|].
    split; [exact (@Commission_delete_consistent _ _ _ Hc Hok)|].
    simpl. split; [reflexivity|]. split; [reflexivity|].
    apply without_filter. exact (pk_payout_transactions Hc).
Qed.

Lemma payout_and_commission_delete_witness :
  (exists db', Payout_delete 1 two_payouts_db = Ok db'
               /\ commissions db' = [commission_1]
               /\ payout_transactions db' = [payout_transaction_2])
  /\ (exists db', Commission_delete 1 two_payouts_db = Ok db'
                  /\ payouts db' = [payout_2; payout_1]
                  /\ payout_transactions db' = []).
Proof.
  assert (Hc : db_consistent two_payouts_db) by (constructor; reflexivity).
  destruct (payout_and_commission_delete Hc) as [Hp Hm].
  split.
  - destruct (Hp 1 eq_refl) as (db' & Hd & _ & Hcm & _ & Hx).
    exists db'. split; [exact Hd|]. split; [exact Hcm|].
    rewrite Hx. reflexivity.
  - destruct (Hm 1 eq_refl) as (db' & Hd & _ & Hpy & _ & Hx).
    exists db'. split; [exact Hd|]. split; [exact Hpy|].
    rewrite Hx. reflexivity.
Defined.

(** Deleting a stored coupon is never refused: it removes the coupon and
    its usage rows and leaves every order, with the discount and total
    stored on it, as it is; the state left satisfies every constraint. *)
Theorem coupon_delete_keeps_orders (cid : Z) (db : DB) :
  db_consistent db ->
  taken Z.eqb Coupon.coupon_id (coupons db) cid = true ->
  exists db' : DB,
    Coupon_delete cid db = Ok db'
    /\ db_consistent db'
    /\ orders db' = orders db
    /\ coupons db'
       = filter (fun c => negb (Coupon.coupon_id c =? cid)) (coupons db)
    /\ coupon_usages db'
       = filter (fun u => negb (CouponUsage.coupon u =? cid)) (coupon_usages db).
Proof.
  intros Hc Hex.
  assert (Hok : Coupon_delete cid db
                = Ok (set_coupon_usages
                        (without CouponUsage.usage_id (coupon_coupon_usages cid db)
                           (coupon_usages db))
                        (set_coupons
                           (filter (fun c => negb (Coupon.coupon_id c =? cid))
                              (coupons db)) db))).
  { unfold Coupon_delete. rewrite Hex. reflexivity. }
  eexists. split; [exact Hok|].
  split; [exact (@Coupon_delete_consistent _ _ _ Hc Hok)|].
  simpl. split; [reflexivity|]. split; [reflexivity|].
  apply without_filter. exact (pk_coupon_usages Hc).
Qed.

Lemma coupon_delete_keeps_orders_witness :
  exists db' : DB,
    Coupon_delete 1 coupon_db = Ok db'
    /\ orders db' = [order_1] /\ coupons db' = [] /\ coupon_usages db' = [].
Proof.
  assert (Hc : db_consistent coupon_db) by (constructor; reflexivity).
  destruct (@coupon_delete_keeps_orders 1 coupon_db Hc eq_refl)
    as (db' & Hd & _ & Ho & Hcp & Hu).
  exists db'. split; [exact Hd|]. split; [exact Ho|].
  split; [rewrite Hcp; reflexivity|rewrite Hu; reflexivity].
Defined.

(** ** Deleting a shop: when it goes through and what it takes along *)

Lemma filter_nil_of_none (A : Type) (p : A -> bool) (t : list A) :
  (forall x, In x t -> p x = false) -> filter p t = [].
Proof.
  intros H. destruct (filter p t) as [|x rest] eqn:E; [reflexivity|].
  assert (Hin : In x (filter p t)) by (rewrite E; now left).
  apply filter_In in Hin as [Hx Hp]. rewrite (H x Hx) in Hp. discriminate Hp.
Qed.

Lemma shop_products_taken (sid : Z) (db : DB) (k : Z) :
  taken Z.eqb Product.product_id (shop_products sid db) k = true <->
  exists p, In p (products db) /\ Product.product_id p = k
            /\ Product.shop p = sid.
Proof.
  rewrite taken_iff. split.
  - intros (p & Hp & E). apply filter_In in Hp as [Hp Hs].
    exists p. split; [exact Hp|]. split; now apply Z.eqb_eq.
  - intros (p & Hp & E & Hs). exists p. split; [|now apply Z.eqb_eq].
    apply filter_In. split; [exact Hp|now apply Z.eqb_eq].
Qed.

Lemma shop_variants_taken (sid : Z) (db : DB) (k : Z) :
  taken Z.eqb ProductVariant.variant_id (shop_variants sid db) k = true <->
  exists v p, In v (variants db) /\ In p (products db)
              /\ ProductVariant.variant_id v = k
              /\ Product.product_id p = ProductVariant.product v
              /\ Product.shop p = sid.
Proof.
  rewrite taken_iff. split.
  - intros (v & Hv & E). apply filter_In in Hv as [Hv Hp].
    apply shop_products_taken in Hp as (p & Hp & Ep & Es).
    exists v, p. repeat (split; [assumption || now apply Z.eqb_eq|]).
    exact Es.
  - intros (v & p & Hv & Hp & E & Ep & Es). exists v.
    split; [|now apply Z.eqb_eq].
    apply filter_In. split; [exact Hv|].
    apply shop_products_taken. now exists p.
Qed.

(** The collector's list of restricted order items holds the items that
    protect the shop. *)
Lemma restricted_order_items_In (sid : Z) (db : DB) (i : OrderItem.t) :
  In i (restricted_order_items sid db) <->
  In i (order_items db) /\ item_protects_shop sid db i.
Proof.
  unfold restricted_order_items, item_protects_shop.
  rewrite filter_In, !orb_true_iff, Z.eqb_eq, shop_products_taken,
    shop_variants_taken.
  tauto.
Qed.

Lemma restricted_payouts_In (sid : Z) (db : DB) (y : Payout.t) :
  In y (restricted_payouts sid db) <->
  In y (payouts db) /\ Payout.shop y = sid.
Proof.
  unfold restricted_payouts. rewrite filter_In, Z.eqb_eq. tauto.
Qed.

Lemma shop_protected_lists (sid : Z) (db : DB) :
  shop_protected sid db <->
  ~ (restricted_order_items sid db = [] /\ restricted_payouts sid db = []).
Proof.
  unfold shop_protected. split.
  - intros [(i & Hi)|(y & Hy)] [Hni Hnp].
    + apply restricted_order_items_In in Hi. rewrite Hni in Hi. destruct Hi.
    + apply restricted_payouts_In in Hy. rewrite Hnp in Hy. destruct Hy.
  - intros H.
    destruct (restricted_order_items sid db) as [|i ri] eqn:Ei.
    + destruct (restricted_payouts sid db) as [|y ry] eqn:Ey.
      * exfalso. apply H. split; reflexivity.
      * right. exists y. apply restricted_payouts_In. rewrite Ey. now left.
    + left. exists i. apply restricted_order_items_In. rewrite Ei. now left.
Qed.

(** In a state that satisfies the foreign keys, a protected shop is a
    stored one. *)
Lemma shop_protected_stored (sid : Z) (db : DB) :
  db_consistent db -> shop_protected sid db ->
  taken Z.eqb Shop.shop_id (shops db) sid = true.
Proof.
  intros Hc Hp.
  assert (Hprod : forall p, In p (products db) -> Product.shop p = sid ->
                            taken Z.eqb Shop.shop_id (shops db) sid = true).
  { intros p Hin Hs. pose proof (fk_product_shop Hc) as Hfk.
    unfold references in Hfk. rewrite forallb_forall in Hfk.
    rewrite <- Hs. now apply Hfk. }
  destruct Hp as [(i & Hi & [Hs|[(p & Hp & _ & Hs)|(v & p & _ & Hp & _ & _ & Hs)]])
                 |(y & Hy & Hs)].
  - pose proof (fk_item_shop Hc) as Hfk. unfold references in Hfk.
    rewrite forallb_forall in Hfk. rewrite <- Hs. now apply Hfk.
  - exact (Hprod p Hp Hs).
  - exact (Hprod p Hp Hs).
  - pose proof (fk_payout_shop Hc) as Hfk. unfold references in Hfk.
    rewrite forallb_forall in Hfk. rewrite <- Hs. now apply Hfk.
Qed.

(** The three outcomes of [Shop_delete], by what the collector finds. *)
Lemma Shop_delete_outcome (sid : Z) (db : DB) :
  (taken Z.eqb Shop.shop_id (shops db) sid = false
   /\ Shop_delete sid db = Err DoesNotExist)
  \/ (taken Z.eqb Shop.shop_id (shops db) sid = true
      /\ ~ (restricted_order_items sid db = []
            /\ restricted_payouts sid db = [])
      /\ Shop_delete sid db = Err RestrictedError)
  \/ (taken Z.eqb Shop.shop_id (shops db) sid = true
      /\ restricted_order_items sid db = []
      /\ restricted_payouts sid db = []
      /\ exists db', Shop_delete sid db = Ok db').
Proof.
  unfold Shop_delete.
  destruct (taken Z.eqb Shop.shop_id (shops db) sid); simpl.
  - right.
    destruct (restricted_order_items sid db) as [|i ri].
    + destruct (restricted_payouts sid db) as [|y ry].
      * right. repeat (split; [reflexivity|]). eexists. reflexivity.
      * left. split; [reflexivity|]. split; [|reflexivity].
        intros [_ H]. discriminate H.
    + left. split; [reflexivity|]. split; [|reflexivity].
      intros [H _]. discriminate H.
  - left. split; reflexivity.
Qed.

(** Deleting a shop has one of three outcomes, each decided by the tables.
    It fails with DoesNotExist exactly when no shop with that key is stored.
    It fails with RestrictedError exactly when the shop is protected: some
    order item names the shop, one of its products, or a variant of one of
    its products (any one of the three is enough, whichever shop the item
    itself names), or some payout names the shop.  It goes through exactly
    when the shop is stored and not protected; it then takes along the
    shop's products, their variants, its coupons with their usages and its
    commissions, leaves orders, order items, addresses and payouts as they
    are, and the state left satisfies every constraint. *)
Theorem shop_delete_exactly (sid : Z) (db : DB) (Hc : db_consistent db) :
  (Shop_delete sid db = Err DoesNotExist <->
   taken Z.eqb Shop.shop_id (shops db) sid = false)
  /\ (Shop_delete sid db = Err RestrictedError <-> shop_protected sid db)
  /\ ((exists db' : DB, Shop_delete sid db = Ok db') <->
      taken Z.eqb Shop.shop_id (shops db) sid = true
      /\ ~ shop_protected sid db)
  /\ (forall db' : DB,
        Shop_delete sid db = Ok db' ->
        db_consistent db'
        /\ shops db' = filter (fun s => negb (Shop.shop_id s =? sid)) (shops db)
        /\ products db'
           = filter (fun p => negb (Product.shop p =? sid)) (products db)
        /\ (forall v, In v (variants db') <->
                      In v (variants db)
                      /\ forall p, In p (products db) ->
                                   Product.product_id p = ProductVariant.product v ->
                                   Product.shop p <> sid)
        /\ coupons db'
           = filter (fun c => negb (coupon_of_shop sid c)) (coupons db)
        /\ (forall u, In u (coupon_usages db') <->
                      In u (coupon_usages db)
                      /\ forall c, In c (coupons db) ->
                                   Coupon.coupon_id c = CouponUsage.coupon u ->
                                   coupon_of_shop sid c = false)
        /\ commissions db'
           = filter (fun c => negb (Commission.shop c =? sid)) (commissions db)
        /\ orders db' = orders db /\ order_items db' = order_items db
        /\ order_addresses db' = order_addresses db
        /\ payouts db' = payouts db).
Proof.
  pose proof (shop_protected_lists sid db) as Hlists.
  pose proof (@shop_protected_stored sid db Hc) as Hstored.
  split; [|split; [|split]].
  - destruct (Shop_delete_outcome sid db)
      as [[Ht Hd]|[(Ht & Hr & Hd)|(Ht & Hni & Hnp & db' & Hd)]];
      rewrite Hd, Ht; split; congruence.
  - destruct (Shop_delete_outcome sid db)
      as [[Ht Hd]|[(Ht & Hr & Hd)|(Ht & Hni & Hnp & db' & Hd)]];
      rewrite Hd; split.
    + intros H. discriminate H.
    + intros H. apply Hstored in H. congruence.
    + intros _. now apply Hlists.
    + reflexivity.
    + intros H. discriminate H.
    + intros H. apply Hlists in H. exfalso. apply H. now split.
  - destruct (Shop_delete_outcome sid db)
      as [[Ht Hd]|[(Ht & Hr & Hd)|(Ht & Hni & Hnp & db' & Hd)]];
      rewrite Hd; split.
    + intros [db' H]. discriminate H.
    + intros [H _]. congruence.
    + intros [db' H]. discriminate H.
    + intros [_ H]. exfalso. apply H. now apply Hlists.
    + intros _. split; [exact Ht|]. intros H. apply Hlists in H.
      apply H. now split.
    + intros _. now exists db'.
  - intros db' Hd.
    destruct (Shop_delete_ok _ _ Hd) as (Hex & Hni & Hnp & _).
    assert (Hok : Shop_delete sid db
                  = Ok (mkDB
                          (filter (fun s => negb (Shop.shop_id s =? sid)) (shops db))
                          (without Product.product_id (shop_products sid db)
                             (products db))
                          (without ProductVariant.variant_id (shop_variants sid db)
                             (variants db))
                          (orders db) (order_items db) (order_addresses db)
                          (without Commission.commission_id
                             (shop_commissions sid db) (commissions db))
                          (payouts db)
                          (without PayoutTransaction.payout_transaction_id
                             (shop_payout_transactions sid db)
                             (payout_transactions db))
                          (without Coupon.coupon_id (shop_coupons sid db)
                             (coupons db))
                          (without CouponUsage.usage_id (shop_coupon_usages sid db)
                             (coupon_usages db)))).
    { unfold Shop_delete. rewrite Hex, Hni, Hnp. reflexivity. }
    split; [exact (@Shop_delete_consistent _ _ _ Hc Hd)|].
    rewrite Hok in Hd. injection Hd as <-.
    simpl. split; [reflexivity|].
    split; [apply without_filter; exact (pk_products Hc)|].
    split.
    { intros v. unfold shop_variants.
      rewrite (@without_filter _ _ _ _ (pk_variants Hc)), filter_In, negb_true_iff.
      split.
      - intros [Hv Hk]. split; [exact Hv|]. intros p Hp E Es.
        assert (Ht : taken Z.eqb Product.product_id (shop_products sid db)
                       (ProductVariant.product v) = true)
          by (apply shop_products_taken; now exists p).
        congruence.
      - intros [Hv Hk]. split; [exact Hv|]. apply not_true_is_false.
        intros Ht. apply shop_products_taken in Ht as (p & Hp & E & Es).
        exact (Hk p Hp E Es). }
    split; [apply without_filter; exact (pk_coupons Hc)|].
    split.
    { intros u. unfold shop_coupon_usages.
      rewrite (@without_filter _ _ _ _ (pk_coupon_usages Hc)), filter_In,
        negb_true_iff.
      split.
      - intros [Hu Hk]. split; [exact Hu|]. intros c Hcin E.
        destruct (coupon_of_shop sid c) eqn:Es; [|reflexivity].
        assert (Ht : taken Z.eqb Coupon.coupon_id (shop_coupons sid db)
                       (CouponUsage.coupon u) = true).
        { apply taken_iff. exists c. split; [|now apply Z.eqb_eq].
          apply filter_In. now split. }
        congruence.
      - intros [Hu Hk]. split; [exact Hu|]. apply not_true_is_false.
        intros Ht. apply taken_iff in Ht as (c & Hcin & E).
        apply filter_In in Hcin as [Hcin Es]. apply Z.eqb_eq in E.
        rewrite (Hk c Hcin E) in Es. discriminate Es. }
    split; [apply without_filter; exact (pk_commissions Hc)|].
    repeat split; reflexivity.
Qed.

Lemma shop_delete_exactly_witness :
  Shop_delete 1 other_variant_db = Err RestrictedError
  /\ Shop_delete 2 base_db = Err RestrictedError
  /\ Shop_delete 2 two_payouts_db = Err RestrictedError
  /\ Shop_delete 3 base_db = Err DoesNotExist
  /\ ~ shop_protected 1 base_db
  /\ exists db', Shop_delete 1 base_db = Ok db' /\ shops db' = [shop_beta]
                 /\ products db' = [product_1].
Proof.
  assert (Hc : db_consistent base_db) by (constructor; reflexivity).
  assert (Hv : db_consistent other_variant_db) by (constructor; reflexivity).
  assert (Hp : db_consistent two_payouts_db) by (constructor; reflexivity).
  split; [|split; [|split; [|split; [|split]]]].
  - apply (proj1 (proj2 (shop_delete_exactly 1 Hv))).
    left. exists item_other_variant. split; [left; reflexivity|].
    right. right. exists variant_2, product_2.
    split; [left; reflexivity|]. split; [left; reflexivity|].
    repeat split; reflexivity.
  - apply (proj1 (proj2 (shop_delete_exactly 2 Hc))).
    left. exists item_1. split; [left; reflexivity|]. left. reflexivity.
  - apply (proj1 (proj2 (shop_delete_exactly 2 Hp))).
    right. exists payout_1. split; [simpl; tauto|reflexivity].
  - apply (proj1 (shop_delete_exactly 3 Hc)). reflexivity.
  - apply (proj1 (proj1 (proj2 (proj2 (shop_delete_exactly 1 Hc))))).
    eexists. reflexivity.
  - destruct (proj2 (proj1 (proj2 (proj2 (shop_delete_exactly 1 Hc)))))
      as [db' Hd].
    + split; [reflexivity|].
      apply (proj1 (proj1 (proj2 (proj2 (shop_delete_exactly 1 Hc))))).
      eexists. reflexivity.
    + destruct (proj2 (proj2 (proj2 (shop_delete_exactly 1 Hc))) db' Hd)
        as (_ & Hs & Hpr & _).
      exists db'. split; [exact Hd|].
      split; [rewrite Hs; reflexivity|rewrite Hpr; reflexivity].
Defined.

(** ** unique fields *)

Lemma existsb_eqb_In (n : string) (l : list string) :
  existsb (String.eqb n) l = true -> In n l.
Proof.
  intros H. apply existsb_exists in H as (x & Hx & E).
  apply String.eqb_eq in E. now subst x.
Qed.

(** [unique=True] on [Order.order_number], [Shop.shop_slug] and
    [Coupon.coupon_code]: a stored row is determined by the value, an INSERT
    that repeats a stored value fails with IntegrityError, and model
    validation of a new order that repeats a stored order number fails with
    a ValidationError that names [order_number]. *)
Theorem unique_fields_identify_rows (db : DB) (Hc : db_consistent db) :
  (forall a b : Order.t,
      In a (orders db) -> In b (orders db) ->
      Order.order_number a = Order.order_number b -> a = b)
  /\ (forall a b : Shop.t,
        In a (shops db) -> In b (shops db) ->
        Shop.shop_slug a = Shop.shop_slug b -> a = b)
  /\ (forall a b : Coupon.t,
        In a (coupons db) -> In b (coupons db) ->
        Coupon.coupon_code a = Coupon.coupon_code b -> a = b)
  /\ (forall a r : Order.t,
        In a (orders db) -> Order.order_number r = Order.order_number a ->
        (exists c, Order_create r db = Err (IntegrityError c))
        /\ exists fields,
             Order_full_clean db r = Err (ValidationError fields)
             /\ In "order_number" fields)
  /\ (forall a r : Shop.t,
        In a (shops db) -> Shop.shop_slug r = Shop.shop_slug a ->
        exists c, Shop_create r db = Err (IntegrityError c))
  /\ (forall a r : Coupon.t,
        In a (coupons db) -> Coupon.coupon_code r = Coupon.coupon_code a ->
        exists c, Coupon_create r db = Err (IntegrityError c)).
Proof.
  split; [|split; [|split; [|split; [|split]]]].
  - intros a b.
    exact (@unique_same_key _ _ _ _ String.eqb_eq _ (uq_order_number Hc) a b).
  - intros a b.
    exact (@unique_same_key _ _ _ _ String.eqb_eq _ (uq_shop_slug Hc) a b).
  - intros a b.
    exact (@unique_same_key _ _ _ _ String.eqb_eq _ (uq_coupon_code Hc) a b).
  - intros a r Ha E.
    assert (Hk : taken String.eqb Order.order_number (orders db)
                   (Order.order_number r) = true).
    { rewrite E. apply taken_of_member; [apply String.eqb_eq|exact Ha]. }
    split.
    + unfold Order_create. refused Hk.
    + unfold Order_full_clean. rewrite Hk. simpl negb.
      destruct (existsb (String.eqb "order_number")
                  (failing (Order.field_checks r))) eqn:Ee.
      * apply existsb_eqb_In in Ee. rewrite app_nil_r.
        destruct (failing (Order.field_checks r)) as [|f fs]; [destruct Ee|].
        exists (f :: fs). split; [reflexivity|exact Ee].
      * unfold failing at 2. simpl.
        destruct (failing (Order.field_checks r) ++ ["order_number"])
          as [|f fs] eqn:Ea.
        { apply app_eq_nil in Ea as [_ Ea]. discriminate Ea. }
        exists (f :: fs). split; [reflexivity|].
        rewrite <- Ea. apply in_or_app. right. now left.
  - intros a r Ha E.
    assert (Hk : taken String.eqb Shop.shop_slug (shops db) (Shop.shop_slug r)
                 = true).
    { rewrite E. apply taken_of_member; [apply String.eqb_eq|exact Ha]. }
    unfold Shop_create. refused Hk.
  - intros a r Ha E.
    assert (Hk : taken String.eqb Coupon.coupon_code (coupons db)
                   (Coupon.coupon_code r) = true).
    { rewrite E. apply taken_of_member; [apply String.eqb_eq|exact Ha]. }
    unfold Coupon_create. refused Hk.
Qed.

Lemma unique_fields_identify_rows_witness :
  (exists c, Order_create
               (Order.mk 9 "kc-customer-2" "ORD-0001" "pending" 0 0 0 0 0 "USD" 1
                  None None None None) base_db
             = Err (IntegrityError c))
  /\ exists c, Shop_create
                 (Shop.init 9 1 (Shop.named "kc-owner-9" "Other" "alpha")) base_db
               = Err (IntegrityError c).
Proof.
  assert (Hc : db_consistent base_db) by (constructor; reflexivity).
  pose proof (unique_fields_identify_rows Hc) as (_ & _ & _ & Ho & Hs & _).
  split.
  - refine (proj1 (Ho order_1 _ _ _)); [left; reflexivity|reflexivity].
  - apply (Hs shop_alpha); [right; left; reflexivity|reflexivity].
Defined.

(** ** unique_together with a nullable column *)

Section SymmetricKeys.

Variables (A K : Type) (eqb : K -> K -> bool) (key : A -> K).
Hypothesis eqb_sym : forall x y, eqb x y = eqb y x.

Lemma unique_matching_rows (t : list A) :
  unique eqb key t = true ->
  forall a b, In a t -> In b t -> eqb (key a) (key b) = true -> a = b.
Proof.
  induction t as [|r t IH]; intros Hu a b Ha Hb Hk; [destruct Ha|].
  simpl in Hu. apply andb_true_iff in Hu as [Hfree Hu].
  apply negb_true_iff in Hfree. rewrite taken_false_iff in Hfree.
  destruct Ha as [Ea|Ha], Hb as [Eb|Hb].
  - congruence.
  - subst a. specialize (Hfree b Hb). rewrite eqb_sym in Hfree. congruence.
  - subst b. specialize (Hfree a Ha). congruence.
  - now apply IH.
Qed.

End SymmetricKeys.

Lemma ZnullString_eqb_sym (x y : Z * option string) :
  pair_eqb Z.eqb (null_eqb String.eqb) x y
  = pair_eqb Z.eqb (null_eqb String.eqb) y x.
Proof.
  unfold pair_eqb, null_eqb. rewrite Z.eqb_sym. f_equal.
  destruct (snd x), (snd y); try reflexivity. apply String.eqb_sym.
Qed.

(** [Product.Meta.unique_together = [('shop', 'product_slug'), ('shop',
    'sku')]] with [sku] nullable: within a shop the slug identifies a
    product and so does an sku that is present, and an INSERT repeating a
    present sku of the shop is refused; a product without sku never
    conflicts on (shop, sku), so a shop may hold any number of them. *)
Theorem product_sku_unique_when_present (db : DB) (Hc : db_consistent db) :
  (forall a b : Product.t,
      In a (products db) -> In b (products db) ->
      Product.shop a = Product.shop b ->
      Product.product_slug a = Product.product_slug b -> a = b)
  /\ (forall (a b : Product.t) (s : string),
        In a (products db) -> In b (products db) ->
        Product.shop a = Product.shop b ->
        Product.sku a = Some s -> Product.sku b = Some s -> a = b)
  /\ (forall (a r : Product.t) (s : string),
        In a (products db) -> Product.shop r = Product.shop a ->
        Product.sku a = Some s -> Product.sku r = Some s ->
        exists c, Product_create r db = Err (IntegrityError c))
  /\ (forall r : Product.t,
        Product.sku r = None ->
        fresh Product.product_id (products db) (Product.product_id r) = true ->
        taken Z.eqb Shop.shop_id (shops db) (Product.shop r) = true ->
        taken (pair_eqb Z.eqb String.eqb) Product_shop_slug (products db)
          (Product_shop_slug r) = false ->
        Product_create r db = Ok (set_products (r :: products db) db)).
Proof.
  split; [|split; [|split]].
  - intros a b Ha Hb Es El.
    apply (@unique_same_key _ _ _ _ Zstring_eqb_eq _ (uq_product_slug Hc) a b Ha Hb).
    unfold Product_shop_slug. congruence.
  - intros a b s Ha Hb Es Ea Eb.
    apply (@unique_matching_rows _ _ _ _ ZnullString_eqb_sym _
             (uq_product_sku Hc) a b Ha Hb).
    unfold Product_shop_sku, pair_eqb, null_eqb. simpl.
    rewrite Es, Ea, Eb, Z.eqb_refl, String.eqb_refl. reflexivity.
  - intros a r s Ha Es Ea Er.
    assert (Hk : taken (pair_eqb Z.eqb (null_eqb String.eqb)) Product_shop_sku
                   (products db) (Product_shop_sku r) = true).
    { apply taken_iff. exists a. split; [exact Ha|].
      unfold Product_shop_sku, pair_eqb, null_eqb. simpl.
      rewrite Es, Ea, Er, Z.eqb_refl, String.eqb_refl. reflexivity. }
    unfold Product_create. refused Hk.
  - intros r Hn Hpk Hs Hslug.
    assert (Hk : taken (pair_eqb Z.eqb (null_eqb String.eqb)) Product_shop_sku
                   (products db) (Product_shop_sku r) = false).
    { apply taken_false_iff. intros x _.
      unfold Product_shop_sku, pair_eqb, null_eqb. simpl. rewrite Hn.
      destruct (Product.sku x); apply andb_false_r. }
    unfold Product_create, bind. rewrite Hpk, Hs, Hslug, Hk. reflexivity.
Qed.

Lemma product_sku_unique_when_present_witness :
  (exists c, Product_create
               (Product.mk 2 2 7 "Teapot again" "teapot-2" None None (Some "TP-1")
                  None "draft" false 1 1) base_db
             = Err (IntegrityError c))
  /\ is_ok (Product_create
              (Product.mk 2 2 7 "Cup" "cup" None None None None "draft" false 1 1)
              base_db) = true.
Proof.
  assert (Hc : db_consistent base_db) by (constructor; reflexivity).
  pose proof (product_sku_unique_when_present Hc) as (_ & _ & Hr & Ha).
  split.
  - apply (Hr product_1 _ "TP-1"); [left; reflexivity|reflexivity..].
  - rewrite Ha; reflexivity.
Defined.

(** ** Validation before INSERT *)

Lemma Commission_full_clean_ok (db : DB) (c : Commission.t) :
  Commission_full_clean db c = Ok tt <->
  forallb snd
    (Commission.field_checks
       (taken Z.eqb Order.order_id (orders db))
       (taken Z.eqb Shop.shop_id (shops db))
       (taken Z.eqb OrderItem.item_id (order_items db)) c) = true.
Proof.
  unfold Commission_full_clean, Commission.clean_fields.
  rewrite <- failing_nil_iff.
  destruct (failing _); split; congruence.
Qed.

Lemma Order_full_clean_ok (db : DB) (o : Order.t) :
  Order_full_clean db o = Ok tt ->
  Order.clean_fields o = Ok tt
  /\ taken String.eqb Order.order_number (orders db) (Order.order_number o) = false.
Proof.
  unfold Order_full_clean, Order.clean_fields. intros H.
  destruct (failing (Order.field_checks o)) as [|f fs] eqn:Ef.
  - split; [reflexivity|]. simpl in H.
    destruct (taken String.eqb Order.order_number (orders db)
                (Order.order_number o)); [discriminate H|reflexivity].
  - simpl in H. discriminate H.
Qed.

(** What passes [full_clean()] goes into the table: an order, an order item
    or a commission that model validation accepts and whose key is unused
    is accepted by the INSERT, since validation has already looked at the
    unique order number, at the rows the foreign keys name and at the
    quantity. *)
Theorem validated_rows_are_inserted (max_value : option Z) (db : DB) :
  (forall o : Order.t,
      Order_full_clean db o = Ok tt ->
      fresh Order.order_id (orders db) (Order.order_id o) = true ->
      Order_create o db = Ok (set_orders (o :: orders db) db))
  /\ (forall i : OrderItem.t,
        OrderItem_full_clean max_value db i = Ok tt ->
        fresh OrderItem.item_id (order_items db) (OrderItem.item_id i) = true ->
        OrderItem_create i db = Ok (set_order_items (i :: order_items db) db))
  /\ (forall c : Commission.t,
        Commission_full_clean db c = Ok tt ->
        fresh Commission.commission_id (commissions db)
          (Commission.commission_id c) = true ->
        Commission_create c db = Ok (set_commissions (c :: commissions db) db)).
Proof.
  split; [|split].
  - intros o H Hpk. apply Order_full_clean_ok in H as [_ Hn].
    unfold Order_create, bind. rewrite Hpk, Hn. reflexivity.
  - intros i H Hpk. apply OrderItem_full_clean_ok in H.
    unfold OrderItem.field_checks in H.
    cbn [forallb snd] in H.
    rewrite !andb_true_iff in H.
    destruct H as (Ho & Hp & Hv & Hs & Hq & _).
    apply PositiveIntegerField_ok_range in Hq. destruct Hq as [Hq _].
    unfold OrderItem_create, bind, PositiveIntegerField_db_check.
    rewrite Hpk, Ho, Hp, Hv, Hs.
    replace (0 <=? OrderItem.quantity i) with true
      by (symmetry; apply Z.leb_le; lia).
    reflexivity.
  - intros c H Hpk. apply Commission_full_clean_ok in H.
    unfold Commission.field_checks in H. simpl in H.
    rewrite !andb_true_iff in H.
    destruct H as (Ho & Hs & Hi & _).
    unfold Commission_create, bind. rewrite Hpk, Ho, Hs, Hi. reflexivity.
Qed.

Lemma validated_rows_are_inserted_witness :
  OrderItem_create item_zero base_db
  = Ok (set_order_items (item_zero :: order_items base_db) base_db)
  /\ Order_create order_off base_db
     = Ok (set_orders (order_off :: orders base_db) base_db).
Proof.
  pose proof (validated_rows_are_inserted (Some 2147483647) base_db)
    as (Ho & Hi & _).
  split; [apply Hi; reflexivity|apply Ho; reflexivity].
Defined.

(** ** Labels *)

Lemma uint_no_space (d : Decimal.uint) :
  no_space (DecimalString.NilEmpty.string_of_uint d) = true.
Proof. induction d; simpl; assumption || reflexivity. Qed.

Lemma py_str_int_no_space (n : Z) : no_space (py_str_int n) = true.
Proof.
  unfold py_str_int, DecimalString.NilZero.string_of_int,
    DecimalString.NilZero.string_of_uint.
  destruct (Z.to_int n) as [d|d]; destruct d; simpl;
    try reflexivity; apply uint_no_space.
Qed.

Lemma py_str_int_inj (n m : Z) : py_str_int n = py_str_int m -> n = m.
Proof.
  unfold py_str_int. intros E. apply DecimalZ.to_int_inj.
  assert (Hn : forall z,
            DecimalString.NilZero.int_of_string
              (DecimalString.NilZero.string_of_int (Z.to_int z))
            = Some (Z.to_int z)).
  { intros z. apply DecimalString.NilZero.isi; destruct z; simpl;
      try discriminate; intros H; injection H as H;
      exact (DecimalPos.Unsigned.to_uint_nonnil _ H). }
  pose proof (Hn n) as H1. rewrite E, Hn in H1. now injection H1.
Qed.

(** Two strings without spaces, each followed by a space and a rest, agree
    when the whole strings agree. *)
Lemma split_at_space (a : string) :
  forall (b r1 r2 : string),
    no_space a = true -> no_space b = true ->
    String.append a (String Ascii.Space r1) = String.append b (String Ascii.Space r2) ->
    a = b /\ r1 = r2.
Proof.
  induction a as [|c a IH]; intros [|d b] r1 r2 Ha Hb E; simpl in *.
  - injection E as ->. split; reflexivity.
  - injection E as Ec _. subst d.
    apply andb_true_iff in Hb as [Hb _]. discriminate Hb.
  - injection E as Ec _. subst c.
    apply andb_true_iff in Ha as [Ha _]. discriminate Ha.
  - injection E as -> E.
    apply andb_true_iff in Ha as [_ Ha]. apply andb_true_iff in Hb as [_ Hb].
    destruct (IH b r1 r2 Ha Hb E) as [-> ->]. split; reflexivity.
Qed.

Lemma append_cancel_l (s a b : string) :
  String.append s a = String.append s b -> a = b.
Proof.
  induction s as [|c s IH]; simpl; intros E; [exact E|].
  injection E as E. now apply IH.
Qed.

Lemma lookup_of_taken (A : Type) (pk : A -> Z) (t : list A) (k : Z) :
  taken Z.eqb pk t k = true ->
  exists r, lookup Z.eqb pk t k = Some r /\ In r t /\ pk r = k.
Proof.
  unfold taken, lookup. intros H.
  destruct (find (fun r => pk r =? k) t) as [r|] eqn:E.
  - exists r. apply find_some in E as [Hin Hk].
    repeat split; [exact Hin|now apply Z.eqb_eq].
  - apply existsb_exists in H as (x & Hx & Hk).
    pose proof (find_none _ _ E x Hx) as Hn. simpl in Hn. congruence.
Qed.

(** [str()] of a stored order item never raises: its order exists, and the
    label is "Item <item_id> for order <order_number>" with the number of
    that order.  The label tells the items apart: two stored items with the
    same label are the same item. *)
Theorem order_item_label_identifies_item (db : DB) (Hc : db_consistent db) :
  (forall i, In i (order_items db) ->
     exists o, In o (orders db)
               /\ Order.order_id o = OrderItem.order i
               /\ OrderItem_str db i
                  = Ok (String.append "Item "
                          (String.append (py_str_int (OrderItem.item_id i))
                             (String.append " for order " (Order.order_number o)))))
  /\ (forall i j s,
        In i (order_items db) -> In j (order_items db) ->
        OrderItem_str db i = Ok s -> OrderItem_str db j = Ok s -> i = j).
Proof.
  split.
  - intros i Hi. pose proof (fk_item_order Hc) as Hfk.
    unfold references in Hfk. rewrite forallb_forall in Hfk.
    destruct (lookup_of_taken _ _ _ (Hfk i Hi)) as (o & El & Ho & Ek).
    exists o. split; [exact Ho|]. split; [exact Ek|].
    unfold OrderItem_str. rewrite El. reflexivity.
  - intros i j s Hi Hj Ei Ej. unfold OrderItem_str in Ei, Ej.
    destruct (lookup Z.eqb Order.order_id (orders db) (OrderItem.order i));
      [|discriminate Ei].
    destruct (lookup Z.eqb Order.order_id (orders db) (OrderItem.order j));
      [|discriminate Ej].
    injection Ei as Ei. injection Ej as Ej. rewrite <- Ej in Ei. clear Ej.
    simpl in Ei. injection Ei as Ei.
    apply split_at_space in Ei as [Eid _];
      [|apply py_str_int_no_space|apply py_str_int_no_space].
    apply py_str_int_inj in Eid.
    exact (@unique_same_key _ _ _ _ Z.eqb_eq _ (pk_order_items Hc) i j Hi Hj Eid).
Qed.

Lemma order_item_label_identifies_item_witness :
  OrderItem_str base_db item_1 = Ok "Item 1 for order ORD-0001".
Proof.
  assert (Hc : db_consistent base_db) by (constructor; reflexivity).
  destruct (proj1 (order_item_label_identifies_item Hc) item_1
              (or_introl eq_refl)) as (o & Ho & _ & E).
  rewrite E. destruct Ho as [<-|[]]. reflexivity.
Defined.

(** [str()] of a stored variant never raises: its product exists, and the
    label is "<product_name> - " followed by the variant name or, when the
    name is missing or empty, by the sku ("None" when that is missing too).
    Two stored variants of one product that have no name and do have an sku
    get different labels. *)
Theorem variant_label_falls_back_to_sku (db : DB) (Hc : db_consistent db) :
  (forall v, In v (variants db) ->
     exists p, In p (products db)
               /\ Product.product_id p = ProductVariant.product v
               /\ ProductVariant_str db v
                  = Ok (String.append (Product.product_name p)
                          (String.append " - "
                             (py_format (py_or (ProductVariant.variant_name v)
                                           (ProductVariant.sku v))))))
  /\ (forall v, py_or None (ProductVariant.sku v) = ProductVariant.sku v
                /\ py_or (Some "") (ProductVariant.sku v) = ProductVariant.sku v)
  /\ (forall a b s,
        In a (variants db) -> In b (variants db) ->
        ProductVariant.product a = ProductVariant.product b ->
        (ProductVariant.variant_name a = None
         \/ ProductVariant.variant_name a = Some "") ->
        (ProductVariant.variant_name b = None
         \/ ProductVariant.variant_name b = Some "") ->
        ProductVariant.sku a <> None -> ProductVariant.sku b <> None ->
        ProductVariant_str db a = Ok s -> ProductVariant_str db b = Ok s ->
        a = b).
Proof.
  split; [|split].
  - intros v Hv. pose proof (fk_variant_product Hc) as Hfk.
    unfold references in Hfk. rewrite forallb_forall in Hfk.
    destruct (lookup_of_taken _ _ _ (Hfk v Hv)) as (p & El & Hp & Ek).
    exists p. split; [exact Hp|]. split; [exact Ek|].
    unfold ProductVariant_str. rewrite El. reflexivity.
  - intros v. split; reflexivity.
  - intros a b s Ha Hb Ep Hna Hnb Hsa Hsb Ea Eb.
    unfold ProductVariant_str in Ea, Eb. rewrite <- Ep in Eb.
    destruct (lookup Z.eqb Product.product_id (products db)
                (ProductVariant.product a)) as [p|]; [|discriminate Ea].
    injection Ea as Ea. injection Eb as Eb. rewrite <- Eb in Ea. clear Eb.
    apply append_cancel_l in Ea. simpl in Ea. injection Ea as Ea.
    assert (Hfa : py_or (ProductVariant.variant_name a) (ProductVariant.sku a)
                  = ProductVariant.sku a)
      by (destruct Hna as [-> | ->]; reflexivity).
    assert (Hfb : py_or (ProductVariant.variant_name b) (ProductVariant.sku b)
                  = ProductVariant.sku b)
      by (destruct Hnb as [-> | ->]; reflexivity).
    rewrite Hfa, Hfb in Ea.
    destruct (ProductVariant.sku a) as [sa|] eqn:Esa; [|now destruct Hsa].
    destruct (ProductVariant.sku b) as [sb|] eqn:Esb; [|now destruct Hsb].
    simpl in Ea. subst sb.
    apply (@unique_matching_rows _ _ _ _ ZnullString_eqb_sym _
             (uq_variant_sku Hc) a b Ha Hb).
    unfold ProductVariant_product_sku, pair_eqb, null_eqb. simpl.
    rewrite Ep, Esa, Esb, Z.eqb_refl, String.eqb_refl. reflexivity.
Qed.

Lemma variant_label_falls_back_to_sku_witness :
  ProductVariant_str base_db variant_1 = Ok "Teapot - Blue"
  /\ ProductVariant_str base_db
       (ProductVariant.mk 1 1 (Some "") (Some "TP-1-B") (d2 50 00) None None None
          None None true 1001)
     = Ok "Teapot - TP-1-B".
Proof.
  assert (Hc : db_consistent base_db) by (constructor; reflexivity).
  destruct (proj1 (variant_label_falls_back_to_sku Hc) variant_1
              (or_introl eq_refl)) as (p & Hp & _ & E).
  split; [|reflexivity].
  rewrite E. destruct Hp as [<-|[]]. reflexivity.
Defined.

(** ** Rating summaries *)

Lemma nullZ_eqb_sym (x y : option Z) : null_eqb Z.eqb x y = null_eqb Z.eqb y x.
Proof. destruct x, y; simpl; try reflexivity. apply Z.eqb_sym. Qed.

Lemma RatingSummary_create_consistent (r : RatingSummary.t) (db : DB)
    (t t' : list RatingSummary.t) :
  summaries_consistent db t -> RatingSummary_create r db t = Ok t' ->
  t' = r :: t /\ summaries_consistent db t'.
Proof.
  intros Hc H. unfold RatingSummary_create in H. passed H.
  split; [reflexivity|].
  destruct Hc. constructor; simpl; unfold fresh in *;
    repeat match goal with
           | E : negb _ = true |- _ => apply negb_true_iff in E
           end;
    repeat match goal with
           | E : ?x = _ |- context [?x] => rewrite E
           end;
    simpl; try reflexivity; try assumption.
  apply andb_true_iff. split; [|assumption].
  match goal with
  | H : forallb PositiveIntegerField_db_check _ = true |- _ => exact H
  end.
Qed.

(** A rating summary belongs to exactly one of a product and a shop
    ([chk_summary_target]), a product has at most one summary and so has a
    shop (the two one-to-one keys), although any number of summaries leave
    the product, or the shop, empty.  An INSERT of a summary with both
    targets or with none fails with IntegrityError, and a successful INSERT
    keeps all of this. *)
Theorem rating_summary_has_one_target (db : DB) (t : list RatingSummary.t)
    (Hc : summaries_consistent db t) :
  (forall r, In r t ->
     (exists p, RatingSummary.product r = Some p /\ RatingSummary.shop r = None)
     \/ (exists s, RatingSummary.shop r = Some s /\ RatingSummary.product r = None))
  /\ (forall a b p, In a t -> In b t ->
        RatingSummary.product a = Some p -> RatingSummary.product b = Some p ->
        a = b)
  /\ (forall a b s, In a t -> In b t ->
        RatingSummary.shop a = Some s -> RatingSummary.shop b = Some s -> a = b)
  /\ (forall r,
        (RatingSummary.product r = None <-> RatingSummary.shop r = None) ->
        exists c, RatingSummary_create r db t = Err (IntegrityError c))
  /\ (forall r t',
        RatingSummary_create r db t = Ok t' ->
        t' = r :: t /\ summaries_consistent db t').
Proof.
  split; [|split; [|split; [|split]]].
  - intros r Hr. pose proof (ck_summary_target Hc) as H.
    rewrite forallb_forall in H. specialize (H r Hr).
    unfold RatingSummary.chk_summary_target in H.
    destruct (RatingSummary.product r) as [p|], (RatingSummary.shop r) as [s|];
      simpl in H; try discriminate H.
    + left. now exists p.
    + right. now exists s.
  - intros a b p Ha Hb Ea Eb.
    apply (@unique_matching_rows _ _ _ _ nullZ_eqb_sym _
             (uq_summary_product Hc) a b Ha Hb).
    rewrite Ea, Eb. simpl. apply Z.eqb_refl.
  - intros a b s Ha Hb Ea Eb.
    apply (@unique_matching_rows _ _ _ _ nullZ_eqb_sym _
             (uq_summary_shop Hc) a b Ha Hb).
    rewrite Ea, Eb. simpl. apply Z.eqb_refl.
  - intros r Hboth.
    assert (Hk : RatingSummary.chk_summary_target r = false).
    { unfold RatingSummary.chk_summary_target.
      destruct (RatingSummary.product r) as [p|], (RatingSummary.shop r) as [s|];
        simpl; try reflexivity.
      - destruct Hboth as [_ H]. now specialize (H eq_refl).
      - destruct Hboth as [H _]. now specialize (H eq_refl). }
    unfold RatingSummary_create, bind.
    repeat match goal with
           | |- context [require ?b ?s] =>
               first
                 [ rewrite Hk; rewrite require_false; eexists; reflexivity
                 | destruct b;
                   [ rewrite require_true
                   | rewrite require_false; eexists; reflexivity ] ]
           end.
  - intros r t'. now apply RatingSummary_create_consistent.
Qed.

Lemma rating_summary_has_one_target_witness :
  (exists c, RatingSummary_create
               (RatingSummary.mk 1 (Some 1) (Some 2) 0 0 0 0 0 0 0 1) base_db []
             = Err (IntegrityError c))
  /\ RatingSummary_create
       (RatingSummary.mk 2 None (Some 1) 0 0 0 0 0 0 0 1) base_db
       [RatingSummary.mk 1 None (Some 2) 0 0 0 0 0 0 0 1]
     = Ok [RatingSummary.mk 2 None (Some 1) 0 0 0 0 0 0 0 1;
           RatingSummary.mk 1 None (Some 2) 0 0 0 0 0 0 0 1].
Proof.
  split; [|reflexivity].
  assert (Hc : summaries_consistent base_db []) by (constructor; reflexivity).
  apply (proj1 (proj2 (proj2 (proj2 (rating_summary_has_one_target Hc))))).
  simpl. split; discriminate.
Defined.

(** ** Choices and column widths *)

(** Every choice of every field declared with [choices] is accepted by the
    field's own validation, so none is longer than the field's
    [max_length] ('processing' and 'not_helpful' fill theirs exactly);
    every declared default is one of the field's choices; and an
    [OrderStatusHistory.status], a free [CharField(max_length=50)], can hold
    every status an order can take. *)
Theorem declared_choices_fit_their_fields :
  (forall f, In f declared_choice_fields ->
     (forall v, In v (choice_values (cf_choices f)) ->
                ChoiceField_ok (cf_max_length f) (cf_choices f) v = true)
     /\ (forall d, cf_default f = Some d ->
                   ChoiceField_ok (cf_max_length f) (cf_choices f) d = true))
  /\ (forall v, In v (choice_values Order.STATUS_CHOICES) ->
                CharField_ok 50 v = true).
Proof.
  split.
  - assert (Hall :
      forallb (fun f =>
                 forallb (ChoiceField_ok (cf_max_length f) (cf_choices f))
                   (choice_values (cf_choices f))
                 && match cf_default f with
                    | Some d => ChoiceField_ok (cf_max_length f) (cf_choices f) d
                    | None => true
                    end) declared_choice_fields = true) by (vm_compute; reflexivity).
    rewrite forallb_forall in Hall. intros f Hf.
    specialize (Hall f Hf). apply andb_true_iff in Hall as [Hv Hd]. split.
    + rewrite forallb_forall in Hv. exact Hv.
    + intros d E. rewrite E in Hd. exact Hd.
  - intros v Hv.
    assert (Hall : forallb (CharField_ok 50) (choice_values Order.STATUS_CHOICES)
                   = true) by (vm_compute; reflexivity).
    rewrite forallb_forall in Hall. now apply Hall.
Qed.

Lemma declared_choices_fit_their_fields_witness :
  ChoiceField_ok 10 Order.STATUS_CHOICES "processing" = true
  /\ ChoiceField_ok 10 Commission.STATUS_CHOICES "pending" = true.
Proof.
  pose proof (proj1 declared_choices_fit_their_fields) as H.
  split.
  - apply (proj1 (H (mkChoiceField "Order" "status" 10 Order.STATUS_CHOICES
                       (Some "pending"))
                    ltac:(vm_compute; tauto))).
    vm_compute. tauto.
  - apply (proj2 (H (mkChoiceField "Commission" "status" 10
                       Commission.STATUS_CHOICES (Some "pending"))
                    ltac:(vm_compute; tauto)) "pending").
    reflexivity.
Defined.

(** ** INSERT followed by DELETE *)

Lemma without_nothing (A : Type) (pk : A -> Z) (t : list A) :
  without pk [] t = t.
Proof. unfold without. apply filter_all. reflexivity. Qed.

Lemma unreferenced (A B : Type) (fk : A -> Z) (pk : B -> Z)
    (parent : list B) (child : list A) (k : Z) :
  references fk pk parent child = true ->
  taken Z.eqb pk parent k = false ->
  filter (fun r => fk r =? k) child = [].
Proof.
  intros Hfk Hk. apply filter_nil_of_none. intros r Hr.
  unfold references in Hfk. rewrite forallb_forall in Hfk.
  specialize (Hfk r Hr). apply Z.eqb_neq. intros E. congruence.
Qed.

Lemma others_kept (A : Type) (pk : A -> Z) (t : list A) (k : Z) :
  taken Z.eqb pk t k = false ->
  filter (fun r => negb (pk r =? k)) t = t.
Proof.
  intros Hk. apply filter_all. intros r Hr.
  rewrite taken_false_iff in Hk. now rewrite (Hk r Hr).
Qed.

(** An order that has just been inserted can be deleted again, and so can a
    shop: the deletion is not refused, finds nothing to cascade into, and
    gives back the database as it was before the INSERT. *)
Theorem insert_then_delete_restores (db : DB) (Hc : db_consistent db) :
  (forall (o : Order.t) (db1 : DB),
      Order_create o db = Ok db1 ->
      Order_delete (Order.order_id o) db1 = Ok db)
  /\ (forall (s : Shop.t) (db1 : DB),
        Shop_create s db = Ok db1 ->
        Shop_delete (Shop.shop_id s) db1 = Ok db).
Proof.
  split.
  - intros o db1 H. unfold Order_create in H. passed H.
    unfold fresh in Hpass. apply negb_true_iff in Hpass.
    unfold Order_delete, order_payout_transactions, order_commissions,
      order_coupon_usages, order_address_rows, order_items_of.
    simpl. rewrite Z.eqb_refl. simpl.
    rewrite (unreferenced _ _ _ _ _ (fk_item_order Hc) Hpass).
    rewrite (unreferenced _ _ _ _ _ (fk_address_order Hc) Hpass).
    rewrite (unreferenced _ _ _ _ _ (fk_usage_order Hc) Hpass).
    assert (Ecom : filter (fun c => (Commission.order c =? Order.order_id o)
                                    || taken Z.eqb OrderItem.item_id []
                                         (Commission.item c)) (commissions db) = []).
    { apply filter_nil_of_none. intros c Hcin. simpl. rewrite orb_false_r.
      pose proof (fk_commission_order Hc) as Hfk. unfold references in Hfk.
      rewrite forallb_forall in Hfk. specialize (Hfk c Hcin).
      apply Z.eqb_neq. intros E. congruence. }
    rewrite Ecom. simpl.
    assert (Eptx : filter (fun _ : PayoutTransaction.t => false)
                     (payout_transactions db) = [])
      by (apply filter_nil_of_none; reflexivity).
    rewrite Eptx, !without_nothing, (others_kept _ _ _ Hpass).
    destruct db. reflexivity.
  - intros s db1 H. unfold Shop_create in H. passed H.
    unfold fresh in Hpass. apply negb_true_iff in Hpass.
    assert (Eprod : shop_products (Shop.shop_id s)
                      (set_shops (s :: shops db) db) = [])
      by exact (unreferenced _ _ _ _ _ (fk_product_shop Hc) Hpass).
    assert (Ecom : shop_commissions (Shop.shop_id s)
                     (set_shops (s :: shops db) db) = [])
      by exact (unreferenced _ _ _ _ _ (fk_commission_shop Hc) Hpass).
    assert (Epay : restricted_payouts (Shop.shop_id s)
                     (set_shops (s :: shops db) db) = [])
      by exact (unreferenced _ _ _ _ _ (fk_payout_shop Hc) Hpass).
    assert (Ecp : shop_coupons (Shop.shop_id s)
                    (set_shops (s :: shops db) db) = []).
    { apply filter_nil_of_none. intros c Hcin. unfold coupon_of_shop.
      pose proof (fk_coupon_shop Hc) as Hfk. unfold null_references in Hfk.
      rewrite forallb_forall in Hfk. specialize (Hfk c Hcin).
      destruct (Coupon.shop c) as [k|]; [|reflexivity].
      apply Z.eqb_neq. intros E. congruence. }
    assert (Evar : shop_variants (Shop.shop_id s)
                     (set_shops (s :: shops db) db) = []).
    { unfold shop_variants. rewrite Eprod.
      apply filter_nil_of_none. reflexivity. }
    assert (Eptx : shop_payout_transactions (Shop.shop_id s)
                     (set_shops (s :: shops db) db) = []).
    { unfold shop_payout_transactions. rewrite Ecom.
      apply filter_nil_of_none. reflexivity. }
    assert (Eus : shop_coupon_usages (Shop.shop_id s)
                    (set_shops (s :: shops db) db) = []).
    { unfold shop_coupon_usages. rewrite Ecp.
      apply filter_nil_of_none. reflexivity. }
    assert (Eit : restricted_order_items (Shop.shop_id s)
                    (set_shops (s :: shops db) db) = []).
    { unfold restricted_order_items. rewrite Eprod, Evar.
      apply filter_nil_of_none. intros i Hi. simpl. rewrite !orb_false_r.
      pose proof (fk_item_shop Hc) as Hfk. unfold references in Hfk.
      rewrite forallb_forall in Hfk. specialize (Hfk i Hi).
      apply Z.eqb_neq. intros E. congruence. }
    unfold Shop_delete.
    rewrite Eit, Epay, Eprod, Evar, Ecom, Eptx, Ecp, Eus, !without_nothing.
    simpl. rewrite Z.eqb_refl. simpl.
    rewrite (others_kept _ _ _ Hpass).
    destruct db. reflexivity.
Qed.

Lemma insert_then_delete_restores_witness :
  Order_delete 2 (set_orders (order_off :: orders base_db) base_db) = Ok base_db.
Proof.
  assert (Hc : db_consistent base_db) by (constructor; reflexivity).
  apply (proj1 (insert_then_delete_restores Hc) order_off). reflexivity.
Defined.

(** ** Deleting an order, then the shop *)

Lemma Shop_delete_unrestricted (sid : Z) (db : DB) :
  taken Z.eqb Shop.shop_id (shops db) sid = true ->
  (forall i, In i (order_items db) ->
     OrderItem.shop i <> sid
     /\ (forall p, In p (products db) ->
                   Product.product_id p = OrderItem.product i ->
                   Product.shop p <> sid)
     /\ (forall v p, In v (variants db) -> In p (products db) ->
                     ProductVariant.variant_id v = OrderItem.variant i ->
                     Product.product_id p = ProductVariant.product v ->
                     Product.shop p <> sid)) ->
  (forall p, In p (payouts db) -> Payout.shop p <> sid) ->
  exists db', Shop_delete sid db = Ok db'.
Proof.
  intros Hex Hitems Hpay.
  assert (Hprod : forall k,
            taken Z.eqb Product.product_id (shop_products sid db) k = true ->
            exists p, In p (products db) /\ Product.product_id p = k
                      /\ Product.shop p = sid).
  { intros k Ht. apply taken_iff in Ht as (p & Hp & E).
    apply filter_In in Hp as [Hp Hs].
    exists p. split; [exact Hp|]. split; now apply Z.eqb_eq. }
  assert (Hni : restricted_order_items sid db = []).
  { apply filter_nil_of_none. intros i Hi.
    destruct (Hitems i Hi) as (Hs & Hp & Hv).
    rewrite !orb_false_iff. split; [split|].
    - now apply Z.eqb_neq.
    - apply not_true_is_false. intros Ht. apply Hprod in Ht as (p & Hpin & E & Es).
      exact (Hp p Hpin E Es).
    - apply not_true_is_false. intros Ht. apply taken_iff in Ht as (v & Hvin & E).
      apply filter_In in Hvin as [Hvin Hvp]. apply Z.eqb_eq in E.
      apply Hprod in Hvp as (p & Hpin & Ep & Es).
      exact (Hv v p Hvin Hpin E Ep Es). }
  assert (Hnp : restricted_payouts sid db = []).
  { apply filter_nil_of_none. intros p Hp. apply Z.eqb_neq. now apply Hpay. }
  unfold Shop_delete. rewrite Hex, Hni, Hnp. simpl. eexists. reflexivity.
Qed.

Lemma Shop_delete_shops (sid : Z) (db db' : DB) :
  Shop_delete sid db = Ok db' ->
  shops db' = filter (fun s => negb (Shop.shop_id s =? sid)) (shops db).
Proof.
  unfold Shop_delete. intros H.
  destruct (taken Z.eqb Shop.shop_id (shops db) sid); [|discriminate H].
  simpl in H.
  destruct (restricted_order_items sid db); [|discriminate H].
  destruct (restricted_payouts sid db); [|discriminate H].
  injection H as <-. reflexivity.
Qed.

Lemma taken_filter_other (A : Type) (pk : A -> Z) (t : list A) (k : Z) :
  taken Z.eqb pk (filter (fun r => negb (pk r =? k)) t) k = false.
Proof.
  apply taken_false_iff. intros r Hr. apply filter_In in Hr as [_ Hne].
  now apply negb_true_iff.
Qed.

(** A shop that only the items of one order keep from being deleted can be
    deleted once that order is: when no payout names the shop and every
    order item that names the shop, one of its products or one of their
    variants belongs to the order, deleting the order succeeds and deleting
    the shop afterwards succeeds too, leaving a state that satisfies every
    constraint. *)
Theorem order_delete_unblocks_shop_delete (sid oid : Z) (db : DB) :
  db_consistent db ->
  taken Z.eqb Shop.shop_id (shops db) sid = true ->
  taken Z.eqb Order.order_id (orders db) oid = true ->
  (forall p, In p (payouts db) -> Payout.shop p <> sid) ->
  (forall i, In i (order_items db) -> OrderItem.order i <> oid ->
     OrderItem.shop i <> sid
     /\ (forall p, In p (products db) ->
                   Product.product_id p = OrderItem.product i ->
                   Product.shop p <> sid)
     /\ (forall v p, In v (variants db) -> In p (products db) ->
                     ProductVariant.variant_id v = OrderItem.variant i ->
                     Product.product_id p = ProductVariant.product v ->
                     Product.shop p <> sid)) ->
  exists db1 db2 : DB,
    Order_delete oid db = Ok db1
    /\ Shop_delete sid db1 = Ok db2
    /\ db_consistent db2
    /\ taken Z.eqb Shop.shop_id (shops db2) sid = false
    /\ taken Z.eqb Order.order_id (orders db2) oid = false.
Proof.
  intros Hc Hs Ho Hpay Hitems.
  destruct (Order_delete oid db) as [db1|e] eqn:Ed;
    [|unfold Order_delete in Ed; rewrite Ho in Ed; discriminate Ed].
  pose proof (@Order_delete_consistent _ _ _ Hc Ed) as Hc1.
  assert (Hshape : shops db1 = shops db /\ products db1 = products db
                   /\ variants db1 = variants db /\ payouts db1 = payouts db
                   /\ orders db1
                      = filter (fun o => negb (Order.order_id o =? oid)) (orders db)
                   /\ order_items db1
                      = without OrderItem.item_id (order_items_of oid db)
                          (order_items db)).
  { unfold Order_delete in Ed. rewrite Ho in Ed. simpl in Ed.
    injection Ed as <-. simpl. repeat split; reflexivity. }
  destruct Hshape as (Es & Ep & Ev & Ey & Eo & Ei).
  destruct (@Shop_delete_unrestricted sid db1) as [db2 Hd2].
  - now rewrite Es.
  - intros i Hi. rewrite Ei in Hi. apply kept_not_collected in Hi as [Hi Hne].
    apply Z.eqb_neq in Hne. rewrite Ep, Ev. now apply Hitems.
  - rewrite Ey. exact Hpay.
  - exists db1, db2. split; [reflexivity|]. split; [exact Hd2|].
    split; [exact (@Shop_delete_consistent _ _ _ Hc1 Hd2)|].
    split; [rewrite (Shop_delete_shops _ _ Hd2); apply taken_filter_other|].
    apply Shop_delete_ok in Hd2 as (_ & _ & _ & _ & Eo2 & _).
    rewrite Eo2, Eo. apply taken_filter_other.
Qed.

Lemma order_delete_unblocks_shop_delete_witness :
  Shop_delete 2 base_db = Err RestrictedError
  /\ exists db1 db2 : DB,
       Order_delete 1 base_db = Ok db1 /\ Shop_delete 2 db1 = Ok db2
       /\ shops db2 = [shop_alpha] /\ products db2 = [].
Proof.
  split; [reflexivity|].
  assert (Hc : db_consistent base_db) by (constructor; reflexivity).
  destruct (@order_delete_unblocks_shop_delete 2 1 base_db Hc eq_refl eq_refl)
    as (db1 & db2 & Hd1 & Hd2 & _).
  - intros p [].
  - intros i [<-|[]] Hne. now destruct Hne.
  - exists db1, db2. split; [exact Hd1|]. split; [exact Hd2|].
    vm_compute in Hd1. injection Hd1 as <-.
    vm_compute in Hd2. injection Hd2 as <-. split; reflexivity.
Defined.

(** ** SET_NULL under a unique_together *)

Lemma coupon_SET_NULL_key (cid : Z) (x r : DiscountUsageAnalytics.t) :
  let f := fun r =>
             match DiscountUsageAnalytics.coupon r with
             | Some c =>
                 if c =? cid then DiscountUsageAnalytics.set_coupon None r else r
             | None => r
             end in
  pair_eqb (null_eqb Z.eqb) Z.eqb
    (DiscountUsageAnalytics.unique_together (f x))
    (DiscountUsageAnalytics.unique_together (f r)) = true ->
  pair_eqb (null_eqb Z.eqb) Z.eqb
    (DiscountUsageAnalytics.unique_together x)
    (DiscountUsageAnalytics.unique_together r) = true.
Proof.
  unfold pair_eqb, DiscountUsageAnalytics.unique_together. simpl.
  destruct x as [ix cx dx ux tx rx ax], r as [ir cr dr ur tr rr ar]. simpl.
  destruct cx as [cx|], cr as [cr|]; simpl;
    try destruct (cx =? cid); try destruct (cr =? cid); simpl;
    intros H; try discriminate H; exact H.
Qed.

(** Deleting a coupon keeps its usage analytics: every row stays, with its
    key, date, count and amounts, and only the [coupon] of the rows that
    named the deleted coupon becomes NULL; no row names the coupon any
    more; and the (coupon, date) uniqueness still holds, since a NULL
    coupon never conflicts. *)
Theorem coupon_set_null_keeps_analytics (cid : Z)
    (t : list DiscountUsageAnalytics.t) :
  unique (pair_eqb (null_eqb Z.eqb) Z.eqb) DiscountUsageAnalytics.unique_together t
  = true ->
  unique (pair_eqb (null_eqb Z.eqb) Z.eqb) DiscountUsageAnalytics.unique_together
    (coupon_SET_NULL cid t) = true
  /\ map DiscountUsageAnalytics.analytics_id (coupon_SET_NULL cid t)
     = map DiscountUsageAnalytics.analytics_id t
  /\ map (fun r => (DiscountUsageAnalytics.date r,
                    DiscountUsageAnalytics.usage_count r,
                    DiscountUsageAnalytics.total_discount_amount r,
                    DiscountUsageAnalytics.revenue_impact r))
       (coupon_SET_NULL cid t)
     = map (fun r => (DiscountUsageAnalytics.date r,
                      DiscountUsageAnalytics.usage_count r,
                      DiscountUsageAnalytics.total_discount_amount r,
                      DiscountUsageAnalytics.revenue_impact r)) t
  /\ (forall r, In r (coupon_SET_NULL cid t) ->
                DiscountUsageAnalytics.coupon r <> Some cid)
  /\ (forall r, In r t -> DiscountUsageAnalytics.coupon r <> Some cid ->
                In r (coupon_SET_NULL cid t)).
Proof.
  intros Hu. unfold coupon_SET_NULL.
  set (f := fun r =>
              match DiscountUsageAnalytics.coupon r with
              | Some c =>
                  if c =? cid then DiscountUsageAnalytics.set_coupon None r else r
              | None => r
              end).
  split; [|split; [|split; [|split]]].
  - induction t as [|r t IH]; simpl; [reflexivity|].
    simpl in Hu. apply andb_true_iff in Hu as [Hfree Hu].
    apply negb_true_iff in Hfree. rewrite taken_false_iff in Hfree.
    rewrite (IH Hu), andb_true_r. apply negb_true_iff.
    apply taken_false_iff. intros y Hy. apply in_map_iff in Hy as (x & <- & Hx).
    apply not_true_is_false. intros E.
    apply (coupon_SET_NULL_key cid x r) in E.
    rewrite (Hfree x Hx) in E. discriminate E.
  - rewrite map_map. apply map_ext. intros r. unfold f.
    destruct (DiscountUsageAnalytics.coupon r) as [c|]; [|reflexivity].
    destruct (c =? cid); reflexivity.
  - rewrite map_map. apply map_ext. intros r. unfold f.
    destruct (DiscountUsageAnalytics.coupon r) as [c|]; [|reflexivity].
    destruct (c =? cid); reflexivity.
  - intros r Hr. apply in_map_iff in Hr as (x & <- & _). unfold f.
    destruct (DiscountUsageAnalytics.coupon x) as [c|] eqn:Ec.
    + destruct (c =? cid) eqn:E; simpl; [discriminate|].
      rewrite Ec. apply Z.eqb_neq in E. congruence.
    + rewrite Ec. discriminate.
  - intros r Hr Hne. apply in_map_iff. exists r. split; [|exact Hr].
    unfold f. destruct (DiscountUsageAnalytics.coupon r) as [c|]; [|reflexivity].
    destruct (c =? cid) eqn:E; [|reflexivity].
    apply Z.eqb_eq in E. congruence.
Qed.

Lemma coupon_set_null_keeps_analytics_witness :
  coupon_SET_NULL 1
    [DiscountUsageAnalytics.mk 2 (Some 1) 20260102 3 1500 9000 1;
     DiscountUsageAnalytics.mk 1 None 20260102 1 500 3000 1]
  = [DiscountUsageAnalytics.mk 2 None 20260102 3 1500 9000 1;
     DiscountUsageAnalytics.mk 1 None 20260102 1 500 3000 1]
  /\ unique (pair_eqb (null_eqb Z.eqb) Z.eqb)
       DiscountUsageAnalytics.unique_together
       (coupon_SET_NULL 1
          [DiscountUsageAnalytics.mk 2 (Some 1) 20260102 3 1500 9000 1;
           DiscountUsageAnalytics.mk 1 None 20260102 1 500 3000 1]) = true.
Proof.
  split; [reflexivity|].
  apply (coupon_set_null_keeps_analytics 1). reflexivity.
Defined.
